(** * Styled Map Package: the validator and the URL helpers

    A shallow embedding of [lib/validator.js] (the layered audit of an SMP
    archive) together with the small helpers of [lib/utils] that the
    specification refers to, and the properties of the specification that
    are stated about them.

    Conventions of the embedding.
    - A JavaScript string is a [string]: the bytes of its UTF-8 encoding.
      [startsWith], [endsWith] and [indexOf] commute with that encoding,
      [slice] is only used at the positions they give, and [trim] strips
      the encodings of the code points ECMAScript calls WhiteSpace or
      LineTerminator.
    - The two arrays [errors] and [warnings] that [validate] pushes to are
      the state of a small monad; an early [return] and a thrown exception
      are its two abrupt completions.
    - The collaborators the validator imports (yauzl's [open], the JSON
      consumer of [node:stream/consumers], MapLibre's [validateStyleMin])
      are variables of a section. *)

From Stdlib Require Import String Ascii List ZArith NArith QArith Lia Bool DecimalString.
Import ListNotations.
Open Scope list_scope.
Open Scope string_scope.
Close Scope Q_scope.
Set Warnings "-register-all".

(* ================================================================== *)
(** * JavaScript strings *)
(* ================================================================== *)

(** The double quote character, written by code so that no literal has to
    escape it. *)
Definition dquote : string := String (ascii_of_nat 34) EmptyString.

(** The line feed. *)
Definition LF : string := String (ascii_of_nat 10) EmptyString.

(** [s.startsWith(p)] *)
Fixpoint startsWith (s p : string) {struct p} : bool :=
  match p, s with
  | EmptyString, _ => true
  | String _ _, EmptyString => false
  | String b p', String a s' => if Ascii.eqb a b then startsWith s' p' else false
  end.

(** [s.slice(n)] for [0 <= n] *)
Fixpoint slice (s : string) (n : nat) {struct n} : string :=
  match n, s with
  | O, _ => s
  | S _, EmptyString => EmptyString
  | S n', String _ s' => slice s' n'
  end.

(** [s.slice(0, n)] for [0 <= n] *)
Fixpoint slice0 (s : string) (n : nat) {struct n} : string :=
  match n, s with
  | O, _ => EmptyString
  | S _, EmptyString => EmptyString
  | S n', String a s' => String a (slice0 s' n')
  end.

(** [s.indexOf(needle)], with [None] for [-1] *)
Fixpoint indexOf (s needle : string) : option nat :=
  if startsWith s needle then Some O
  else match s with
       | EmptyString => None
       | String _ s' => option_map S (indexOf s' needle)
       end.

(** [s.endsWith(suffix)] *)
Definition endsWith (s suffix : string) : bool :=
  (String.length suffix <=? String.length s)%nat
  && (slice s (String.length s - String.length suffix) =? suffix).

(** ** [String.prototype.trim]

    The code points trim removes are WhiteSpace (TAB, VT, FF, SP, NBSP,
    ZWNBSP and the category Zs) and LineTerminator (LF, CR, LS, PS). In
    UTF-8 they are one, two or three bytes long. *)

(** U+0009..U+000D and U+0020 *)
Definition ws1 (a : ascii) : bool :=
  let n := nat_of_ascii a in
  ((9 <=? n) && (n <=? 13) || (n =? 32))%nat.

(** U+00A0 is C2 A0 *)
Definition ws2 (a b : ascii) : bool :=
  ((nat_of_ascii a =? 194) && (nat_of_ascii b =? 160))%nat.

(** U+1680 is E1 9A 80; U+2000..U+200A are E2 80 80..8A; U+2028, U+2029
    and U+202F are E2 80 A8, A9 and AF; U+205F is E2 81 9F; U+3000 is
    E3 80 80; U+FEFF is EF BB BF. *)
Definition ws3 (a b c : ascii) : bool :=
  let x := nat_of_ascii a in
  let y := nat_of_ascii b in
  let z := nat_of_ascii c in
  (((x =? 225) && (y =? 154) && (z =? 128))
   || ((x =? 226) && (y =? 128)
       && (((128 <=? z) && (z <=? 138)) || (z =? 168) || (z =? 169) || (z =? 175)))
   || ((x =? 226) && (y =? 129) && (z =? 159))
   || ((x =? 227) && (y =? 128) && (z =? 128))
   || ((x =? 239) && (y =? 187) && (z =? 191)))%nat.

Fixpoint trimStart (s : string) : string :=
  match s with
  | EmptyString => s
  | String a s1 =>
      if ws1 a then trimStart s1
      else match s1 with
           | EmptyString => s
           | String b s2 =>
               if ws2 a b then trimStart s2
               else match s2 with
                    | EmptyString => s
                    | String c s3 => if ws3 a b c then trimStart s3 else s
                    end
           end
  end.

(** A string of white space only. *)
Definition blank (s : string) : bool := (trimStart s =? EmptyString).

Fixpoint trimEnd (s : string) : string :=
  match s with
  | EmptyString => EmptyString
  | String a s' => if blank s then EmptyString else String a (trimEnd s')
  end.

Definition trim (s : string) : string := trimEnd (trimStart s).

(** The code points of WhiteSpace and LineTerminator, each as the bytes of
    its UTF-8 encoding: U+0009 to U+000D, U+0020, U+00A0, U+1680, U+2000
    to U+200A, U+2028, U+2029, U+202F, U+205F, U+3000 and U+FEFF. *)
Definition utf8 (bytes : list nat) : string :=
  fold_right (fun b s => String (ascii_of_nat b) s) EmptyString bytes.

Definition whiteSpace : list string :=
  map utf8
      [ [9]; [10]; [11]; [12]; [13]; [32]; [194; 160]; [225; 154; 128];
        [226; 128; 128]; [226; 128; 129]; [226; 128; 130]; [226; 128; 131];
        [226; 128; 132]; [226; 128; 133]; [226; 128; 134]; [226; 128; 135];
        [226; 128; 136]; [226; 128; 137]; [226; 128; 138];
        [226; 128; 168]; [226; 128; 169]; [226; 128; 175];
        [226; 129; 159]; [227; 128; 128]; [239; 187; 191] ]%nat.

(** A run of white space: any number of those code points. *)
Inductive whitespace : string -> Prop :=
| whitespace_nil : whitespace EmptyString
| whitespace_cons (c s : string) :
    In c whiteSpace -> whitespace s -> whitespace (c ++ s).

(** ** Digits and numbers *)

(** [\d] without the unicode flag: the ten ASCII digits. *)
Definition isDigit (a : ascii) : bool :=
  let n := nat_of_ascii a in ((48 <=? n) && (n <=? 57))%nat.

Fixpoint allDigits (s : string) : bool :=
  match s with
  | EmptyString => true
  | String a s' => isDigit a && allDigits s'
  end.

(** The grammar [MAJOR.MINOR]: two non-empty runs of digits and a dot
    between them. *)
Definition MajorMinor (version major : string) : Prop :=
  exists minor,
    version = major ++ "." ++ minor
    /\ major <> EmptyString /\ minor <> EmptyString
    /\ allDigits major = true /\ allDigits minor = true.

(** A character of a version number: a digit or the dot. *)
Definition plain (a : ascii) : bool := isDigit a || Ascii.eqb a ".".

Fixpoint allPlain (s : string) : bool :=
  match s with
  | EmptyString => true
  | String a s' => plain a && allPlain s'
  end.

(** The longest prefix of digits, and what follows it. *)
Fixpoint spanDigits (s : string) : string * string :=
  match s with
  | EmptyString => (EmptyString, EmptyString)
  | String a s' =>
      if isDigit a
      then let (d, r) := spanDigits s' in (String a d, r)
      else (EmptyString, s)
  end.

(** [parseInt(digits, 10)] on a string of digits. JavaScript rounds the
    value to a double, and prints a large double in exponent notation;
    the embedding keeps the value exact, which is the same below 2^53
    and never changes whether the value is [1]. *)
Fixpoint parseDigits (acc : N) (s : string) : N :=
  match s with
  | EmptyString => acc
  | String a s' => parseDigits (acc * 10 + N.of_nat (nat_of_ascii a - 48)) s'
  end.

Definition parseInt10 (digits : string) : N := parseDigits 0%N digits.

(** [String(n)] for a non-negative and for a signed integer. *)
Definition showN (n : N) : string := NilZero.string_of_uint (N.to_uint n).
Definition showZ (z : Z) : string := NilZero.string_of_int (Z.to_int z).

(* ================================================================== *)
(** * JavaScript values *)
(* ================================================================== *)

(** What [JSON.parse] returns, and [undefined], which a property read adds.
    The fields of an object are listed in the order [Object.entries]
    enumerates them; a parsed object has no two fields of one name. *)
Inductive value : Type :=
| VUndefined
| VNull
| VBool (b : bool)
| VNumber (n : Q)
| VString (s : string)
| VArray (elements : list value)
| VObject (fields : list (string * value)).

(** What a [catch] clause receives. [validate] looks at three things:
    [err instanceof Error], [err.message] and [err?.code]; [String(err)]
    stands in for the message of a value that is not an [Error]. *)
Record exn : Type := mkExn {
  instanceofError : bool;
  code : option string;
  message : string;
  toString : string
}.

Definition TypeError (msg : string) : exn :=
  mkExn true None msg ("TypeError: " ++ msg).

(** [err instanceof Error ? err.message : String(err)] *)
Definition messageOf (err : exn) : string :=
  if instanceofError err then message err else toString err.

(** [err?.code === c] *)
Definition codeIs (err : exn) (c : string) : bool :=
  match code err with
  | Some c' => (c' =? c)
  | None => false
  end.

(** ToBoolean *)
Definition truthy (v : value) : bool :=
  match v with
  | VUndefined | VNull => false
  | VBool b => b
  | VNumber n => negb (Qnum n =? 0)%Z
  | VString s => negb (s =? EmptyString)
  | VArray _ | VObject _ => true
  end.

Definition isArray (v : value) : bool :=
  match v with VArray _ => true | _ => false end.

Definition isNumber (v : value) : bool :=
  match v with VNumber _ => true | _ => false end.

(** [typeof v === 'object'], which holds of [null] and of arrays too. *)
Definition isObjectType (v : value) : bool :=
  match v with VNull | VArray _ | VObject _ => true | _ => false end.

Fixpoint lookup (fields : list (string * value)) (key : string) : value :=
  match fields with
  | [] => VUndefined
  | (k, v) :: rest => if (k =? key) then v else lookup rest key
  end.

(** [v[key]] on a value that is neither [null] nor [undefined], for the
    keys [validate] reads: none of them is an array index, ['length'] or
    a property of a built-in prototype, so only an object can have one. *)
Definition property (v : value) (key : string) : value :=
  match v with
  | VObject fields => lookup fields key
  | _ => VUndefined
  end.

Definition isNullish (v : value) : bool :=
  match v with VUndefined | VNull => true | _ => false end.

(** The elements iterated by [for (const x of array)]. *)
Definition elementsOf (v : value) : list value :=
  match v with VArray l => l | _ => [] end.

Fixpoint indexed {A : Type} (i : N) (l : list A) : list (string * A) :=
  match l with
  | [] => []
  | x :: rest => (showN i, x) :: indexed (N.succ i) rest
  end.

Fixpoint characters (s : string) : list value :=
  match s with
  | EmptyString => []
  | String a s' => VString (String a EmptyString) :: characters s'
  end.

(** [Object.entries(v)] for a truthy [v]. An array enumerates its indices;
    so does a string, whose entries are one-character strings (here one
    byte each: whatever they hold, a string has no [tiles]); a number and
    [true] have no entries. *)
Definition ObjectEntries (v : value) : list (string * value) :=
  match v with
  | VObject fields => fields
  | VArray l => indexed 0%N l
  | VString s => indexed 0%N (characters s)
  | _ => []
  end.

(* ================================================================== *)
(** * [Map] *)
(* ================================================================== *)

(** A [Map] with string keys: an association list in insertion order, a
    key occurring once. *)
Definition Map (V : Type) : Type := list (string * V).

(** [m.set(k, v)]: a present key keeps its place and takes the new value. *)
Fixpoint MapSet {V : Type} (m : Map V) (k : string) (v : V) : Map V :=
  match m with
  | [] => [(k, v)]
  | (k', v') :: rest =>
      if (k' =? k) then (k', v) :: rest else (k', v') :: MapSet rest k v
  end.

Fixpoint MapGet {V : Type} (m : Map V) (k : string) : option V :=
  match m with
  | [] => None
  | (k', v) :: rest => if (k' =? k) then Some v else MapGet rest k
  end.

Definition MapHas {V : Type} (m : Map V) (k : string) : bool :=
  match MapGet m k with Some _ => true | None => false end.

Definition MapKeys {V : Type} (m : Map V) : list string := map fst m.

(* ================================================================== *)
(** * The archive *)
(* ================================================================== *)

(** An entry of the central directory. [openReadStream] is what reading
    the entry to its end gives: the bytes, taken to be well-formed UTF-8
    so that [toString('utf8')] leaves them as they are, or the error the
    stream fails with. *)
Record Entry : Type := mkEntry {
  filename : string;
  openReadStream : string + exn
}.

(** An open archive: the entries [for await (const entry of zip)] yields,
    and the error the iteration ends with when the directory is corrupt. *)
Record Zip : Type := mkZip {
  zipEntries : list Entry;
  zipFailure : option exn
}.

(** Constants of [lib/utils/templates.js]. *)
Definition URI_BASE : string := "smp://maps.v1/".
Definition STYLE_FILE : string := "style.json".
Definition VERSION_FILE : string := "VERSION".

(** Major version(s) supported by this implementation *)
Definition SUPPORTED_MAJOR_VERSIONS : list N := [1%N].

(* ================================================================== *)
(** * The validator's monad *)
(* ================================================================== *)

(** [ValidationResult] *)
Record ValidationResult : Type := mkResult {
  valid : bool;
  errors : list string;
  warnings : list string
}.

(** The two arrays [validate] allocates and every level pushes to. *)
Record Arrays : Type := mkArrays {
  errorsArray : list string;
  warningsArray : list string
}.

(** How a block of statements ends: it falls through, it returns from
    [validate], or it throws. *)
Inductive completion (A : Type) : Type :=
| Normal (a : A) (st : Arrays)
| Return (r : ValidationResult)
| Throw (e : exn).

Arguments Normal {A} a st.
Arguments Return {A} r.
Arguments Throw {A} e.

Definition M (A : Type) : Type := Arrays -> completion A.

Definition ret {A : Type} (a : A) : M A := fun st => Normal a st.

Definition bind {A B : Type} (m : M A) (k : A -> M B) : M B :=
  fun st =>
    match m st with
    | Normal a st' => k a st'
    | Return r => Return r
    | Throw e => Throw e
    end.

Notation "x <- m ;; k" := (bind m (fun x => k))
  (at level 61, m at next level, right associativity).
Notation "m ;; k" := (bind m (fun _ => k))
  (at level 61, right associativity).

(** [errors.push(msg)] and [warnings.push(msg)] *)
Definition pushError (msg : string) : M unit :=
  fun st => Normal tt (mkArrays (errorsArray st ++ [msg])%list (warningsArray st)).

Definition pushWarning (msg : string) : M unit :=
  fun st => Normal tt (mkArrays (errorsArray st) (warningsArray st ++ [msg])%list).

Definition throw {A : Type} (e : exn) : M A := fun _ => Throw e.

(** [return { valid: false, errors, warnings }] *)
Definition returnInvalid {A : Type} : M A :=
  fun st => Return (mkResult false (errorsArray st) (warningsArray st)).

(** [if (c) { body }] *)
Definition when (c : bool) (body : M unit) : M unit :=
  if c then body else ret tt.

(** [for (const x of l) { body }] *)
Fixpoint forOf {A : Type} (l : list A) (body : A -> M unit) : M unit :=
  match l with
  | [] => ret tt
  | x :: rest => body x ;; forOf rest body
  end.

(** A block that falls through, having pushed [es] to [errors] and [ws]
    to [warnings]. *)
Definition pushes (m : M unit) (es ws : list string) : Prop :=
  forall st,
    m st = Normal tt (mkArrays (errorsArray st ++ es)%list (warningsArray st ++ ws)%list).

(** A block that throws, whatever the arrays hold. *)
Definition throws (m : M unit) : Prop :=
  forall st, exists e, m st = Throw e.

(** A property read [v.key], and the destructuring [{ key }] of [v]: a
    [TypeError] on [null] and [undefined]. The text of the error is the
    engine's own; nothing below depends on it. *)
Definition get (v : value) (key : string) : M value :=
  if isNullish v
  then throw (TypeError ("Cannot read properties of "
                         ++ match v with VNull => "null" | _ => "undefined" end
                         ++ " (reading '" ++ key ++ "')"))
  else ret (property v key).

(** A stream read to its end: its bytes, or the stream's error thrown. *)
Definition await {A : Type} (r : A + exn) : M A :=
  match r with
  | inl a => ret a
  | inr e => throw e
  end.

(** [result(errors, warnings, error)] *)
Definition result (errors warnings : list string) (error : string) : ValidationResult :=
  mkResult false (errors ++ [error])%list warnings.

(** [{ valid: errors.length === 0, errors, warnings }] *)
Definition verdict (errors warnings : list string) : ValidationResult :=
  mkResult (Nat.eqb (List.length errors) 0) errors warnings.

(** What the promise of [validate] settles to. *)
Inductive outcome : Type :=
| Resolved (r : ValidationResult)
| Rejected (e : exn).

(** The end of [validate]: falling out of the [try] block returns
    [{ valid: errors.length === 0, errors, warnings }]. *)
Definition settle (c : completion unit) : outcome :=
  match c with
  | Normal _ st =>
      Resolved (verdict (errorsArray st) (warningsArray st))
  | Return r => Resolved r
  | Throw e => Rejected e
  end.

(* ================================================================== *)
(** * [lib/validator.js] *)
(* ================================================================== *)

(** [version.match(/^(\d+)\.\d+$/)]: the first capture group of a match.
    A dot is no digit, so the group is the longest run of digits. *)
Definition matchVersion (version : string) : option string :=
  let (major, rest) := spanDigits version in
  match major, rest with
  | String _ _, String dot minor =>
      if Ascii.eqb dot "." && negb (minor =? EmptyString) && allDigits minor
      then Some major
      else None
  | _, _ => None
  end.

(** [function validateSpriteFiles(entries, basePath, errors, warnings)] *)
Definition validateSpriteFiles (entries : Map Entry) (basePath : string) : M unit :=
  let jsonPath := basePath ++ ".json" in
  let pngPath := basePath ++ ".png" in
  let json2xPath := basePath ++ "@2x.json" in
  let png2xPath := basePath ++ "@2x.png" in
  when (negb (MapHas entries jsonPath))
    (pushError ("Missing sprite file: " ++ jsonPath)) ;;
  when (negb (MapHas entries pngPath))
    (pushError ("Missing sprite file: " ++ pngPath)) ;;
  when (negb (MapHas entries json2xPath) || negb (MapHas entries png2xPath))
    (pushWarning ("Missing @2x sprite for " ++ dquote ++ basePath ++ dquote
                  ++ " (recommended but not required)")).

(** Build entry map *)
Definition entriesOf (zip : Zip) : Map Entry :=
  fold_left (fun entries entry => MapSet entries (filename entry) entry)
            (zipEntries zip) [].

Definition readEntries (zip : Zip) : M (Map Entry) :=
  match zipFailure zip with
  | Some e => throw e
  | None => ret (entriesOf zip)
  end.

(** Level 2: VERSION file *)
Definition level2 (entries : Map Entry) : M unit :=
  match MapGet entries VERSION_FILE with
  | None => pushWarning "Missing VERSION file (assuming version 1.0)"
  | Some versionEntry =>
      content <- await (openReadStream versionEntry) ;;
      let version := trim content in
      match matchVersion version with
      | None =>
          pushError ("Invalid version format: " ++ dquote ++ version ++ dquote
                     ++ " (expected MAJOR.MINOR)")
      | Some majorMatch =>
          let major := parseInt10 majorMatch in
          when (negb (existsb (N.eqb major) SUPPORTED_MAJOR_VERSIONS))
            (pushError ("Unsupported major version: " ++ showN major
                        ++ " (supported: "
                        ++ String.concat ", " (map showN SUPPORTED_MAJOR_VERSIONS)
                        ++ ")"))
      end
  end.

(** Level 5: SMP metadata *)
Definition level5 (style : value) : M unit :=
  m <- get style "metadata" ;;
  let metadata := if truthy m then m else VObject [] in
  bounds <- get metadata "smp:bounds" ;;
  (if negb (isArray bounds) || negb (List.length (elementsOf bounds) =? 4)%nat
   then pushError "Missing or invalid smp:bounds in style.json metadata"
   else
     let w := nth 0 (elementsOf bounds) VUndefined in
     let s := nth 1 (elementsOf bounds) VUndefined in
     let e := nth 2 (elementsOf bounds) VUndefined in
     let n := nth 3 (elementsOf bounds) VUndefined in
     when (negb (isNumber w) || negb (isNumber s)
           || negb (isNumber e) || negb (isNumber n))
       (pushError "smp:bounds values must be numbers")) ;;
  maxzoom <- get metadata "smp:maxzoom" ;;
  when (negb (isNumber maxzoom))
    (pushError "Missing or invalid smp:maxzoom in style.json metadata") ;;
  sourceFolders <- get metadata "smp:sourceFolders" ;;
  when (truthy sourceFolders && negb (isObjectType sourceFolders))
    (pushWarning "Invalid smp:sourceFolders in style.json metadata").

(** Level 6: Source verification — extract tile path prefix from URL
    template *)
Definition level6 (entries : Map Entry) (style : value) : M unit :=
  sources <- get style "sources" ;;
  when (truthy sources)
    (forOf (ObjectEntries sources) (fun '(sourceId, source) =>
       tiles <- get source "tiles" ;;
       when (truthy tiles && isArray tiles)
         (forOf (elementsOf tiles) (fun tileUrl =>
            match tileUrl with
            | VString tileUrl =>
                if startsWith tileUrl URI_BASE then
                  (* Extract the path prefix before {z} from the URL template *)
                  let templatePath := slice tileUrl (String.length URI_BASE) in
                  match indexOf templatePath "{z}" with
                  | None => ret tt
                  | Some prefixEnd =>
                      let tilePrefix := slice0 templatePath prefixEnd in
                      let hasTiles :=
                        existsb (fun filename => startsWith filename tilePrefix)
                                (MapKeys entries) in
                      when (negb hasTiles)
                        (pushError ("No tile files found for source " ++ dquote
                                    ++ sourceId ++ dquote ++ " (expected under "
                                    ++ tilePrefix ++ ")"))
                  end
                else ret tt
            | _ => ret tt
            end)))).

(** Level 7: Glyph verification — extract path prefix from glyphs URI *)
Definition level7 (entries : Map Entry) (style : value) : M unit :=
  glyphs <- get style "glyphs" ;;
  match glyphs with
  | VString glyphs =>
      if startsWith glyphs URI_BASE then
        let glyphTemplate := slice glyphs (String.length URI_BASE) in
        let glyphPrefix :=
          match indexOf glyphTemplate "{fontstack}" with
          | Some (S prefixEnd) => slice0 glyphTemplate (S prefixEnd)
          | _ => EmptyString
          end in
        let hasGlyphs :=
          existsb (fun filename =>
                     if negb (glyphPrefix =? EmptyString)
                     then startsWith filename glyphPrefix
                     else endsWith filename ".pbf.gz")
                  (MapKeys entries) in
        when (negb hasGlyphs)
          (pushError "style.json references glyphs but no glyph files found")
      else ret tt
  | _ => ret tt
  end.

(** Level 8: Sprite verification — extract base path from sprite URI *)
Definition level8 (entries : Map Entry) (style : value) : M unit :=
  sprite <- get style "sprite" ;;
  match sprite with
  | VString sprite =>
      if startsWith sprite URI_BASE
      then validateSpriteFiles entries (slice sprite (String.length URI_BASE))
      else ret tt
  | VArray sprites =>
      forOf sprites (fun item =>
        url <- get item "url" ;;
        match url with
        | VString url =>
            if startsWith url URI_BASE
            then validateSpriteFiles entries (slice url (String.length URI_BASE))
            else ret tt
        | _ => ret tt
        end)
  | _ => ret tt
  end.

Section Validator.

(** [open] of yauzl-promise: the archive at a path, or the error opening
    it fails with. *)
Variable open : string -> Zip + exn.

(** [JSON.parse], which the [json] consumer applies to the text of a
    stream. *)
Variable JSONparse : string -> value + exn.

(** [validateStyleMin] of the MapLibre style specification, as the
    messages of the errors it returns. It is taken to return on every
    value; an exception of its own would reject the promise of
    [validate] like any other, nothing catches it: [Throwing.validate]
    below is the function without this assumption. *)
Variable validateStyleMin : value -> list string.

(** [await json(await styleEntry.openReadStream())] *)
Definition json (entry : Entry) : value + exn :=
  match openReadStream entry with
  | inl text => JSONparse text
  | inr e => inr e
  end.

(** The [try] block of [validate]. *)
Definition audit (zip : Zip) : M unit :=
  entries <- readEntries zip ;;
  level2 entries ;;
  (* Level 3: style.json presence *)
  match MapGet entries STYLE_FILE with
  | None => pushError "Missing style.json" ;; returnInvalid
  | Some styleEntry =>
      (* Level 4: style.json validity *)
      match json styleEntry with
      | inr err =>
          pushError ("style.json is not valid JSON: " ++ messageOf err) ;;
          returnInvalid
      | inl style =>
          forOf (validateStyleMin style)
                (fun e => pushError ("style.json: " ++ e)) ;;
          level5 style ;;
          level6 entries style ;;
          level7 entries style ;;
          level8 entries style
      end
  end.

(** [export async function validate(filepath)]. Closing the archive in
    the [finally] block is taken to succeed. *)
Definition validate (filepath : string) : outcome :=
  (* Level 1: ZIP validity *)
  match open filepath with
  | inr err =>
      let message := messageOf err in
      if codeIs err "ENOENT"
      then Resolved (result [] [] ("File not found: " ++ filepath))
      else Resolved (result [] [] ("Not a valid ZIP file: " ++ message))
  | inl zip => settle (audit zip (mkArrays [] []))
  end.

End Validator.

(* ================================================================== *)
(** * [lib/utils]: the helpers the specification describes *)
(* ================================================================== *)

Module Errors.

(** Modelled from the spec: [isFileNotThereError] of
    [lib/utils/errors.js], whose source is not at hand. Section 7 makes
    [NotFound] the class of POSIX [ENOENT] and puts [EPERM] in it; the
    tests of the helper add that a value that is not an [Error] is not
    in the class. *)
Definition isFileNotThereError (err : exn) : bool :=
  instanceofError err && (codeIs err "ENOENT" || codeIs err "EPERM").

End Errors.

Module Templates.

Fixpoint assoc (variables : list (string * string)) (name : string) : option string :=
  match variables with
  | [] => None
  | (k, v) :: rest => if (k =? name) then Some v else assoc rest name
  end.

(** Modelled from the spec: the scanner behind [replaceVariables], which
    reads the template once from left to right; [pending] holds the text
    read since an opening brace that is still waiting for its closing
    one. *)
Fixpoint scan (variables : list (string * string)) (s : string)
         (pending : option string) : string :=
  match s with
  | EmptyString =>
      match pending with
      | None => EmptyString
      | Some name => "{" ++ name
      end
  | String c s' =>
      match pending with
      | None =>
          if Ascii.eqb c "{" then scan variables s' (Some EmptyString)
          else String c (scan variables s' None)
      | Some name =>
          if Ascii.eqb c "}" then
            match assoc variables name with
            | Some v => v
            | None => "{" ++ name ++ "}"
            end ++ scan variables s' None
          else scan variables s' (Some (name ++ String c EmptyString))
      end
  end.

(** A text without an opening brace: no placeholder starts in it. *)
Fixpoint literal (s : string) : bool :=
  match s with
  | EmptyString => true
  | String c s' => negb (Ascii.eqb c "{") && literal s'
  end.

(** Modelled from the spec: [replaceVariables] of
    [lib/utils/templates.js], whose source is not at hand. The
    specification names template substitution among the primitives of
    the core; the tests of the function fix that each [{name}]
    with a known name is replaced by the value and every other text,
    a [{name}] with an unknown name included, is left as it is. The
    values are given as strings, [String(v)] already applied. *)
Definition replaceVariables (template : string)
           (variables : list (string * string)) : string :=
  scan variables template None.

End Templates.

Module Geo.

Inductive Scheme : Type := xyz | tms.

(** [TileCoord] of section 3; an absent [scheme] is [xyz]. *)
Record TileCoord : Type := mkTileCoord {
  x : N;
  y : N;
  z : N;
  scheme : option Scheme
}.

Definition digit4 (n : N) : string :=
  match n with
  | 0%N => "0" | 1%N => "1" | 2%N => "2" | _ => "3"
  end.

Fixpoint quadkeyFrom (i : nat) (tx ty : N) : string :=
  match i with
  | O => EmptyString
  | S i' =>
      let bx := if N.testbit tx (N.of_nat i') then 1%N else 0%N in
      let by_ := if N.testbit ty (N.of_nat i') then 2%N else 0%N in
      digit4 (bx + by_) ++ quadkeyFrom i' tx ty
  end.

(** Modelled from the spec: [getQuadkey] of [lib/utils/geo.js], whose
    source is not at hand: a string of [z] digits in base 4, bit [i] of
    [x] weighing 1 and bit [i] of [y] weighing 2, the highest zoom bit
    first. *)
Definition getQuadkey (c : TileCoord) : string :=
  quadkeyFrom (N.to_nat (z c)) (x c) (y c).

Definition hexDigit (n : N) : string :=
  String.substring (N.to_nat (n mod 16)) 1 "0123456789abcdef".

(** Modelled from the spec: the value of [{prefix}] in section 4.1,
    [(x + y) mod 16] as two hexadecimal characters. *)
Definition prefixOf (c : TileCoord) : string :=
  let n := ((x c + y c) mod 16)%N in
  hexDigit (n / 16) ++ hexDigit n.

(** Modelled from the spec: the value of [{y}] in section 4.1, [y], or
    [2^z - y - 1] under the [tms] scheme. *)
Definition yOf (c : TileCoord) : Z :=
  match scheme c with
  | Some tms => (2 ^ Z.of_N (z c) - Z.of_N (y c) - 1)%Z
  | _ => Z.of_N (y c)
  end.

(** Modelled from the spec: the placeholders section 4.1 lists, each with
    the text that replaces it. *)
Definition variablesOf (c : TileCoord) : list (string * string) :=
  [ ("z", showN (z c));
    ("x", showN (x c));
    ("y", showZ (yOf c));
    ("quadkey", getQuadkey c);
    ("prefix", prefixOf c) ].

(** Modelled from the spec: [getTileUrl] of [lib/utils/geo.js] (the
    [renderTileUrl] of section 4.1), whose source is not at hand: pick
    [templates[(x + y) mod templates.length]] and substitute [{z}],
    [{x}], [{y}], [{quadkey}] and [{prefix}]. An empty list has no
    template to pick: [None]. *)
Definition getTileUrl (urls : list string) (c : TileCoord) : option string :=
  match urls with
  | [] => None
  | _ :: _ =>
      let i := ((x c + y c) mod N.of_nat (List.length urls))%N in
      option_map (fun template => Templates.replaceVariables template (variablesOf c))
                 (nth_error urls (N.to_nat i))
  end.

End Geo.

Module Mapbox.

(** Modelled from the spec: the two policy violations of section 7. *)
Inductive MapboxError : Type := MissingAccessToken | SecretToken.

(** Modelled from the spec: [isMapboxURL] of [lib/utils/mapbox.js], the
    test for the [mapbox://] scheme. *)
Definition isMapboxURL (url : string) : bool := startsWith url "mapbox://".

Definition API : string := "https://api.mapbox.com".

(** What follows [prefix] in [s], or [s] itself when it does not start
    with it. *)
Definition after (prefix s : string) : string :=
  if startsWith s prefix then slice s (String.length prefix) else s.

Section Policy.

(** The error a token is refused with when it is there and begins
    neither with [sk.] nor with [pk.]. The specification says that only
    [pk.] tokens are accepted and names no error for such a token, and
    no test shows one; nothing below depends on which error it is. *)
Variable refusal : string -> MapboxError.

(** Modelled from the spec: [makeAPIURL] of [lib/utils/mapbox.js], whose
    source is not at hand. Every expanded URL gains
    [access_token={token}] as a query parameter; the expansion fails
    with [MissingAccessToken] without a token and with [SecretToken]
    when the token begins with [sk.], and only a token that begins with
    [pk.] is accepted. *)
Definition makeAPIURL (endpoint : string) (accessToken : option string)
  : string + MapboxError :=
  match accessToken with
  | None => inr MissingAccessToken
  | Some token =>
      if startsWith token "sk." then inr SecretToken
      else if startsWith token "pk." then
        let separator :=
          match indexOf endpoint "?" with Some _ => "&" | None => "?" end in
        inl (endpoint ++ separator ++ "access_token=" ++ token)
      else inr (refusal token)
  end.

(** Modelled from the spec: [normalizeStyleURL] of [lib/utils/mapbox.js],
    whose source is not at hand, after the expansion table of section
    4.3: [mapbox://styles/{user}/{id}] becomes
    [https://api.mapbox.com/styles/v1/{user}/{id}]; a URL that is not a
    [mapbox://] URL is returned as it is. *)
Definition normalizeStyleURL (url : string) (accessToken : option string)
  : string + MapboxError :=
  if negb (isMapboxURL url) then inl url
  else makeAPIURL (API ++ "/styles/v1/" ++ after "mapbox://styles/" url) accessToken.

(** Modelled from the spec: [normalizeGlyphsURL] of
    [lib/utils/mapbox.js], after the same table:
    [mapbox://fonts/{user}/{stack}/{range}.pbf] becomes
    [https://api.mapbox.com/fonts/v1/{user}/{stack}/{range}.pbf]. *)
Definition normalizeGlyphsURL (url : string) (accessToken : option string)
  : string + MapboxError :=
  if negb (isMapboxURL url) then inl url
  else makeAPIURL (API ++ "/fonts/v1/" ++ after "mapbox://fonts/" url) accessToken.

(** Modelled from the spec: [normalizeSourceURL] of
    [lib/utils/mapbox.js], after the same table: [mapbox://{tileset}]
    becomes [https://api.mapbox.com/v4/{tileset}.json?secure]. *)
Definition normalizeSourceURL (url : string) (accessToken : option string)
  : string + MapboxError :=
  if negb (isMapboxURL url) then inl url
  else makeAPIURL (API ++ "/v4/" ++ after "mapbox://" url ++ ".json?secure") accessToken.

(** Modelled from the spec: a suffix put at the end of the path of a
    URL, which is before the query string when the URL has one. In the
    expansion table the format and the extension end the path, and the
    query follows them. *)
Definition appendToPath (url suffix : string) : string :=
  match indexOf url "?" with
  | Some queryStart => slice0 url queryStart ++ suffix ++ slice url queryStart
  | None => url ++ suffix
  end.

(** Modelled from the spec: [normalizeSpriteURL] of
    [lib/utils/mapbox.js], after the same table:
    [mapbox://sprites/{user}/{id}] becomes
    [https://api.mapbox.com/styles/v1/{user}/{id}/sprite{format}{ext}].
    On a URL that is not a [mapbox://] URL the specification says that
    the URL passes through unchanged, and the two tests of the function
    on such a URL ('non-mapbox URL appends format and extension', 'non-mapbox
    URL with empty format') show that the format and the extension are
    added to it; the tests are followed, with the suffix on the path. *)
Definition normalizeSpriteURL (url format extension : string)
           (accessToken : option string) : string + MapboxError :=
  if negb (isMapboxURL url) then inl (appendToPath url (format ++ extension))
  else makeAPIURL (API ++ "/styles/v1/" ++ after "mapbox://sprites/" url
                   ++ "/sprite" ++ format ++ extension) accessToken.

End Policy.

End Mapbox.

(* ================================================================== *)
(** * What each level reports *)
(* ================================================================== *)

(** The lists below say, level by level, what [validate] pushes to its two
    arrays; that the code pushes exactly these is proved further down. *)

(** The text of the [VERSION] entry: [None] without the entry, the error
    when the entry cannot be read. *)
Definition versionText (entries : Map Entry) : option string + exn :=
  match MapGet entries VERSION_FILE with
  | None => inl None
  | Some versionEntry =>
      match openReadStream versionEntry with
      | inl content => inl (Some content)
      | inr e => inr e
      end
  end.

Definition invalidVersion (version : string) : string :=
  "Invalid version format: " ++ dquote ++ version ++ dquote
  ++ " (expected MAJOR.MINOR)".

Definition unsupportedMajor (major : N) : string :=
  "Unsupported major version: " ++ showN major ++ " (supported: 1)".

Definition supported (major : N) : bool :=
  existsb (N.eqb major) SUPPORTED_MAJOR_VERSIONS.

Definition level2Errors (text : option string) : list string :=
  match text with
  | None => []
  | Some content =>
      match matchVersion (trim content) with
      | None => [invalidVersion (trim content)]
      | Some major =>
          if supported (parseInt10 major) then []
          else [unsupportedMajor (parseInt10 major)]
      end
  end.

Definition missingVersion : string := "Missing VERSION file (assuming version 1.0)".

Definition level2Warnings (text : option string) : list string :=
  match text with
  | None => [missingVersion]
  | Some _ => []
  end.

(** [style.metadata || {}] *)
Definition metadataOf (style : value) : value :=
  if truthy (property style "metadata") then property style "metadata"
  else VObject [].

Definition missingBounds : string :=
  "Missing or invalid smp:bounds in style.json metadata".
Definition badBounds : string := "smp:bounds values must be numbers".
Definition missingMaxzoom : string :=
  "Missing or invalid smp:maxzoom in style.json metadata".
Definition badSourceFolders : string :=
  "Invalid smp:sourceFolders in style.json metadata".

Definition boundsErrors (bounds : value) : list string :=
  match bounds with
  | VArray [w; s; e; n] =>
      if isNumber w && isNumber s && isNumber e && isNumber n then []
      else [badBounds]
  | _ => [missingBounds]
  end.

Definition maxzoomErrors (maxzoom : value) : list string :=
  if isNumber maxzoom then [] else [missingMaxzoom].

Definition level5Errors (style : value) : list string :=
  (boundsErrors (property (metadataOf style) "smp:bounds")
   ++ maxzoomErrors (property (metadataOf style) "smp:maxzoom"))%list.

Definition level5Warnings (style : value) : list string :=
  let sourceFolders := property (metadataOf style) "smp:sourceFolders" in
  if truthy sourceFolders && negb (isObjectType sourceFolders)
  then [badSourceFolders] else [].

Definition noTileFiles (sourceId tilePrefix : string) : string :=
  "No tile files found for source " ++ dquote ++ sourceId ++ dquote
  ++ " (expected under " ++ tilePrefix ++ ")".

(** What one element of a [tiles] array adds. *)
Definition tileErrors (entries : Map Entry) (sourceId : string) (tileUrl : value)
  : list string :=
  match tileUrl with
  | VString tileUrl =>
      if startsWith tileUrl URI_BASE then
        let templatePath := slice tileUrl (String.length URI_BASE) in
        match indexOf templatePath "{z}" with
        | None => []
        | Some prefixEnd =>
            let tilePrefix := slice0 templatePath prefixEnd in
            if existsb (fun filename => startsWith filename tilePrefix)
                       (MapKeys entries)
            then [] else [noTileFiles sourceId tilePrefix]
        end
      else []
  | _ => []
  end.

(** The entries of [style.sources] that level 6 visits, and the elements
    of [source.tiles] it visits in one of them. *)
Definition sourcesOf (style : value) : list (string * value) :=
  if truthy (property style "sources")
  then ObjectEntries (property style "sources")
  else [].

Definition tilesOf (source : value) : list value :=
  if truthy (property source "tiles") && isArray (property source "tiles")
  then elementsOf (property source "tiles")
  else [].

(** What one entry of [style.sources] adds. *)
Definition sourceErrors (entries : Map Entry) (source : string * value) : list string :=
  flat_map (tileErrors entries (fst source)) (tilesOf (snd source)).

Definition level6Errors (entries : Map Entry) (style : value) : list string :=
  flat_map (sourceErrors entries) (sourcesOf style).

Definition noGlyphs : string :=
  "style.json references glyphs but no glyph files found".

Definition level7Errors (entries : Map Entry) (style : value) : list string :=
  match property style "glyphs" with
  | VString glyphs =>
      if startsWith glyphs URI_BASE then
        let glyphTemplate := slice glyphs (String.length URI_BASE) in
        let glyphPrefix :=
          match indexOf glyphTemplate "{fontstack}" with
          | Some (S prefixEnd) => slice0 glyphTemplate (S prefixEnd)
          | _ => EmptyString
          end in
        if existsb (fun filename =>
                      if negb (glyphPrefix =? EmptyString)
                      then startsWith filename glyphPrefix
                      else endsWith filename ".pbf.gz")
                   (MapKeys entries)
        then [] else [noGlyphs]
      else []
  | _ => []
  end.

Definition missingSprite (path : string) : string := "Missing sprite file: " ++ path.

Definition missing2x (basePath : string) : string :=
  "Missing @2x sprite for " ++ dquote ++ basePath ++ dquote
  ++ " (recommended but not required)".

Definition spriteErrors (entries : Map Entry) (basePath : string) : list string :=
  ((if MapHas entries (basePath ++ ".json") then []
    else [missingSprite (basePath ++ ".json")])
   ++ (if MapHas entries (basePath ++ ".png") then []
       else [missingSprite (basePath ++ ".png")]))%list.

Definition spriteWarnings (entries : Map Entry) (basePath : string) : list string :=
  if MapHas entries (basePath ++ "@2x.json") && MapHas entries (basePath ++ "@2x.png")
  then [] else [missing2x basePath].

(** The base path of an internal sprite URI. *)
Definition internalBase (url : value) : list string :=
  match url with
  | VString url =>
      if startsWith url URI_BASE then [slice url (String.length URI_BASE)] else []
  | _ => []
  end.

(** The base paths of the internal sprites of a style, in the order level
    8 visits them. *)
Definition spriteBases (style : value) : list string :=
  match property style "sprite" with
  | VString sprite => internalBase (VString sprite)
  | VArray sprites => flat_map (fun item => internalBase (property item "url")) sprites
  | _ => []
  end.

Definition level8Errors (entries : Map Entry) (style : value) : list string :=
  flat_map (spriteErrors entries) (spriteBases style).

Definition level8Warnings (entries : Map Entry) (style : value) : list string :=
  flat_map (spriteWarnings entries) (spriteBases style).

(** A style no property read of levels 5 to 8 throws on: it is not
    [null], no entry of its [sources] is, and no element of a [sprite]
    array is. *)
Definition safeStyle (style : value) : bool :=
  negb (isNullish style)
  && forallb (fun source => negb (isNullish (snd source))) (sourcesOf style)
  && match property style "sprite" with
     | VArray sprites => forallb (fun item => negb (isNullish item)) sprites
     | _ => true
     end.

Section Summary.

Variable JSONparse : string -> value + exn.
Variable validateStyleMin : value -> list string.

Definition notJSON (err : exn) : string :=
  "style.json is not valid JSON: " ++ messageOf err.

(** What levels 4 to 8 add to [errors] and to [warnings] for a style that
    parsed. *)
Definition checkErrors (entries : Map Entry) (style : value) : list string :=
  (map (fun e => ("style.json: " ++ e)%string) (validateStyleMin style)
   ++ level5Errors style
   ++ level6Errors entries style
   ++ level7Errors entries style
   ++ level8Errors entries style)%list.

Definition checkWarnings (entries : Map Entry) (style : value) : list string :=
  (level5Warnings style ++ level8Warnings entries style)%list.

(** What levels 3 to 8 add to [errors] and to [warnings]. *)
Definition styleErrors (entries : Map Entry) : list string :=
  match MapGet entries STYLE_FILE with
  | None => ["Missing style.json"]
  | Some styleEntry =>
      match json JSONparse styleEntry with
      | inr err => [notJSON err]
      | inl style => checkErrors entries style
      end
  end.

Definition styleWarnings (entries : Map Entry) : list string :=
  match MapGet entries STYLE_FILE with
  | None => []
  | Some styleEntry =>
      match json JSONparse styleEntry with
      | inr err => []
      | inl style => checkWarnings entries style
      end
  end.

(** An archive the audit of which ends with a result: the directory
    iterates, a [VERSION] entry can be read, and the parsed style is
    one property reads do not throw on. *)
Definition auditable (zip : Zip) : bool :=
  match zipFailure zip with
  | Some _ => false
  | None =>
      match versionText (entriesOf zip) with
      | inr _ => false
      | inl _ =>
          match MapGet (entriesOf zip) STYLE_FILE with
          | None => true
          | Some styleEntry =>
              match json JSONparse styleEntry with
              | inr _ => true
              | inl style => safeStyle style
              end
          end
      end
  end.

End Summary.

(** The messages each level can push to [errors]. *)
Inductive errorOf : nat -> string -> Prop :=
| error_format (version : string) : errorOf 2 (invalidVersion version)
| error_major (major : N) : errorOf 2 (unsupportedMajor major)
| error_style_missing : errorOf 3 "Missing style.json"
| error_json (err : exn) : errorOf 4 (notJSON err)
| error_style (e : string) : errorOf 4 ("style.json: " ++ e)
| error_bounds : errorOf 5 missingBounds
| error_numbers : errorOf 5 badBounds
| error_maxzoom : errorOf 5 missingMaxzoom
| error_tiles (sourceId tilePrefix : string) : errorOf 6 (noTileFiles sourceId tilePrefix)
| error_glyphs : errorOf 7 noGlyphs
| error_sprite (path : string) : errorOf 8 (missingSprite path).

(** The level a message of [errors] comes from, read off its first
    words; [0] for a text no level pushes. *)
Definition levelOf (e : string) : nat :=
  if startsWith e "Invalid version format: " then 2
  else if startsWith e "Unsupported major version: " then 2
  else if startsWith e "Missing style.json" then 3
  else if startsWith e "style.json is not valid JSON: " then 4
  else if startsWith e "style.json: " then 4
  else if startsWith e "Missing or invalid smp:bounds" then 5
  else if startsWith e "smp:bounds values must be numbers" then 5
  else if startsWith e "Missing or invalid smp:maxzoom" then 5
  else if startsWith e "No tile files found for source " then 6
  else if startsWith e "style.json references glyphs" then 7
  else if startsWith e "Missing sprite file: " then 8
  else 0.

(** The archive has an entry of that name. *)
Definition hasFile (zip : Zip) (path : string) : bool :=
  existsb (fun entry => filename entry =? path) (zipEntries zip).

(** The archive has an entry whose name starts with that prefix. *)
Definition hasFileUnder (zip : Zip) (prefix : string) : bool :=
  existsb (fun entry => startsWith (filename entry) prefix) (zipEntries zip).

(* ================================================================== *)
(** * Archives of the test suite *)
(* ================================================================== *)

Module Fixtures.

Definition num (n : Z) : value := VNumber (inject_Z n).

Definition quoted (s : string) : string := dquote ++ s ++ dquote.

(** [JSON.stringify] on the values the tests serialize: integers and
    strings that need no escape. *)
Fixpoint stringify (v : value) : string :=
  match v with
  | VUndefined | VNull => "null"
  | VBool true => "true"
  | VBool false => "false"
  | VNumber n => showZ (Qnum n / Zpos (Qden n))
  | VString s => quoted s
  | VArray l => "[" ++ String.concat "," (map stringify l) ++ "]"
  | VObject fields =>
      "{" ++ String.concat ","
               (map (fun kv => quoted (fst kv) ++ ":" ++ stringify (snd kv)) fields)
          ++ "}"
  end.

Definition SyntaxError (text : string) : exn :=
  mkExn true None ("Unexpected token in JSON: " ++ text)
        ("SyntaxError: Unexpected token in JSON: " ++ text).

(** A parser that knows the listed documents and rejects every other
    text. *)
Definition parseOneOf (documents : list value) (text : string) : value + exn :=
  match find (fun v => stringify v =? text) documents with
  | Some v => inl v
  | None => inr (SyntaxError text)
  end.

Definition ENOENT (path : string) : exn :=
  mkExn true (Some "ENOENT")
        ("ENOENT: no such file or directory, open '" ++ path ++ "'")
        ("Error: ENOENT: no such file or directory, open '" ++ path ++ "'").

Definition EPERM (path : string) : exn :=
  mkExn true (Some "EPERM")
        ("EPERM: operation not permitted, open '" ++ path ++ "'")
        ("Error: EPERM: operation not permitted, open '" ++ path ++ "'").

(** The error of a stream that cannot inflate its entry. *)
Definition unreadable : exn :=
  mkExn true None "unexpected end of file" "Error: unexpected end of file".

(** A file system that holds the listed archives and nothing else. *)
Fixpoint openIn (files : list (string * (Zip + exn))) (path : string) : Zip + exn :=
  match files with
  | [] => inr (ENOENT path)
  | (p, z) :: rest => if (p =? path) then z else openIn rest path
  end.

Definition file (name data : string) : Entry := mkEntry name (inl data).

Definition archive (entries : list Entry) : Zip + exn := inl (mkZip entries None).

Definition bounds : value := VArray [num (-180); num (-85); num 180; num 85].

Definition style (metadata : list (string * value)) (more : list (string * value)) : value :=
  VObject ([("version", num 8); ("sources", VObject []); ("layers", VArray [])]
           ++ more ++ [("metadata", VObject metadata)])%list.

(** [{ 'smp:bounds': [-180, -85, 180, 85], 'smp:maxzoom': 5 }] *)
Definition goodMetadata : list (string * value) :=
  [("smp:bounds", bounds); ("smp:maxzoom", num 5)].

Definition minimalStyle : value := style goodMetadata [].

(** A style whose [smp:bounds] holds four strings. *)
Definition badBoundsStyle : value :=
  style [("smp:bounds", VArray [VString "w"; VString "s"; VString "e"; VString "n"]);
         ("smp:maxzoom", num 5)] [].

(** A style whose [smp:maxzoom] is a string. *)
Definition badMaxzoomStyle : value :=
  style [("smp:bounds", bounds); ("smp:maxzoom", VString "5")] [].

(** A style whose [smp:sourceFolders] is a string. *)
Definition badFoldersStyle : value :=
  style (goodMetadata ++ [("smp:sourceFolders", VString "folders")])%list [].

(** 'SMP with missing tile files for a source returns error' *)
Definition tileStyle : value :=
  VObject [("version", num 8);
           ("sources",
            VObject [("test",
                      VObject [("type", VString "vector");
                               ("tiles", VArray [VString "smp://maps.v1/s/0/{z}/{x}/{y}.mvt.gz"]);
                               ("bounds", bounds);
                               ("minzoom", num 0);
                               ("maxzoom", num 5)])]);
           ("layers", VArray []);
           ("metadata",
            VObject (goodMetadata
                     ++ [("smp:sourceFolders", VObject [("test", VString "0")])])%list)].

(** 'SMP with 1x sprites but no 2x returns warning' *)
Definition spriteStyle : value :=
  style (goodMetadata ++ [("smp:sourceFolders", VObject [])])%list
        [("sprite", VString "smp://maps.v1/sprites/default/sprite")].

(** 'SMP with array sprites validates each' *)
Definition spritesStyle : value :=
  style (goodMetadata ++ [("smp:sourceFolders", VObject [])])%list
        [("sprite",
          VArray [VObject [("id", VString "default");
                           ("url", VString "smp://maps.v1/sprites/default/sprite")];
                  VObject [("id", VString "signs");
                           ("url", VString "smp://maps.v1/sprites/signs/sprite")]])].

Definition documents : list value :=
  [minimalStyle; badBoundsStyle; badMaxzoomStyle; badFoldersStyle;
   tileStyle; spriteStyle; spritesStyle; VNull].

Definition JSONparse : string -> value + exn := parseOneOf documents.

(** Every document of the fixtures passes MapLibre's validator for what
    this development needs: it reports nothing. *)
Definition validateStyleMin (_ : value) : list string := [].

Definition CR : string := String (ascii_of_nat 13) EmptyString.

Definition withVersion (version : string) (doc : value) (more : list Entry) : Zip + exn :=
  archive ([file "VERSION" version; file "style.json" (stringify doc)] ++ more)%list.

Definition files : list (string * (Zip + exn)) :=
  [ ("minor.smp", withVersion ("1.1" ++ LF) minimalStyle []);
    ("major.smp", withVersion ("2.0" ++ LF) minimalStyle []);
    ("abc.smp", withVersion ("abc" ++ LF) minimalStyle []);
    ("crlf.smp", withVersion ("  1.0" ++ CR ++ LF ++ LF) minimalStyle []);
    ("noversion.smp", archive [file "style.json" (stringify minimalStyle)]);
    ("nostyle.smp", archive [file "other.txt" "hello"]);
    ("notjson.smp", archive [file "VERSION" ("1.0" ++ LF); file "style.json" "not json{{{"]);
    ("badbounds.smp", withVersion ("1.0" ++ LF) badBoundsStyle []);
    ("badmaxzoom.smp", withVersion ("1.0" ++ LF) badMaxzoomStyle []);
    ("badfolders.smp", withVersion ("1.0" ++ LF) badFoldersStyle []);
    ("notiles.smp", withVersion ("1.0" ++ LF) tileStyle []);
    ("tiles.smp", withVersion ("1.0" ++ LF) tileStyle [file "s/0/0/0/0.mvt.gz" "tile"]);
    ("sprite1x.smp",
     withVersion ("1.0" ++ LF) spriteStyle
                 [file "sprites/default/sprite.json" "{}";
                  file "sprites/default/sprite.png" "PNG"]);
    ("nosprite.smp", withVersion ("1.0" ++ LF) spriteStyle []);
    ("sprites.smp",
     withVersion ("1.0" ++ LF) spritesStyle
                 [file "sprites/default/sprite.json" "{}";
                  file "sprites/default/sprite.png" "PNG"]);
    ("null.smp", withVersion ("1.0" ++ LF) VNull []);
    ("unreadable.smp",
     archive [mkEntry "VERSION" (inr unreadable);
              file "style.json" (stringify minimalStyle)]);
    ("random.bin",
     inr (mkExn true None "End of Central Directory Record not found"
                "Error: End of Central Directory Record not found"));
    ("locked.smp", inr (EPERM "locked.smp")) ].

Definition open : string -> Zip + exn := openIn files.

(** The archive at a path of the fixtures, and the [style.json] entry
    that holds a document. *)
Definition zipAt (path : string) : Zip :=
  match open path with
  | inl zip => zip
  | inr _ => mkZip [] None
  end.

Definition styleFile (doc : value) : Entry := file "style.json" (stringify doc).

(** [validate] in the world of the fixtures. *)
Definition run (path : string) : outcome :=
  validate open JSONparse validateStyleMin path.

End Fixtures.

(* ================================================================== *)
(** * [bin/smp-validate.js] *)
(* ================================================================== *)

(** How the command ends: [process.exit(code)] after the lines it wrote
    with [console.log], or the rejection of the action, which nothing
    handles. *)
Inductive ending : Type :=
| Exit (stdout : list string) (code : nat)
| Unhandled (e : exn).

Section CommandLine.

Variable open : string -> Zip + exn.
Variable JSONparse : string -> value + exn.
Variable validateStyleMin : value -> list string.

(** [logSymbols.success], [logSymbols.error] and [logSymbols.warning],
    and [chalk.green] and [chalk.red]: what they are depends on the
    terminal. *)
Variable success : string.
Variable error : string.
Variable warning : string.
Variable green : string -> string.
Variable red : string -> string.

(** The lines the action writes for a result, one for each call of
    [console.log]; two arguments are written with a space between. *)
Definition report (result : ValidationResult) : list string :=
  ([ if valid result
     then (success ++ " " ++ green "Valid SMP file")%string
     else (error ++ " " ++ red "Invalid SMP file")%string ]
   ++ match errors result with
      | [] => []
      | _ :: _ =>
          (LF ++ "Errors:")%string
          :: map (fun err => ("  " ++ error ++ " " ++ err)%string) (errors result)
      end
   ++ match warnings result with
      | [] => []
      | _ :: _ =>
          (LF ++ "Warnings:")%string
          :: map (fun warn => ("  " ++ warning ++ " " ++ warn)%string) (warnings result)
      end)%list.

(** [.action(async (filepath) => { ... })] *)
Definition action (filepath : string) : ending :=
  match validate open JSONparse validateStyleMin filepath with
  | Resolved result => Exit (report result) (if valid result then 0 else 1)
  | Rejected e => Unhandled e
  end.

End CommandLine.

(* ================================================================== *)
(** * Notions for the properties of the levels *)
(* ================================================================== *)

(** A list of numbers that never goes down. *)
Fixpoint ascending (l : list nat) : Prop :=
  match l with
  | a :: rest =>
      match rest with
      | b :: _ => a <= b
      | [] => True
      end /\ ascending rest
  | [] => True
  end.

(** The archive has an entry whose name ends with that suffix. *)
Definition hasFileEnding (zip : Zip) (suffix : string) : bool :=
  existsb (fun entry => endsWith (filename entry) suffix) (zipEntries zip).

(** The character occurs in the string. *)
Fixpoint occurs (c : ascii) (s : string) : bool :=
  match s with
  | EmptyString => false
  | String a s' => Ascii.eqb a c || occurs c s'
  end.

(** A string of zeros. *)
Fixpoint allZeros (s : string) : bool :=
  match s with
  | EmptyString => true
  | String a s' => Ascii.eqb a "0" && allZeros s'
  end.

(* ================================================================== *)
(** * [validate] with a style validator that throws *)
(* ================================================================== *)

Module Throwing.

Section Validator.

Variable open : string -> Zip + exn.
Variable JSONparse : string -> value + exn.

(** [validateStyleMin] as line 95 calls it, outside the inner [try]: the
    messages of the errors it returns, or the exception it throws on a
    value it cannot walk, such as [null] or a style with a [null]
    layer. *)
Variable validateStyleMin : value -> list string + exn.

(** The [try] block of [validate]. *)
Definition audit (zip : Zip) : M unit :=
  entries <- readEntries zip ;;
  level2 entries ;;
  (* Level 3: style.json presence *)
  match MapGet entries STYLE_FILE with
  | None => pushError "Missing style.json" ;; returnInvalid
  | Some styleEntry =>
      (* Level 4: style.json validity *)
      match json JSONparse styleEntry with
      | inr err =>
          pushError ("style.json is not valid JSON: " ++ messageOf err) ;;
          returnInvalid
      | inl style =>
          styleErrors <- await (validateStyleMin style) ;;
          forOf styleErrors (fun e => pushError ("style.json: " ++ e)) ;;
          level5 style ;;
          level6 entries style ;;
          level7 entries style ;;
          level8 entries style
      end
  end.

(** [export async function validate(filepath)], with nothing taken for
    granted about the style validator. Closing the archive in the
    [finally] block is taken to succeed. The [validate] of the sections
    above is this function at a validator that returns on every
    value. *)
Definition validate (filepath : string) : outcome :=
  (* Level 1: ZIP validity *)
  match open filepath with
  | inr err =>
      let message := messageOf err in
      if codeIs err "ENOENT"
      then Resolved (result [] [] ("File not found: " ++ filepath))
      else Resolved (result [] [] ("Not a valid ZIP file: " ++ message))
  | inl zip => settle (audit zip (mkArrays [] []))
  end.

(** The messages of a validator where it returns. *)
Definition returned (style : value) : list string :=
  match validateStyleMin style with
  | inl messages => messages
  | inr _ => []
  end.

End Validator.

(** A style with a [null] layer, and a validator that throws on it as
    on [null]. *)
Definition nullLayerStyle : value :=
  VObject [("version", Fixtures.num 8); ("sources", VObject []);
           ("layers", VArray [VNull]);
           ("metadata", VObject Fixtures.goodMetadata)].

Definition strict (style : value) : list string + exn :=
  if isNullish style || existsb isNullish (elementsOf (property style "layers"))
  then inr (TypeError "Cannot read properties of null (reading 'type')")
  else inl [].

Definition JSONparse : string -> value + exn :=
  Fixtures.parseOneOf [nullLayerStyle; Fixtures.minimalStyle].

Definition files : list (string * (Zip + exn)) :=
  [ ("nulllayer.smp", Fixtures.withVersion ("1.0" ++ LF) nullLayerStyle []);
    ("minimal.smp", Fixtures.withVersion ("1.0" ++ LF) Fixtures.minimalStyle []) ].

Definition open : string -> Zip + exn := Fixtures.openIn files.

Definition zipAt (path : string) : Zip :=
  match open path with
  | inl zip => zip
  | inr _ => mkZip [] None
  end.

Definition run (path : string) : outcome := validate open JSONparse strict path.

End Throwing.

(** More archives: glyphs, resources outside the package, a bare style,
    repeated and unrelated entries, a directory that fails. *)
Module Cases.

(** 'SMP with missing glyph files returns error' *)
Definition glyphStyle : value :=
  Fixtures.style (Fixtures.goodMetadata ++ [("smp:sourceFolders", VObject [])])%list
                 [("glyphs", VString "smp://maps.v1/fonts/{fontstack}/{range}.pbf.gz")].

(** A glyph template that starts with the font stack. *)
Definition flatGlyphStyle : value :=
  Fixtures.style Fixtures.goodMetadata
                 [("glyphs", VString "smp://maps.v1/{fontstack}-{range}.pbf.gz")].

(** A style that points outside the archive for everything. *)
Definition externalStyle : value :=
  VObject [("version", Fixtures.num 8);
           ("sources",
            VObject [("osm",
                      VObject [("type", VString "raster");
                               ("tiles", VArray [VString "https://tile.example.com/{z}/{x}/{y}.png"])])]);
           ("layers", VArray []);
           ("glyphs", VString "https://fonts.example.com/{fontstack}/{range}.pbf");
           ("sprite", VString "https://example.com/sprite");
           ("metadata", VObject Fixtures.goodMetadata)].

(** A style without metadata. *)
Definition bareStyle : value :=
  VObject [("version", Fixtures.num 8); ("sources", VObject []); ("layers", VArray [])].

(** A style whose [smp:sourceFolders] is an array. *)
Definition arrayFoldersStyle : value :=
  Fixtures.style (Fixtures.goodMetadata ++ [("smp:sourceFolders", VArray [])])%list [].

Definition documents : list value :=
  [Fixtures.minimalStyle; Fixtures.tileStyle; Fixtures.spriteStyle;
   glyphStyle; flatGlyphStyle; externalStyle; bareStyle; arrayFoldersStyle].

Definition JSONparse : string -> value + exn := Fixtures.parseOneOf documents.

(** A validator that finds two faults in the bare style and none in the
    others. *)
Definition validateStyleMin (style : value) : list string :=
  if Fixtures.stringify style =? Fixtures.stringify bareStyle
  then ["sources: at least one source expected"; "layers: at least one layer expected"]
  else [].

Definition files : list (string * (Zip + exn)) :=
  [ ("glyphs.smp",
     Fixtures.withVersion ("1.0" ++ LF) glyphStyle
                          [Fixtures.file "fonts/Open Sans/0-255.pbf.gz" "glyphs"]);
    ("noglyphs.smp", Fixtures.withVersion ("1.0" ++ LF) glyphStyle []);
    ("flatglyphs.smp",
     Fixtures.withVersion ("1.0" ++ LF) flatGlyphStyle
                          [Fixtures.file "Open Sans-0-255.pbf.gz" "glyphs"]);
    ("noflatglyphs.smp", Fixtures.withVersion ("1.0" ++ LF) flatGlyphStyle []);
    ("external.smp", Fixtures.withVersion ("1.0" ++ LF) externalStyle []);
    ("bare.smp", Fixtures.withVersion ("3.0" ++ LF) bareStyle []);
    ("arrayfolders.smp", Fixtures.withVersion ("1.0" ++ LF) arrayFoldersStyle []);
    ("zeros.smp", Fixtures.withVersion ("001.5" ++ LF) Fixtures.minimalStyle []);
    ("twice.smp",
     Fixtures.archive [Fixtures.file "VERSION" ("2.0" ++ LF);
                       Fixtures.file "style.json" (Fixtures.stringify Fixtures.minimalStyle);
                       Fixtures.file "VERSION" ("1.0" ++ LF)]);
    ("nostyle.smp", Fixtures.archive [Fixtures.file "other.txt" "hello"]);
    ("tiles.smp",
     Fixtures.withVersion ("1.0" ++ LF) Fixtures.tileStyle
                          [Fixtures.file "s/0/0/0/0.mvt.gz" "tile"]);
    ("tiles+readme.smp",
     Fixtures.withVersion ("1.0" ++ LF) Fixtures.tileStyle
                          [Fixtures.file "s/0/0/0/0.mvt.gz" "tile";
                           Fixtures.file "README.md" "notes"]);
    ("corrupt.smp",
     inl (mkZip [Fixtures.file "VERSION" ("1.0" ++ LF)]
                (Some (mkExn true None "Central Directory entry is truncated"
                             "Error: Central Directory entry is truncated")))) ].

Definition open : string -> Zip + exn := Fixtures.openIn files.

Definition zipAt (path : string) : Zip :=
  match open path with
  | inl zip => zip
  | inr _ => mkZip [] None
  end.

Definition run (path : string) : outcome :=
  validate open JSONparse validateStyleMin path.

(** The command in a terminal without colours. *)
Definition command (path : string) : ending :=
  action open JSONparse validateStyleMin "v" "x" "!" (fun s => s) (fun s => s) path.

End Cases.

(* ================================================================== *)
(** * Facts about strings *)
(* ================================================================== *)

Lemma append_nil_r (s : string) : s ++ EmptyString = s.
Proof. induction s as [|a s IH]; simpl; [reflexivity | now rewrite IH]. Qed.

Lemma append_assoc (a b c : string) : (a ++ b) ++ c = a ++ (b ++ c).
Proof. induction a as [|x a IH]; simpl; [reflexivity | now rewrite IH]. Qed.

Lemma length_append (a b : string) :
  String.length (a ++ b) = (String.length a + String.length b)%nat.
Proof. induction a as [|x a IH]; simpl; [reflexivity | now rewrite IH]. Qed.

Lemma startsWith_append (p r : string) : startsWith (p ++ r) p = true.
Proof.
  induction p as [|a p IH]; simpl; [reflexivity|].
  now rewrite Ascii.eqb_refl.
Qed.

Lemma startsWith_inv (s p : string) :
  startsWith s p = true -> exists r, s = p ++ r.
Proof.
  revert s; induction p as [|b p IH]; intros s H.
  - now exists s.
  - destruct s as [|a s]; simpl in H; [discriminate|].
    destruct (Ascii.eqb_spec a b) as [->|]; [|discriminate].
    destruct (IH _ H) as [r ->]. now exists r.
Qed.

Lemma startsWith_iff (s p : string) :
  startsWith s p = true <-> exists r, s = p ++ r.
Proof.
  split; [apply startsWith_inv|]. intros [r ->]. apply startsWith_append.
Qed.

Lemma slice_append (p r : string) : slice (p ++ r) (String.length p) = r.
Proof. induction p as [|a p IH]; simpl; [now destruct r | exact IH]. Qed.

Lemma slice0_append (p r : string) : slice0 (p ++ r) (String.length p) = p.
Proof. induction p as [|a p IH]; simpl; [now destruct r | now rewrite IH]. Qed.

Lemma indexOf_z_tail (p t : string) :
  indexOf p "{z}" = None ->
  startsWith t "{z}" = true ->
  indexOf (p ++ t) "{z}" = Some (String.length p).
Proof.
  intros H Ht. induction p as [|a p IH].
  - destruct t; simpl in *; [discriminate|]. now rewrite Ht.
  - cbn [indexOf] in H.
    destruct (startsWith (String a p) "{z}") eqn:E; [discriminate|].
    destruct (indexOf p "{z}") eqn:Ep; [discriminate|].
    cbn [append indexOf].
    replace (startsWith (String a (p ++ t)) "{z}") with false.
    + rewrite (IH eq_refl). reflexivity.
    + symmetry. destruct (startsWith (String a (p ++ t)) "{z}") eqn:F;
        [|reflexivity].
      exfalso.
      destruct p as [|b [|c p]]; [destruct t as [|u [|v t]] | destruct t as [|u t] | ];
        simpl in E, F, Ht;
        repeat match goal with
               | H : (if Ascii.eqb ?u ?v then _ else _) = true |- _ =>
                   destruct (Ascii.eqb_spec u v); [subst|discriminate]
               end; simpl in *; try discriminate.
Qed.

(** The first occurrence of [{z}] in [p ++ "{z}" ++ rest] is the one
    shown, as soon as [p] has none. *)
Lemma indexOf_z (p rest : string) :
  indexOf p "{z}" = None ->
  indexOf (p ++ "{z}" ++ rest) "{z}" = Some (String.length p).
Proof. intros H. now apply indexOf_z_tail. Qed.

(** A text that holds [{z}] splits at the first one. *)
Lemma first_placeholder (p rest : string) :
  exists tilePrefix rest',
    p ++ "{z}" ++ rest = tilePrefix ++ "{z}" ++ rest'
    /\ indexOf tilePrefix "{z}" = None.
Proof.
  induction p as [|a p IH].
  - now exists EmptyString, rest.
  - destruct IH as (q & rest' & Heq & Hq).
    change (String a p ++ "{z}" ++ rest) with (String a (p ++ "{z}" ++ rest)).
    rewrite Heq.
    destruct (startsWith (String a q) "{z}") eqn:E.
    + apply startsWith_inv in E as [tail Htail].
      exists EmptyString, (tail ++ "{z}" ++ rest'). split; [|reflexivity].
      change (String a (q ++ "{z}" ++ rest')) with (String a q ++ "{z}" ++ rest').
      rewrite Htail. now rewrite !append_assoc.
    + exists (String a q), rest'. split; [reflexivity|].
      cbn [indexOf]. now rewrite E, Hq.
Qed.

(** ** [trim] *)

Lemma trimStart_whiteSpace (c s : string) :
  In c whiteSpace -> trimStart (c ++ s) = trimStart s.
Proof.
  intros H. cbv [whiteSpace map utf8 fold_right] in H.
  repeat (destruct H as [<-|H]; [reflexivity|]). destruct H.
Qed.

Lemma trimStart_whitespace (w s : string) :
  whitespace w -> trimStart (w ++ s) = trimStart s.
Proof.
  induction 1 as [|c w Hc Hw IH]; [reflexivity|].
  now rewrite append_assoc, trimStart_whiteSpace.
Qed.

Lemma blank_whitespace (w : string) : whitespace w -> blank w = true.
Proof.
  intros H. unfold blank.
  rewrite <- (append_nil_r w), (trimStart_whitespace w _ H). reflexivity.
Qed.

Lemma plain_bound (a : ascii) :
  plain a = true -> (46 <= nat_of_ascii a <= 57)%nat.
Proof.
  unfold plain, isDigit. cbv zeta. intros H. apply orb_true_iff in H as [H|H].
  - apply andb_true_iff in H as [H1 H2].
    apply Nat.leb_le in H1. apply Nat.leb_le in H2.
    set (n := nat_of_ascii a) in *. clearbody n. lia.
  - apply Ascii.eqb_eq in H. subst. change (nat_of_ascii ".") with 46%nat. lia.
Qed.

Lemma trimStart_plain (a : ascii) (s : string) :
  plain a = true -> trimStart (String a s) = String a s.
Proof.
  intros H. apply plain_bound in H.
  assert (W : ws1 a = false /\ (forall b, ws2 a b = false)
              /\ (forall b c, ws3 a b c = false)).
  { unfold ws1, ws2, ws3. cbv zeta.
    set (n := nat_of_ascii a) in *. clearbody n.
    assert (E1 : (9 <=? n)%nat && (n <=? 13)%nat = false).
    { apply andb_false_iff. right. apply Nat.leb_gt. lia. }
    assert (E2 : forall k, (57 < k)%nat -> (n =? k)%nat = false).
    { intros k Hk. apply Nat.eqb_neq. lia. }
    assert (E3 : (n =? 32)%nat = false) by (apply Nat.eqb_neq; lia).
    rewrite E1, E3, !E2 by lia. repeat split; reflexivity. }
  destruct W as (W1 & W2 & W3).
  cbn [trimStart]. rewrite W1.
  destruct s as [|b [|c s]]; [reflexivity | now rewrite W2 | now rewrite W2, W3].
Qed.

Lemma trimEnd_whitespace (w : string) : whitespace w -> trimEnd w = EmptyString.
Proof.
  intros H. destruct w as [|a w]; [reflexivity|].
  cbn [trimEnd]. now rewrite (blank_whitespace _ H).
Qed.

Lemma trimEnd_plain (d w : string) :
  allPlain d = true -> whitespace w -> trimEnd (d ++ w) = d.
Proof.
  intros Hd Hw. induction d as [|a d IH].
  - now apply trimEnd_whitespace.
  - simpl in Hd. apply andb_true_iff in Hd as [Ha Hd].
    cbn [append trimEnd]. unfold blank.
    rewrite (trimStart_plain a _ Ha). cbn. now rewrite (IH Hd).
Qed.

(** [trim] removes the white space around a version number, whatever it
    is made of. *)
Lemma trim_plain (w1 d w2 : string) :
  whitespace w1 -> whitespace w2 -> allPlain d = true -> d <> EmptyString ->
  trim (w1 ++ d ++ w2) = d.
Proof.
  intros H1 H2 Hd Hne. unfold trim.
  rewrite (trimStart_whitespace w1 _ H1).
  destruct d as [|a d]; [congruence|].
  simpl in Hd. apply andb_true_iff in Hd as [Ha Hd].
  cbn [append]. rewrite (trimStart_plain a _ Ha).
  change (String a (d ++ w2)) with (String a d ++ w2).
  apply trimEnd_plain; [|assumption]. simpl. now rewrite Ha, Hd.
Qed.

(** ** The version pattern *)

Lemma allDigits_allPlain (s : string) : allDigits s = true -> allPlain s = true.
Proof.
  induction s as [|a s IH]; [reflexivity|]. simpl. intros H.
  apply andb_true_iff in H as [Ha Hs]. unfold plain. now rewrite Ha, IH.
Qed.

Lemma allPlain_append (a b : string) :
  allPlain (a ++ b) = allPlain a && allPlain b.
Proof.
  induction a as [|x a IH]; [reflexivity|]. simpl. now rewrite IH, andb_assoc.
Qed.

Lemma spanDigits_spec (s d r : string) :
  spanDigits s = (d, r) ->
  s = d ++ r /\ allDigits d = true
  /\ match r with String a _ => isDigit a = false | EmptyString => True end.
Proof.
  revert d r. induction s as [|a s IH]; intros d r H; simpl in H.
  - inversion H. now subst.
  - destruct (isDigit a) eqn:Ea.
    + destruct (spanDigits s) as [d' r'] eqn:Es. inversion H; subst.
      destruct (IH _ _ eq_refl) as (-> & Hd & Hr).
      simpl. rewrite Ea. repeat split; assumption.
    + inversion H; subst. repeat split. exact Ea.
Qed.

Lemma spanDigits_append (d r : string) :
  allDigits d = true ->
  match r with String a _ => isDigit a = false | EmptyString => True end ->
  spanDigits (d ++ r) = (d, r).
Proof.
  intros Hd Hr. induction d as [|a d IH].
  - destruct r as [|a r]; [reflexivity|]. simpl. now rewrite Hr.
  - simpl in Hd. apply andb_true_iff in Hd as [Ha Hd].
    simpl. now rewrite Ha, (IH Hd).
Qed.

(** The pattern accepts exactly the grammar [MAJOR.MINOR], and captures
    [MAJOR]. *)
Lemma matchVersion_spec (version major : string) :
  matchVersion version = Some major <-> MajorMinor version major.
Proof.
  unfold matchVersion, MajorMinor. split.
  - destruct (spanDigits version) as [d r] eqn:E.
    apply spanDigits_spec in E as (-> & Hd & _).
    destruct d as [|a d]; [discriminate|].
    destruct r as [|dot minor]; [discriminate|].
    destruct (Ascii.eqb_spec dot "."); [subst|discriminate]. cbn [andb].
    destruct (minor =? EmptyString) eqn:Em; [discriminate|]. cbn [negb andb].
    destruct (allDigits minor) eqn:Ed; [|discriminate].
    intros H; inversion H; subst. exists minor.
    apply String.eqb_neq in Em. repeat split; try assumption. discriminate.
  - intros (minor & -> & Hmaj & Hmin & Dmaj & Dmin).
    rewrite (spanDigits_append major ("." ++ minor) Dmaj); [|reflexivity].
    destruct major as [|a d]; [congruence|]. cbn [append].
    rewrite Ascii.eqb_refl, Dmin.
    apply String.eqb_neq in Hmin. now rewrite Hmin.
Qed.

(* ================================================================== *)
(** * Facts about [Map] *)
(* ================================================================== *)

Lemma MapGet_MapSet {V : Type} (m : Map V) (k k' : string) (v : V) :
  MapGet (MapSet m k v) k' = if (k =? k') then Some v else MapGet m k'.
Proof.
  induction m as [|[k0 v0] m IH]; simpl.
  - reflexivity.
  - destruct (String.eqb_spec k0 k) as [->|Hk]; simpl.
    + destruct (k =? k'); reflexivity.
    + rewrite IH. destruct (String.eqb_spec k0 k') as [->|]; [|reflexivity].
      destruct (String.eqb_spec k k'); [congruence | reflexivity].
Qed.

Lemma MapKeys_MapHas {V : Type} (m : Map V) (k : string) :
  In k (MapKeys m) <-> MapHas m k = true.
Proof.
  unfold MapHas, MapKeys. induction m as [|[k0 v0] m IH]; simpl.
  - split; [tauto | discriminate].
  - destruct (String.eqb_spec k0 k) as [->|Hk].
    + tauto.
    + rewrite <- IH. tauto.
Qed.

Lemma MapHas_MapSet {V : Type} (m : Map V) (k k' : string) (v : V) :
  MapHas (MapSet m k v) k' = (k =? k') || MapHas m k'.
Proof.
  unfold MapHas. rewrite MapGet_MapSet. now destruct (k =? k').
Qed.

Lemma MapHas_fold (l : list Entry) (m : Map Entry) (k : string) :
  MapHas (fold_left (fun entries entry => MapSet entries (filename entry) entry) l m) k
  = MapHas m k || existsb (fun entry => filename entry =? k) l.
Proof.
  revert m. induction l as [|e l IH]; intros m; simpl.
  - now rewrite orb_false_r.
  - rewrite IH, MapHas_MapSet.
    destruct (filename e =? k), (MapHas m k); reflexivity.
Qed.

(** The map has a key exactly when the archive has an entry of that
    name. *)
Lemma MapHas_entriesOf (zip : Zip) (k : string) :
  MapHas (entriesOf zip) k = existsb (fun entry => filename entry =? k) (zipEntries zip).
Proof. unfold entriesOf. now rewrite MapHas_fold. Qed.

Lemma In_MapKeys_entriesOf (zip : Zip) (k : string) :
  In k (MapKeys (entriesOf zip)) <-> exists entry, In entry (zipEntries zip) /\ filename entry = k.
Proof.
  rewrite MapKeys_MapHas, MapHas_entriesOf, existsb_exists.
  split; intros (e & He & Hk); exists e; split; try assumption.
  - now apply String.eqb_eq.
  - now apply String.eqb_eq.
Qed.

(** Searching the keys of the map is searching the file names of the
    archive. *)
Lemma existsb_MapKeys_entriesOf (zip : Zip) (f : string -> bool) :
  existsb f (MapKeys (entriesOf zip))
  = existsb (fun entry => f (filename entry)) (zipEntries zip).
Proof.
  apply eq_true_iff_eq. rewrite !existsb_exists. split.
  - intros (k & Hk & Hf). apply In_MapKeys_entriesOf in Hk as (e & He & <-).
    now exists e.
  - intros (e & He & Hf). exists (filename e). split; [|assumption].
    apply In_MapKeys_entriesOf. now exists e.
Qed.

(* ================================================================== *)
(** * Facts about the monad *)
(* ================================================================== *)

Lemma pushes_ret : pushes (ret tt) [] [].
Proof. intros [es ws]. unfold ret. simpl. now rewrite !app_nil_r. Qed.

Lemma pushes_pushError (msg : string) : pushes (pushError msg) [msg] [].
Proof. intros [es ws]. unfold pushError. simpl. now rewrite app_nil_r. Qed.

Lemma pushes_pushWarning (msg : string) : pushes (pushWarning msg) [] [msg].
Proof. intros [es ws]. unfold pushWarning. simpl. now rewrite app_nil_r. Qed.

Lemma pushes_bind (m : M unit) (k : unit -> M unit) (e1 w1 e2 w2 : list string) :
  pushes m e1 w1 -> pushes (k tt) e2 w2 -> pushes (bind m k) (e1 ++ e2) (w1 ++ w2).
Proof.
  intros Hm Hk st. unfold bind. rewrite Hm, Hk. simpl. now rewrite !app_assoc.
Qed.

Lemma pushes_when (c : bool) (body : M unit) (es ws : list string) :
  pushes body es ws ->
  pushes (when c body) (if c then es else []) (if c then ws else []).
Proof. intros H. destruct c; [exact H | apply pushes_ret]. Qed.

Lemma pushes_forOf {A : Type} (l : list A) (body : A -> M unit)
      (es ws : A -> list string) :
  (forall a, In a l -> pushes (body a) (es a) (ws a)) ->
  pushes (forOf l body) (flat_map es l) (flat_map ws l).
Proof.
  induction l as [|a l IH]; intros H; simpl.
  - apply pushes_ret.
  - apply pushes_bind; [apply H; now left|].
    apply IH. intros b Hb. apply H. now right.
Qed.

Lemma pushes_get (v : value) (key : string) (k : value -> M unit)
      (es ws : list string) :
  isNullish v = false ->
  pushes (k (property v key)) es ws ->
  pushes (bind (get v key) k) es ws.
Proof.
  intros Hv Hk st. unfold bind, get. rewrite Hv. unfold ret. apply Hk.
Qed.

Lemma pushes_eq (m : M unit) (es es' ws ws' : list string) :
  pushes m es ws -> es = es' -> ws = ws' -> pushes m es' ws'.
Proof. now intros H <- <-. Qed.

(* ================================================================== *)
(** * The levels push what the summaries say *)
(* ================================================================== *)

Lemma flat_map_nil {A B : Type} (l : list A) : flat_map (fun _ : A => @nil B) l = [].
Proof. induction l; simpl; auto. Qed.

Lemma flat_map_flat_map {A B C : Type} (f : B -> list C) (g : A -> list B) (l : list A) :
  flat_map f (flat_map g l) = flat_map (fun a => flat_map f (g a)) l.
Proof.
  induction l as [|a l IH]; simpl; [reflexivity|].
  now rewrite flat_map_app, IH.
Qed.

Lemma flat_map_ext_in {A B : Type} (f g : A -> list B) (l : list A) :
  (forall a, In a l -> f a = g a) -> flat_map f l = flat_map g l.
Proof.
  induction l as [|a l IH]; intros H; simpl; [reflexivity|].
  rewrite (H a) by now left. f_equal. apply IH. intros b Hb. apply H. now right.
Qed.

Lemma pushes_await {A : Type} (a : A) (k : A -> M unit) (es ws : list string) :
  pushes (k a) es ws -> pushes (bind (await (inl a)) k) es ws.
Proof. intros H st. apply H. Qed.

Lemma level2_pushes (entries : Map Entry) (text : option string) :
  versionText entries = inl text ->
  pushes (level2 entries) (level2Errors text) (level2Warnings text).
Proof.
  unfold versionText, level2. destruct (MapGet entries VERSION_FILE) as [ve|].
  - destruct (openReadStream ve) as [content|e]; [|discriminate].
    intros H; inversion H; subst.
    apply pushes_await. cbv zeta. unfold level2Errors, level2Warnings.
    destruct (matchVersion (trim content)) as [major|].
    + change (pushes (when (negb (supported (parseInt10 major)))
                           (pushError (unsupportedMajor (parseInt10 major))))
                     (if supported (parseInt10 major) then []
                      else [unsupportedMajor (parseInt10 major)]) []).
      eapply pushes_eq; [apply pushes_when, pushes_pushError| |];
        now destruct (supported (parseInt10 major)).
    + apply pushes_pushError.
  - intros H; inversion H; subst. apply pushes_pushWarning.
Qed.

Lemma level2_throws (entries : Map Entry) (e : exn) (st : Arrays) :
  versionText entries = inr e -> level2 entries st = Throw e.
Proof.
  unfold versionText, level2. destruct (MapGet entries VERSION_FILE) as [ve|]; [|discriminate].
  destruct (openReadStream ve) as [content|e']; [discriminate|].
  intros H; inversion H; subst. reflexivity.
Qed.

Lemma metadataOf_not_nullish (style : value) : isNullish (metadataOf style) = false.
Proof.
  unfold metadataOf. destruct (truthy (property style "metadata")) eqn:E; [|reflexivity].
  now destruct (property style "metadata").
Qed.

Lemma level5_pushes (style : value) :
  isNullish style = false ->
  pushes (level5 style) (level5Errors style) (level5Warnings style).
Proof.
  intros Hs. unfold level5.
  apply pushes_get; [assumption|].
  change (if truthy (property style "metadata") then property style "metadata"
          else VObject []) with (metadataOf style).
  apply pushes_get; [apply metadataOf_not_nullish|].
  unfold level5Errors.
  set (bounds := property (metadataOf style) "smp:bounds").
  set (maxzoom := property (metadataOf style) "smp:maxzoom").
  eapply pushes_eq;
    [apply (pushes_bind _ _ (boundsErrors bounds) [] (maxzoomErrors maxzoom)
                        (level5Warnings style))
    | reflexivity | reflexivity].
  - destruct bounds as [| |b|n|s|l|f]; try apply pushes_pushError.
    destruct l as [|w [|s [|e [|n [|x l]]]]]; try apply pushes_pushError.
    cbn -[when]. eapply pushes_eq; [apply pushes_when, pushes_pushError| |].
    + now destruct (isNumber w), (isNumber s), (isNumber e), (isNumber n).
    + now destruct (isNumber w), (isNumber s), (isNumber e), (isNumber n).
  - apply pushes_get; [apply metadataOf_not_nullish|]. fold maxzoom.
    eapply pushes_eq;
      [apply (pushes_bind _ _ (maxzoomErrors maxzoom) [] [] (level5Warnings style))
      | apply app_nil_r | reflexivity].
    + eapply pushes_eq; [apply pushes_when, pushes_pushError| |];
        unfold maxzoomErrors; now destruct (isNumber maxzoom).
    + apply pushes_get; [apply metadataOf_not_nullish|].
      unfold level5Warnings. cbv zeta.
      eapply pushes_eq; [apply pushes_when, pushes_pushWarning| |];
        now destruct (truthy _ && negb _).
Qed.

Lemma tile_pushes (entries : Map Entry) (sourceId : string) (tileUrl : value) :
  pushes
    match tileUrl with
    | VString tileUrl =>
        if startsWith tileUrl URI_BASE then
          let templatePath := slice tileUrl (String.length URI_BASE) in
          match indexOf templatePath "{z}" with
          | None => ret tt
          | Some prefixEnd =>
              let tilePrefix := slice0 templatePath prefixEnd in
              let hasTiles :=
                existsb (fun filename => startsWith filename tilePrefix)
                        (MapKeys entries) in
              when (negb hasTiles)
                (pushError ("No tile files found for source " ++ dquote
                            ++ sourceId ++ dquote ++ " (expected under "
                            ++ tilePrefix ++ ")"))
          end
        else ret tt
    | _ => ret tt
    end
    (tileErrors entries sourceId tileUrl) [].
Proof.
  unfold tileErrors. destruct tileUrl; try apply pushes_ret.
  destruct (startsWith s URI_BASE); [|apply pushes_ret].
  cbv zeta. destruct (indexOf _ "{z}") as [prefixEnd|]; [|apply pushes_ret].
  eapply pushes_eq; [apply pushes_when, pushes_pushError| |];
    now destruct (existsb _ _).
Qed.

Lemma source_pushes (entries : Map Entry) (source : string * value) :
  isNullish (snd source) = false ->
  pushes ((fun '(sourceId, source) =>
             tiles <- get source "tiles" ;;
             when (truthy tiles && isArray tiles)
               (forOf (elementsOf tiles) (fun tileUrl =>
                  match tileUrl with
                  | VString tileUrl =>
                      if startsWith tileUrl URI_BASE then
                        let templatePath := slice tileUrl (String.length URI_BASE) in
                        match indexOf templatePath "{z}" with
                        | None => ret tt
                        | Some prefixEnd =>
                            let tilePrefix := slice0 templatePath prefixEnd in
                            let hasTiles :=
                              existsb (fun filename => startsWith filename tilePrefix)
                                      (MapKeys entries) in
                            when (negb hasTiles)
                              (pushError ("No tile files found for source " ++ dquote
                                          ++ sourceId ++ dquote ++ " (expected under "
                                          ++ tilePrefix ++ ")"))
                        end
                      else ret tt
                  | _ => ret tt
                  end))) source)
         (sourceErrors entries source) [].
Proof.
  destruct source as [sourceId source]. cbn [snd]. intros H.
  unfold sourceErrors, tilesOf. cbn [fst snd].
  apply pushes_get; [assumption|].
  destruct (truthy (property source "tiles") && isArray (property source "tiles"));
    [|apply pushes_ret].
  cbn [when].
  eapply pushes_eq;
    [apply (pushes_forOf _ _ (tileErrors entries sourceId) (fun _ => [])) | reflexivity
     | apply flat_map_nil].
  intros tileUrl _. apply tile_pushes.
Qed.

Lemma level6_pushes (entries : Map Entry) (style : value) :
  isNullish style = false ->
  (forall source, In source (sourcesOf style) -> isNullish (snd source) = false) ->
  pushes (level6 entries style) (level6Errors entries style) [].
Proof.
  intros Hs Hsrc. unfold level6, level6Errors. unfold sourcesOf in *.
  apply pushes_get; [assumption|].
  destruct (truthy (property style "sources")) eqn:Et; [|apply pushes_ret].
  cbn [when].
  eapply pushes_eq;
    [apply (pushes_forOf _ _ (sourceErrors entries) (fun _ => [])) | reflexivity
     | apply flat_map_nil].
  intros source Hin. apply source_pushes. now apply Hsrc.
Qed.

Lemma level7_pushes (entries : Map Entry) (style : value) :
  isNullish style = false ->
  pushes (level7 entries style) (level7Errors entries style) [].
Proof.
  intros Hs. unfold level7, level7Errors.
  apply pushes_get; [assumption|].
  destruct (property style "glyphs"); try apply pushes_ret.
  destruct (startsWith s URI_BASE); [|apply pushes_ret].
  cbv zeta.
  eapply pushes_eq; [apply pushes_when, pushes_pushError| |];
    now destruct (existsb _ _).
Qed.

Lemma validateSpriteFiles_pushes (entries : Map Entry) (basePath : string) :
  pushes (validateSpriteFiles entries basePath)
         (spriteErrors entries basePath) (spriteWarnings entries basePath).
Proof.
  unfold validateSpriteFiles, spriteErrors, spriteWarnings. cbv zeta.
  eapply pushes_eq.
  - apply pushes_bind; [apply pushes_when, pushes_pushError|].
    apply pushes_bind; [apply pushes_when, pushes_pushError|].
    apply pushes_when, pushes_pushWarning.
  - unfold missingSprite.
    destruct (MapHas entries (basePath ++ ".json")),
             (MapHas entries (basePath ++ ".png")),
             (negb _ || negb _); reflexivity.
  - unfold missing2x.
    destruct (MapHas entries (basePath ++ ".json")),
             (MapHas entries (basePath ++ ".png")),
             (MapHas entries (basePath ++ "@2x.json")),
             (MapHas entries (basePath ++ "@2x.png")); reflexivity.
Qed.

Lemma internal_pushes (entries : Map Entry) (url : value) :
  pushes
    match url with
    | VString url =>
        if startsWith url URI_BASE
        then validateSpriteFiles entries (slice url (String.length URI_BASE))
        else ret tt
    | _ => ret tt
    end
    (flat_map (spriteErrors entries) (internalBase url))
    (flat_map (spriteWarnings entries) (internalBase url)).
Proof.
  unfold internalBase. destruct url; try apply pushes_ret.
  destruct (startsWith s URI_BASE); [|apply pushes_ret].
  cbn [flat_map]. rewrite !app_nil_r. apply validateSpriteFiles_pushes.
Qed.

Lemma level8_pushes (entries : Map Entry) (style : value) :
  isNullish style = false ->
  (forall sprites, property style "sprite" = VArray sprites ->
                   forall item, In item sprites -> isNullish item = false) ->
  pushes (level8 entries style) (level8Errors entries style)
         (level8Warnings entries style).
Proof.
  intros Hs Hitems. unfold level8, level8Errors, level8Warnings, spriteBases.
  apply pushes_get; [assumption|].
  destruct (property style "sprite") as [| |b|n|s|sprites|f] eqn:E;
    try apply pushes_ret.
  - apply (internal_pushes entries (VString s)).
  - rewrite !flat_map_flat_map.
    apply pushes_forOf. intros item Hin.
    apply pushes_get; [apply (Hitems _ eq_refl _ Hin)|].
    apply internal_pushes.
Qed.

Lemma safeStyle_inv (style : value) :
  safeStyle style = true ->
  isNullish style = false
  /\ (forall source, In source (sourcesOf style) -> isNullish (snd source) = false)
  /\ (forall sprites, property style "sprite" = VArray sprites ->
                      forall item, In item sprites -> isNullish item = false).
Proof.
  unfold safeStyle. intros H.
  apply andb_true_iff in H as [H H3]. apply andb_true_iff in H as [H1 H2].
  repeat split.
  - now apply negb_true_iff.
  - intros source Hin.
    rewrite forallb_forall in H2. apply negb_true_iff. now apply H2.
  - intros sprites E item Hin. rewrite E in H3.
    rewrite forallb_forall in H3. apply negb_true_iff. now apply H3.
Qed.

(* ================================================================== *)
(** * What [validate] returns *)
(* ================================================================== *)

Lemma verdict_invalid (es ws : list string) (e : string) :
  verdict (es ++ [e]) ws = mkResult false (es ++ [e]) ws.
Proof.
  unfold verdict. f_equal. rewrite length_app. simpl.
  apply Nat.eqb_neq. lia.
Qed.

Section Audit.

Variable open : string -> Zip + exn.
Variable JSONparse : string -> value + exn.
Variable validateStyleMin : value -> list string.

Lemma styleMin_pushes (style : value) :
  pushes (forOf (validateStyleMin style) (fun e => pushError ("style.json: " ++ e)))
         (map (fun e => "style.json: " ++ e) (validateStyleMin style)) [].
Proof.
  eapply pushes_eq;
    [apply (pushes_forOf _ _ (fun e => ["style.json: " ++ e]) (fun _ => []))
    | | apply flat_map_nil].
  - intros e _. apply pushes_pushError.
  - induction (validateStyleMin style) as [|e l IH]; cbn [flat_map map app];
      [reflexivity | now rewrite IH].
Qed.

(** Levels 4 to 8 on a style that parsed and that no property read throws
    on. *)
Lemma checks_push (entries : Map Entry) (style : value) :
  safeStyle style = true ->
  pushes (forOf (validateStyleMin style) (fun e => pushError ("style.json: " ++ e)) ;;
          level5 style ;;
          level6 entries style ;;
          level7 entries style ;;
          level8 entries style)
         (checkErrors validateStyleMin entries style)
         (checkWarnings entries style).
Proof.
  intros H. apply safeStyle_inv in H as (H1 & H2 & H3).
  eapply pushes_eq.
  - apply pushes_bind; [apply styleMin_pushes|].
    apply pushes_bind; [apply level5_pushes; assumption|].
    apply pushes_bind; [apply level6_pushes; assumption|].
    apply pushes_bind; [apply level7_pushes; assumption|].
    apply level8_pushes; assumption.
  - reflexivity.
  - reflexivity.
Qed.

(** The result of [validate] on an archive that opens and whose audit
    does not throw: the version level's messages, then those of the
    levels that look at the style. *)
Lemma validate_audited (filepath : string) (zip : Zip) :
  open filepath = inl zip ->
  auditable JSONparse zip = true ->
  exists text,
    versionText (entriesOf zip) = inl text
    /\ validate open JSONparse validateStyleMin filepath
       = Resolved
           (verdict
              (level2Errors text
               ++ styleErrors JSONparse validateStyleMin (entriesOf zip))
              (level2Warnings text
               ++ styleWarnings JSONparse (entriesOf zip))).
Proof.
  intros Hopen Haud. unfold auditable in Haud.
  destruct (zipFailure zip) eqn:Ef; [discriminate|].
  destruct (versionText (entriesOf zip)) as [text|] eqn:Ev; [|discriminate].
  exists text. split; [reflexivity|].
  unfold validate. rewrite Hopen. unfold audit, readEntries. rewrite Ef.
  unfold bind at 1. unfold ret at 1.
  unfold bind at 1. rewrite (level2_pushes _ _ Ev). cbn [errorsArray warningsArray app].
  unfold styleErrors, styleWarnings.
  destruct (MapGet (entriesOf zip) STYLE_FILE) as [styleEntry|].
  - destruct (json JSONparse styleEntry) as [style|err].
    + rewrite (checks_push (entriesOf zip) style Haud). reflexivity.
    + cbn. rewrite app_nil_r. unfold notJSON. now rewrite verdict_invalid.
  - cbn. rewrite app_nil_r. now rewrite verdict_invalid.
Qed.

End Audit.

(* ================================================================== *)
(** * When [validate] rejects *)
(* ================================================================== *)

Lemma throws_bind (m : M unit) (k : unit -> M unit) :
  throws m -> throws (bind m k).
Proof. intros H st. destruct (H st) as [e He]. exists e. unfold bind. now rewrite He. Qed.

Lemma throws_after (m : M unit) (k : unit -> M unit) (es ws : list string) :
  pushes m es ws -> throws (k tt) -> throws (bind m k).
Proof. intros Hm Hk st. unfold bind. rewrite Hm. apply Hk. Qed.

Lemma throws_get (v : value) (key : string) (k : value -> M unit) :
  isNullish v = true -> throws (bind (get v key) k).
Proof. intros H st. unfold bind, get. rewrite H. eexists. reflexivity. Qed.

Lemma throws_get_after (v : value) (key : string) (k : value -> M unit) :
  isNullish v = false -> throws (k (property v key)) -> throws (bind (get v key) k).
Proof. intros H Hk st. unfold bind, get. rewrite H. apply Hk. Qed.

(** A loop throws as soon as one round does, the rounds before it having
    fallen through. *)
Lemma throws_forOf {A : Type} (l : list A) (body : A -> M unit) (bad : A -> bool) :
  (forall a, In a l -> bad a = false -> exists es ws, pushes (body a) es ws) ->
  (forall a, In a l -> bad a = true -> throws (body a)) ->
  forallb (fun a => negb (bad a)) l = false ->
  throws (forOf l body).
Proof.
  induction l as [|a l IH]; intros Hok Hbad H; [discriminate|].
  simpl in H. cbn [forOf]. destruct (bad a) eqn:Ea.
  - apply throws_bind. apply Hbad; [now left | assumption].
  - destruct (Hok a (or_introl eq_refl) Ea) as (es & ws & Hp).
    apply (throws_after _ _ es ws Hp). simpl in H.
    apply IH; [| | assumption]; intros b Hb; [apply Hok | apply Hbad]; now right.
Qed.

Lemma level5_throws (style : value) : isNullish style = true -> throws (level5 style).
Proof. intros H. now apply throws_get. Qed.

Lemma level6_throws (entries : Map Entry) (style : value) :
  isNullish style = false ->
  forallb (fun source => negb (isNullish (snd source))) (sourcesOf style) = false ->
  throws (level6 entries style).
Proof.
  intros Hs Hbad. unfold level6. unfold sourcesOf in Hbad.
  apply throws_get_after; [assumption|].
  destruct (truthy (property style "sources")); [|discriminate]. cbn [when].
  apply (throws_forOf _ _ (fun source => isNullish (snd source))); [| |assumption].
  - intros source _ Hok. eexists _, _. now apply source_pushes.
  - intros [sourceId source] _ Hnull. cbn [snd] in Hnull. now apply throws_get.
Qed.

Lemma level8_throws (entries : Map Entry) (style : value) (sprites : list value) :
  isNullish style = false ->
  property style "sprite" = VArray sprites ->
  forallb (fun item => negb (isNullish item)) sprites = false ->
  throws (level8 entries style).
Proof.
  intros Hs E Hbad. unfold level8.
  apply throws_get_after; [assumption|]. rewrite E.
  apply (throws_forOf _ _ isNullish); [| |assumption].
  - intros item _ Hok. eexists _, _.
    apply pushes_get; [assumption|]. apply internal_pushes.
  - intros item _ Hnull. now apply throws_get.
Qed.

Section Rejection.

Variable open : string -> Zip + exn.
Variable JSONparse : string -> value + exn.
Variable validateStyleMin : value -> list string.

Lemma checks_throw (entries : Map Entry) (style : value) :
  safeStyle style = false ->
  throws (forOf (validateStyleMin style) (fun e => pushError ("style.json: " ++ e)) ;;
          level5 style ;;
          level6 entries style ;;
          level7 entries style ;;
          level8 entries style).
Proof.
  intros H. unfold safeStyle in H.
  eapply throws_after; [apply styleMin_pushes|].
  destruct (isNullish style) eqn:Hs.
  { apply throws_bind. now apply level5_throws. }
  eapply throws_after; [now apply level5_pushes|].
  cbn [negb andb] in H.
  destruct (forallb _ (sourcesOf style)) eqn:Hsrc.
  - eapply throws_after.
    { apply level6_pushes; [assumption|]. intros source Hin.
      rewrite forallb_forall in Hsrc. apply negb_true_iff. now apply Hsrc. }
    eapply throws_after; [now apply level7_pushes|].
    cbn [andb] in H.
    destruct (property style "sprite") as [| |b|n|s|sprites|f] eqn:E;
      try discriminate.
    now apply (level8_throws entries style sprites).
  - apply throws_bind. now apply level6_throws.
Qed.

(** [validate] rejects on every archive that opens and is not
    [auditable]. *)
Lemma validate_rejected (filepath : string) (zip : Zip) :
  open filepath = inl zip ->
  auditable JSONparse zip = false ->
  exists e, validate open JSONparse validateStyleMin filepath = Rejected e.
Proof.
  intros Hopen Haud. unfold auditable in Haud.
  unfold validate. rewrite Hopen. unfold audit, readEntries.
  destruct (zipFailure zip) as [e|] eqn:Ef.
  { exists e. reflexivity. }
  unfold bind at 1. unfold ret at 1.
  destruct (versionText (entriesOf zip)) as [text|e] eqn:Ev.
  - unfold bind at 1. rewrite (level2_pushes _ _ Ev).
    destruct (MapGet (entriesOf zip) STYLE_FILE) as [styleEntry|]; [|discriminate].
    destruct (json JSONparse styleEntry) as [style|err]; [|discriminate].
    destruct (checks_throw (entriesOf zip) style Haud
                (mkArrays (errorsArray (mkArrays [] []) ++ level2Errors text)
                          (warningsArray (mkArrays [] []) ++ level2Warnings text)))
      as [e He].
    exists e. now rewrite He.
  - exists e. unfold bind. now rewrite (level2_throws _ _ _ Ev).
Qed.

(** The promise of [validate] resolves exactly on the paths that do not
    open and on the archives that are [auditable]. *)
Lemma validate_settles (filepath : string) (zip : Zip) :
  open filepath = inl zip ->
  (exists r, validate open JSONparse validateStyleMin filepath = Resolved r)
  <-> auditable JSONparse zip = true.
Proof.
  intros Hopen. split.
  - intros [r Hr]. destruct (auditable JSONparse zip) eqn:E; [reflexivity|].
    destruct (validate_rejected filepath zip Hopen E) as [e He]. congruence.
  - intros H. destruct (validate_audited open JSONparse validateStyleMin filepath zip Hopen H)
      as (text & _ & Hv). eexists. exact Hv.
Qed.

End Rejection.

(* ================================================================== *)
(** * Where a message comes from *)
(* ================================================================== *)

(** The first words of a message tell its level. *)
Lemma errorOf_levelOf (n : nat) (e : string) : errorOf n e -> levelOf e = n.
Proof. destruct 1; reflexivity. Qed.

Lemma errorOf_unique (n m : nat) (e : string) : errorOf n e -> errorOf m e -> n = m.
Proof.
  intros Hn Hm. apply errorOf_levelOf in Hn, Hm. congruence.
Qed.

(** Closes a goal in which one message is said to come from two
    levels. *)
Ltac other_level :=
  match goal with
  | Ha : errorOf ?n ?e, Hb : errorOf ?m ?e |- _ =>
      pose proof (errorOf_unique _ _ _ Ha Hb); discriminate
  end.

Lemma level2Errors_origin (text : option string) (e : string) :
  In e (level2Errors text) -> errorOf 2 e.
Proof.
  unfold level2Errors. destruct text as [content|]; [|intros []].
  destruct (matchVersion (trim content)) as [major|].
  - destruct (supported (parseInt10 major)); [intros []|].
    intros [<-|[]]. constructor.
  - intros [<-|[]]. constructor.
Qed.

Lemma level5Errors_origin (style : value) (e : string) :
  In e (level5Errors style) -> errorOf 5 e.
Proof.
  unfold level5Errors, boundsErrors, maxzoomErrors. intros H.
  apply in_app_or in H as [H|H].
  - destruct (property (metadataOf style) "smp:bounds") as [| |b|n|s|l|f];
      try (destruct H as [<-|[]]; constructor).
    destruct l as [|w [|s [|x [|n [|y l]]]]];
      try (destruct H as [<-|[]]; constructor).
    destruct (isNumber w && isNumber s && isNumber x && isNumber n);
      [destruct H | destruct H as [<-|[]]; constructor].
  - destruct (isNumber _); [destruct H | destruct H as [<-|[]]; constructor].
Qed.

Lemma tileErrors_origin (entries : Map Entry) (sourceId : string) (tileUrl : value)
      (e : string) :
  In e (tileErrors entries sourceId tileUrl) -> errorOf 6 e.
Proof.
  unfold tileErrors. destruct tileUrl; try intros [].
  destruct (startsWith s URI_BASE); [|intros []].
  cbv zeta. destruct (indexOf _ _); [|intros []].
  destruct (existsb _ _); [intros []|]. intros [<-|[]]. constructor.
Qed.

Lemma level6Errors_origin (entries : Map Entry) (style : value) (e : string) :
  In e (level6Errors entries style) -> errorOf 6 e.
Proof.
  unfold level6Errors, sourceErrors. intros H.
  apply in_flat_map in H as (source & _ & H).
  apply in_flat_map in H as (tileUrl & _ & H).
  now apply tileErrors_origin in H.
Qed.

Lemma level7Errors_origin (entries : Map Entry) (style : value) (e : string) :
  In e (level7Errors entries style) -> errorOf 7 e.
Proof.
  unfold level7Errors. destruct (property style "glyphs"); try intros [].
  destruct (startsWith s URI_BASE); [|intros []].
  cbv zeta. destruct (existsb _ _); [intros []|]. intros [<-|[]]. constructor.
Qed.

Lemma spriteErrors_origin (entries : Map Entry) (basePath e : string) :
  In e (spriteErrors entries basePath) -> errorOf 8 e.
Proof.
  unfold spriteErrors. intros H. apply in_app_or in H as [H|H];
    destruct (MapHas entries _); try destruct H as [<-|[]]; try destruct H;
    constructor.
Qed.

Lemma level8Errors_origin (entries : Map Entry) (style : value) (e : string) :
  In e (level8Errors entries style) -> errorOf 8 e.
Proof.
  unfold level8Errors. intros H. apply in_flat_map in H as (base & _ & H).
  now apply spriteErrors_origin in H.
Qed.

(** A message of the levels 4 to 8 is a message of the list of its
    level. *)
Lemma checkErrors_level (validateStyleMin : value -> list string)
      (entries : Map Entry) (style : value) (e : string) (n : nat) :
  In e (checkErrors validateStyleMin entries style) ->
  errorOf n e ->
  match n with
  | 4 => exists m, e = "style.json: " ++ m /\ In m (validateStyleMin style)
  | 5 => In e (level5Errors style)
  | 6 => In e (level6Errors entries style)
  | 7 => In e (level7Errors entries style)
  | 8 => In e (level8Errors entries style)
  | _ => False
  end.
Proof.
  unfold checkErrors. intros H Hn.
  apply in_app_or in H as [H|H];
    [|apply in_app_or in H as [H|H];
      [|apply in_app_or in H as [H|H]; [|apply in_app_or in H as [H|H]]]].
  - apply in_map_iff in H as (m & <- & Hm).
    rewrite (errorOf_unique _ _ _ Hn (error_style m)). now exists m.
  - rewrite (errorOf_unique _ _ _ Hn (level5Errors_origin _ _ H)). exact H.
  - rewrite (errorOf_unique _ _ _ Hn (level6Errors_origin _ _ _ H)). exact H.
  - rewrite (errorOf_unique _ _ _ Hn (level7Errors_origin _ _ _ H)). exact H.
  - rewrite (errorOf_unique _ _ _ Hn (level8Errors_origin _ _ _ H)). exact H.
Qed.

Lemma checkErrors_origin (validateStyleMin : value -> list string)
      (entries : Map Entry) (style : value) (e : string) :
  In e (checkErrors validateStyleMin entries style) ->
  exists n, 4 <= n /\ errorOf n e.
Proof.
  unfold checkErrors. intros H.
  apply in_app_or in H as [H|H];
    [|apply in_app_or in H as [H|H];
      [|apply in_app_or in H as [H|H]; [|apply in_app_or in H as [H|H]]]].
  - apply in_map_iff in H as (m & <- & _). exists 4. split; [lia|constructor].
  - exists 5. split; [lia|]. now apply level5Errors_origin in H.
  - exists 6. split; [lia|]. now apply level6Errors_origin in H.
  - exists 7. split; [lia|]. now apply level7Errors_origin in H.
  - exists 8. split; [lia|]. now apply level8Errors_origin in H.
Qed.

Lemma styleErrors_origin (JSONparse : string -> value + exn)
      (validateStyleMin : value -> list string) (entries : Map Entry) (e : string) :
  In e (styleErrors JSONparse validateStyleMin entries) ->
  exists n, 3 <= n /\ errorOf n e.
Proof.
  unfold styleErrors. destruct (MapGet entries STYLE_FILE) as [styleEntry|].
  - destruct (json JSONparse styleEntry) as [style|err].
    + intros H. apply checkErrors_origin in H as (n & Hn & He).
      exists n. split; [lia | assumption].
    + intros [<-|[]]. exists 4. split; [lia|constructor].
  - intros [<-|[]]. exists 3. split; [lia|constructor].
Qed.

Lemma verdict_valid (es ws : list string) : valid (verdict es ws) = true <-> es = [].
Proof.
  unfold verdict. cbn [valid]. destruct es; simpl; split; congruence.
Qed.

Lemma verdict_In (es ws : list string) (e : string) :
  In e es -> valid (verdict es ws) = false.
Proof. destruct es; [intros []|reflexivity]. Qed.

(* ================================================================== *)
(** * The properties of the specification: the validator *)
(* ================================================================== *)

Lemma versionText_absent (entries : Map Entry) :
  MapGet entries VERSION_FILE = None -> versionText entries = inl None.
Proof. unfold versionText. now intros ->. Qed.

Lemma versionText_content (entries : Map Entry) (versionEntry : Entry) (content : string) :
  MapGet entries VERSION_FILE = Some versionEntry ->
  openReadStream versionEntry = inl content ->
  versionText entries = inl (Some content).
Proof. unfold versionText. now intros -> ->. Qed.

Lemma supported_one (major : N) : supported major = true <-> major = 1%N.
Proof.
  unfold supported. cbn. rewrite orb_false_r. apply N.eqb_eq.
Qed.


Section Claims.

Variable open : string -> Zip + exn.
Variable JSONparse : string -> value + exn.
Variable validateStyleMin : value -> list string.

(** The result on an archive whose style parses. *)
Lemma validate_parsed (filepath : string) (zip : Zip) (styleEntry : Entry)
      (style : value) :
  open filepath = inl zip ->
  auditable JSONparse zip = true ->
  MapGet (entriesOf zip) STYLE_FILE = Some styleEntry ->
  json JSONparse styleEntry = inl style ->
  exists text,
    versionText (entriesOf zip) = inl text
    /\ validate open JSONparse validateStyleMin filepath
       = Resolved
           (verdict
              (level2Errors text ++ checkErrors validateStyleMin (entriesOf zip) style)
              (level2Warnings text ++ checkWarnings (entriesOf zip) style)).
Proof.
  intros Hopen Haud Hs Hj.
  destruct (validate_audited open JSONparse validateStyleMin filepath zip Hopen Haud)
    as (text & Hv & ->).
  exists text. split; [assumption|].
  unfold styleErrors, styleWarnings. now rewrite Hs, Hj.
Qed.

(** C2. Level 2, the [VERSION] entry. On an archive the audit of which
    ends with a result: without the entry the result carries the warning
    'Missing VERSION file' and level 2 adds no error, so the errors are
    those of the later levels; with an entry whose trimmed content is not
    of the grammar MAJOR.MINOR the result carries the error 'Invalid
    version format' and is invalid; with a major version other than 1 it
    carries the error 'Unsupported major version' and is invalid; with
    major version 1 and any minor version, and so with the content 1.1
    and a line feed, level 2 adds neither an error nor a warning, and
    the result is valid when the levels that look at the style report
    no error. The result is valid exactly when no error is reported. *)
Theorem version_level (filepath : string) (zip : Zip) :
  open filepath = inl zip ->
  auditable JSONparse zip = true ->
  exists r,
    validate open JSONparse validateStyleMin filepath = Resolved r
    /\ (valid r = true <-> errors r = [])
    /\ (MapGet (entriesOf zip) VERSION_FILE = None ->
        In missingVersion (warnings r)
        /\ errors r = styleErrors JSONparse validateStyleMin (entriesOf zip))
    /\ (forall versionEntry content,
           MapGet (entriesOf zip) VERSION_FILE = Some versionEntry ->
           openReadStream versionEntry = inl content ->
           ((forall major, ~ MajorMinor (trim content) major) ->
            In (invalidVersion (trim content)) (errors r) /\ valid r = false)
           /\ (forall major,
                  MajorMinor (trim content) major -> parseInt10 major <> 1%N ->
                  (exists e, In e (errors r)
                             /\ startsWith e "Unsupported major version: " = true)
                  /\ valid r = false)
           /\ (forall major,
                  MajorMinor (trim content) major -> parseInt10 major = 1%N ->
                  errors r = styleErrors JSONparse validateStyleMin (entriesOf zip)
                  /\ warnings r = styleWarnings JSONparse (entriesOf zip))
           /\ (content = "1.1" ++ LF ->
               errors r = styleErrors JSONparse validateStyleMin (entriesOf zip)
               /\ warnings r = styleWarnings JSONparse (entriesOf zip)
               /\ (styleErrors JSONparse validateStyleMin (entriesOf zip) = [] ->
                   valid r = true))).
Proof.
  intros Hopen Haud.
  destruct (validate_audited open JSONparse validateStyleMin filepath zip Hopen Haud)
    as (text & Hv & Hr).
  eexists; split; [exact Hr|]. split; [apply verdict_valid|].
  cbn [errors warnings]. split.
  - intros Habs. rewrite (versionText_absent _ Habs) in Hv. inversion Hv; subst text.
    split; [now left | reflexivity].
  - intros versionEntry content Hget Hread.
    rewrite (versionText_content _ _ _ Hget Hread) in Hv. inversion Hv; subst text.
    assert (Hone : forall major,
               MajorMinor (trim content) major -> parseInt10 major = 1%N ->
               (level2Errors (Some content)
                ++ styleErrors JSONparse validateStyleMin (entriesOf zip))%list
               = styleErrors JSONparse validateStyleMin (entriesOf zip)
               /\ (level2Warnings (Some content)
                   ++ styleWarnings JSONparse (entriesOf zip))%list
                  = styleWarnings JSONparse (entriesOf zip)).
    { intros major Hm H1. apply matchVersion_spec in Hm.
      unfold level2Errors. rewrite Hm.
      apply supported_one in H1. rewrite H1. split; reflexivity. }
    assert (Hbad : forall e, In e (level2Errors (Some content)) ->
                     In e (level2Errors (Some content)
                           ++ styleErrors JSONparse validateStyleMin (entriesOf zip))
                     /\ valid (verdict
                                (level2Errors (Some content)
                                 ++ styleErrors JSONparse validateStyleMin (entriesOf zip))
                                (level2Warnings (Some content)
                                 ++ styleWarnings JSONparse (entriesOf zip))) = false).
    { intros e He. assert (In e (level2Errors (Some content)
                           ++ styleErrors JSONparse validateStyleMin (entriesOf zip)))
        by (apply in_or_app; now left).
      split; [assumption | now apply (verdict_In _ _ e)]. }
    split; [|split; [|split]].
    + intros Hno. apply Hbad. unfold level2Errors.
      destruct (matchVersion (trim content)) as [major|] eqn:Em; [|now left].
      apply matchVersion_spec in Em. now destruct (Hno major).
    + intros major Hm Hne.
      destruct (Hbad (unsupportedMajor (parseInt10 major))) as [Hin Hinvalid].
      { unfold level2Errors. apply matchVersion_spec in Hm. rewrite Hm.
        destruct (supported (parseInt10 major)) eqn:Es; [|now left].
        apply supported_one in Es. contradiction. }
      split; [|exact Hinvalid].
      exists (unsupportedMajor (parseInt10 major)). split; [exact Hin | reflexivity].
    + intros major Hm H1. now apply (Hone major).
    + intros ->.
      assert (Hm : MajorMinor (trim ("1.1" ++ LF)) "1")
        by (apply matchVersion_spec; reflexivity).
      destruct (Hone "1" Hm eq_refl) as [He Hw].
      split; [exact He | split; [exact Hw|]].
      intros Hnil. apply verdict_valid. rewrite He. exact Hnil.
Qed.

(** C9. Level 4 stops the audit. When the [style.json] entry is there and
    its content does not parse as JSON, [validate] returns at once: the
    result is invalid, its errors are those of the version level followed
    by the message 'style.json is not valid JSON', its warnings are those
    of the version level, and none of its errors is a message of the
    levels 5 to 8 (metadata, tiles, glyphs, sprites). *)
Theorem unparsable_style_stops (filepath : string) (zip : Zip) (text : option string)
        (styleEntry : Entry) (content : string) (err : exn) :
  open filepath = inl zip ->
  zipFailure zip = None ->
  versionText (entriesOf zip) = inl text ->
  MapGet (entriesOf zip) STYLE_FILE = Some styleEntry ->
  openReadStream styleEntry = inl content ->
  JSONparse content = inr err ->
  exists r,
    validate open JSONparse validateStyleMin filepath = Resolved r
    /\ valid r = false
    /\ errors r = (level2Errors text ++ [notJSON err])%list
    /\ warnings r = level2Warnings text
    /\ (forall e n, In e (errors r) -> errorOf n e -> n <= 4).
Proof.
  intros Hopen Hf Hv Hs Hread Hparse.
  assert (Hj : json JSONparse styleEntry = inr err).
  { unfold json. now rewrite Hread. }
  assert (Haud : auditable JSONparse zip = true).
  { unfold auditable. now rewrite Hf, Hv, Hs, Hj. }
  destruct (validate_audited open JSONparse validateStyleMin filepath zip Hopen Haud)
    as (text' & Hv' & Hr).
  rewrite Hv in Hv'. inversion Hv'; subst text'.
  unfold styleErrors, styleWarnings in Hr. rewrite Hs, Hj in Hr.
  rewrite verdict_invalid, app_nil_r in Hr.
  eexists; split; [exact Hr|]. cbn [valid errors warnings].
  repeat split.
  intros e n Hin Hn. apply in_app_or in Hin as [Hin|[<-|[]]].
  - apply level2Errors_origin in Hin. rewrite (errorOf_unique _ _ _ Hn Hin). lia.
  - rewrite (errorOf_unique _ _ _ Hn (error_json err)). lia.
Qed.


End Claims.

Lemma level5Warnings_origin (style : value) (w : string) :
  In w (level5Warnings style) -> w = badSourceFolders.
Proof.
  unfold level5Warnings. cbv zeta. destruct (truthy _ && negb _); [|intros []].
  now intros [<-|[]].
Qed.

Lemma level8Warnings_origin (entries : Map Entry) (style : value) (w : string) :
  In w (level8Warnings entries style) -> exists base, w = missing2x base.
Proof.
  unfold level8Warnings. intros H. apply in_flat_map in H as (base & _ & H).
  unfold spriteWarnings in H. destruct (MapHas _ _ && MapHas _ _); [destruct H|].
  destruct H as [<-|[]]. now exists base.
Qed.

Lemma level2Warnings_origin (text : option string) (w : string) :
  In w (level2Warnings text) -> w = missingVersion.
Proof. destruct text; cbn; [intros [] | intros [H|[]]; now subst]. Qed.

(** No level pushes to [warnings] a message it pushes to [errors]. *)
Lemma warning_is_no_error (n : nat) (w : string) :
  errorOf n w ->
  w <> missingVersion /\ w <> badSourceFolders /\ forall base, w <> missing2x base.
Proof.
  intros H.
  assert (Hn : levelOf w <> 0).
  { rewrite (errorOf_levelOf _ _ H). destruct H; discriminate. }
  split; [|split]; [| |intros base]; intros ->; apply Hn; reflexivity.
Qed.

(** The messages of the tile level for the elements of a [tiles] array:
    one message for a template without files, none for the others. *)
Lemma tileErrors_template (zip : Zip) (sourceId tilePrefix rest : string) :
  indexOf tilePrefix "{z}" = None ->
  tileErrors (entriesOf zip) sourceId (VString (URI_BASE ++ tilePrefix ++ "{z}" ++ rest))
  = if hasFileUnder zip tilePrefix then [] else [noTileFiles sourceId tilePrefix].
Proof.
  intros H. unfold tileErrors.
  rewrite startsWith_append, slice_append, (indexOf_z _ _ H), slice0_append.
  now rewrite existsb_MapKeys_entriesOf.
Qed.

Lemma spriteBases_string (style : value) (base : string) :
  property style "sprite" = VString (URI_BASE ++ base) -> spriteBases style = [base].
Proof.
  intros H. unfold spriteBases, internalBase. rewrite H.
  now rewrite startsWith_append, slice_append.
Qed.

Lemma spriteBases_array (style : value) (sprites : list value) (item : value) (base : string) :
  property style "sprite" = VArray sprites ->
  In item sprites ->
  property item "url" = VString (URI_BASE ++ base) ->
  In base (spriteBases style).
Proof.
  intros H Hin Hurl. unfold spriteBases. rewrite H.
  apply in_flat_map. exists item. split; [assumption|].
  unfold internalBase. rewrite Hurl, startsWith_append, slice_append. now left.
Qed.

Section StyleClaims.

Variable open : string -> Zip + exn.
Variable JSONparse : string -> value + exn.
Variable validateStyleMin : value -> list string.

(** Every message of [errors] is one of the messages of the levels 2 to
    8, and every message of [warnings] one of the three warnings. *)
Lemma validate_origin (filepath : string) (zip : Zip) (r : ValidationResult) :
  open filepath = inl zip ->
  validate open JSONparse validateStyleMin filepath = Resolved r ->
  (forall e, In e (errors r) -> exists n, 2 <= n /\ errorOf n e)
  /\ (forall w, In w (warnings r) ->
                w = missingVersion \/ w = badSourceFolders
                \/ exists base, w = missing2x base).
Proof.
  intros Hopen Hr.
  assert (Haud : auditable JSONparse zip = true).
  { apply (validate_settles open JSONparse validateStyleMin filepath zip Hopen).
    now exists r. }
  destruct (validate_audited open JSONparse validateStyleMin filepath zip Hopen Haud)
    as (text & Hv & Hr').
  rewrite Hr in Hr'. inversion Hr'; subst r. cbn [errors warnings]. split.
  - intros e He. apply in_app_or in He as [He|He].
    + exists 2. split; [lia|]. now apply level2Errors_origin in He.
    + apply styleErrors_origin in He as (n & Hn & He). exists n. split; [lia|assumption].
  - intros w Hw. apply in_app_or in Hw as [Hw|Hw].
    + left. now apply level2Warnings_origin in Hw.
    + unfold styleWarnings, checkWarnings in Hw.
      destruct (MapGet (entriesOf zip) STYLE_FILE) as [styleEntry|]; [|destruct Hw].
      destruct (json JSONparse styleEntry) as [style|err]; [|destruct Hw].
      apply in_app_or in Hw as [Hw|Hw].
      * right. left. now apply level5Warnings_origin in Hw.
      * right. right. now apply level8Warnings_origin in Hw.
Qed.

(** The errors of a level are errors of the result, and make it
    invalid. *)
Lemma reported (text : option string) (entries : Map Entry) (style : value)
      (ws : list string) (e : string) :
  In e (checkErrors validateStyleMin entries style) ->
  In e (errors (verdict (level2Errors text ++ checkErrors validateStyleMin entries style) ws))
  /\ valid (verdict (level2Errors text ++ checkErrors validateStyleMin entries style) ws)
     = false.
Proof.
  intros H.
  assert (In e (level2Errors text ++ checkErrors validateStyleMin entries style))
    by (apply in_or_app; now right).
  split; [assumption | now apply (verdict_In _ _ e)].
Qed.

(** An error of level [n], 4 or more, of the result is one of the list of
    that level. *)
Lemma reported_level (text : option string) (entries : Map Entry) (style : value)
      (e : string) (n : nat) :
  In e (level2Errors text ++ checkErrors validateStyleMin entries style) ->
  errorOf n e -> 3 <= n ->
  In e (checkErrors validateStyleMin entries style).
Proof.
  intros H Hn Hle. apply in_app_or in H as [H|H]; [|assumption].
  apply level2Errors_origin in H. pose proof (errorOf_unique _ _ _ Hn H). lia.
Qed.

(** C1, amended. Level 5, the SMP metadata of a parsed style. A
    [smp:bounds] that is not an array of four elements, absent or not, is
    reported as the error 'Missing or invalid smp:bounds'; an array of
    four elements one of which is not a number as the error 'smp:bounds
    values must be numbers'; a [smp:maxzoom] that is not a number, absent
    or not, as the error 'Missing or invalid smp:maxzoom'; each makes the
    result invalid and none is reported as a warning. Only a
    [smp:sourceFolders] that is truthy and not an object is reported as
    a warning, and not as an error; with four numbers as bounds and a
    number as maxzoom level 5 reports no error at all. *)
Theorem metadata_level (filepath : string) (zip : Zip) (styleEntry : Entry)
        (style : value) :
  open filepath = inl zip ->
  auditable JSONparse zip = true ->
  MapGet (entriesOf zip) STYLE_FILE = Some styleEntry ->
  json JSONparse styleEntry = inl style ->
  exists r,
    validate open JSONparse validateStyleMin filepath = Resolved r
    /\ ((forall w s e n,
            property (metadataOf style) "smp:bounds" <> VArray [w; s; e; n]) ->
        In missingBounds (errors r) /\ valid r = false)
    /\ (forall w s e n,
           property (metadataOf style) "smp:bounds" = VArray [w; s; e; n] ->
           isNumber w && isNumber s && isNumber e && isNumber n = false ->
           In badBounds (errors r) /\ valid r = false)
    /\ (isNumber (property (metadataOf style) "smp:maxzoom") = false ->
        In missingMaxzoom (errors r) /\ valid r = false)
    /\ (truthy (property (metadataOf style) "smp:sourceFolders") = true ->
        isObjectType (property (metadataOf style) "smp:sourceFolders") = false ->
        In badSourceFolders (warnings r) /\ ~ In badSourceFolders (errors r))
    /\ (~ In missingBounds (warnings r) /\ ~ In badBounds (warnings r)
        /\ ~ In missingMaxzoom (warnings r))
    /\ (forall w s e n,
           property (metadataOf style) "smp:bounds" = VArray [w; s; e; n] ->
           isNumber w && isNumber s && isNumber e && isNumber n = true ->
           isNumber (property (metadataOf style) "smp:maxzoom") = true ->
           forall e', In e' (errors r) -> ~ errorOf 5 e').
Proof.
  intros Hopen Haud Hs Hj.
  destruct (validate_parsed open JSONparse validateStyleMin filepath zip
              styleEntry style Hopen Haud Hs Hj) as (text & Hv & Hp).
  destruct (validate_origin filepath zip _ Hopen Hp) as [Horigin Hworigin].
  eexists; split; [exact Hp|].
  assert (H5 : forall e, In e (level5Errors style) ->
                         In e (checkErrors validateStyleMin (entriesOf zip) style)).
  { intros e He. unfold checkErrors. apply in_or_app; right. apply in_or_app; now left. }
  split; [|split; [|split; [|split; [|split]]]].
  - intros Hno. apply reported, H5. unfold level5Errors. apply in_or_app; left.
    unfold boundsErrors.
    destruct (property (metadataOf style) "smp:bounds") as [| |b|n|s|l|f];
      try (now left).
    destruct l as [|w [|s [|e [|n [|x l]]]]]; try (now left).
    now destruct (Hno w s e n).
  - intros w s e n Hb Hnum. apply reported, H5. unfold level5Errors.
    apply in_or_app; left. unfold boundsErrors. rewrite Hb, Hnum. now left.
  - intros Hm. apply reported, H5. unfold level5Errors. apply in_or_app; right.
    unfold maxzoomErrors. rewrite Hm. now left.
  - intros Ht Ho. split.
    + cbn [warnings]. apply in_or_app; right. apply in_or_app; left.
      unfold level5Warnings. cbv zeta. rewrite Ht, Ho. now left.
    + intros Hin. apply Horigin in Hin as (n & _ & Hn).
      now apply warning_is_no_error in Hn.
  - repeat split; intros Hin; apply Hworigin in Hin as [Hin|[Hin|[base Hin]]];
      discriminate Hin.
  - intros w s e n Hb Hnum Hm e' Hin H5'. cbn [errors] in Hin.
    apply (reported_level _ _ _ _ 5) in Hin; [|assumption|lia].
    apply (checkErrors_level _ _ _ _ 5 Hin) in H5'.
    unfold level5Errors, boundsErrors, maxzoomErrors in H5'.
    rewrite Hb, Hnum, Hm in H5'. destruct H5'.
Qed.

End StyleClaims.

Section ResourceClaims.

Variable open : string -> Zip + exn.
Variable JSONparse : string -> value + exn.
Variable validateStyleMin : value -> list string.

(** C3. Level 6, the tile files. A message 'No tile files found' is
    among the errors of a result exactly when level 6 pushes it for one
    of the templates of one of the sources: no other level pushes such a
    message. For a template that starts with [smp://maps.v1/] and holds
    [{z}], with [tilePrefix] the path before the first [{z}], level 6
    pushes the message for that source and prefix when no entry of the
    archive has a name that starts with [tilePrefix], and pushes nothing
    for it when one has; in the first case the message is among the
    errors of the result, which is invalid. *)
Theorem tile_level (filepath : string) (zip : Zip) (styleEntry : Entry)
        (style : value) :
  open filepath = inl zip ->
  auditable JSONparse zip = true ->
  MapGet (entriesOf zip) STYLE_FILE = Some styleEntry ->
  json JSONparse styleEntry = inl style ->
  exists r,
    validate open JSONparse validateStyleMin filepath = Resolved r
    /\ (forall e,
           errorOf 6 e ->
           In e (errors r)
           <-> exists source tileUrl,
               In source (sourcesOf style)
               /\ In tileUrl (tilesOf (snd source))
               /\ In e (tileErrors (entriesOf zip) (fst source) tileUrl))
    /\ (forall sourceId tilePrefix rest,
           indexOf tilePrefix "{z}" = None ->
           tileErrors (entriesOf zip) sourceId
                      (VString (URI_BASE ++ tilePrefix ++ "{z}" ++ rest))
           = if hasFileUnder zip tilePrefix then []
             else [noTileFiles sourceId tilePrefix])
    /\ (forall sourceId source tilePrefix rest,
           In (sourceId, source) (sourcesOf style) ->
           In (VString (URI_BASE ++ tilePrefix ++ "{z}" ++ rest)) (tilesOf source) ->
           indexOf tilePrefix "{z}" = None ->
           hasFileUnder zip tilePrefix = false ->
           In (noTileFiles sourceId tilePrefix) (errors r) /\ valid r = false).
Proof.
  intros Hopen Haud Hs Hj.
  destruct (validate_parsed open JSONparse validateStyleMin filepath zip
              styleEntry style Hopen Haud Hs Hj) as (text & Hv & Hp).
  eexists; split; [exact Hp|].
  assert (H6 : forall e source tileUrl,
             In source (sourcesOf style) ->
             In tileUrl (tilesOf (snd source)) ->
             In e (tileErrors (entriesOf zip) (fst source) tileUrl) ->
             In e (checkErrors validateStyleMin (entriesOf zip) style)).
  { intros e source tileUrl Hsrc Htile He. unfold checkErrors.
    apply in_or_app; right. apply in_or_app; right. apply in_or_app; left.
    unfold level6Errors. apply in_flat_map. exists source. split; [assumption|].
    unfold sourceErrors. apply in_flat_map. now exists tileUrl. }
  split; [|split].
  - intros e He. split.
    + intros Hin. cbn [errors] in Hin.
      apply (reported_level _ _ _ _ _ 6) in Hin; [|assumption|lia].
      apply (checkErrors_level _ _ _ _ 6 Hin) in He.
      unfold level6Errors in He. apply in_flat_map in He as (source & Hsrc & He).
      unfold sourceErrors in He. apply in_flat_map in He as (tileUrl & Htile & He).
      now exists source, tileUrl.
    + intros (source & tileUrl & Hsrc & Htile & Hin).
      now apply reported, (H6 e source tileUrl).
  - intros sourceId tilePrefix rest Hz. now apply tileErrors_template.
  - intros sourceId source tilePrefix rest Hsrc Htile Hz Hnone.
    apply reported, (H6 _ (sourceId, source) _ Hsrc Htile). cbn [fst].
    rewrite (tileErrors_template zip sourceId tilePrefix rest Hz), Hnone. now left.
Qed.

(** C4. Level 8, the sprite files. For the base path of every internal
    sprite, the one of a [sprite] string or the one of the [url] of an
    element of a [sprite] array: a missing [.json] entry and a missing
    [.png] entry are each reported as an error, which makes the result
    invalid; a missing [@2x.json] or [@2x.png] entry is reported as a
    warning, whose text mentions [@2x], and not as an error. With the
    [.json] and [.png] entries of every internal sprite in the archive
    level 8 reports no error, whatever [@2x] entries are missing, and
    the result is valid when no other level reports one. *)
Theorem sprite_level (filepath : string) (zip : Zip) (styleEntry : Entry)
        (style : value) :
  open filepath = inl zip ->
  auditable JSONparse zip = true ->
  MapGet (entriesOf zip) STYLE_FILE = Some styleEntry ->
  json JSONparse styleEntry = inl style ->
  exists r,
    validate open JSONparse validateStyleMin filepath = Resolved r
    /\ (forall base, property style "sprite" = VString (URI_BASE ++ base) ->
                     spriteBases style = [base])
    /\ (forall sprites item base,
           property style "sprite" = VArray sprites ->
           In item sprites ->
           property item "url" = VString (URI_BASE ++ base) ->
           In base (spriteBases style))
    /\ (forall base,
           In base (spriteBases style) ->
           (hasFile zip (base ++ ".json") = false ->
            In (missingSprite (base ++ ".json")) (errors r) /\ valid r = false)
           /\ (hasFile zip (base ++ ".png") = false ->
               In (missingSprite (base ++ ".png")) (errors r) /\ valid r = false)
           /\ (hasFile zip (base ++ "@2x.json") = false
               \/ hasFile zip (base ++ "@2x.png") = false ->
               In (missing2x base) (warnings r)
               /\ ~ In (missing2x base) (errors r)
               /\ startsWith (missing2x base) "Missing @2x sprite" = true))
    /\ ((forall base, In base (spriteBases style) ->
                      hasFile zip (base ++ ".json") = true
                      /\ hasFile zip (base ++ ".png") = true) ->
        (forall e, In e (errors r) -> ~ errorOf 8 e)
        /\ ((forall e n, In e (errors r) -> errorOf n e -> n = 8) ->
            valid r = true)).
Proof.
  intros Hopen Haud Hs Hj.
  destruct (validate_parsed open JSONparse validateStyleMin filepath zip
              styleEntry style Hopen Haud Hs Hj) as (text & Hv & Hp).
  destruct (validate_origin open JSONparse validateStyleMin filepath zip _ Hopen Hp)
    as [Horigin _].
  eexists; split; [exact Hp|].
  split; [apply spriteBases_string|]. split; [apply spriteBases_array|].
  assert (H8 : forall base e,
             In base (spriteBases style) ->
             In e (spriteErrors (entriesOf zip) base) ->
             In e (checkErrors validateStyleMin (entriesOf zip) style)).
  { intros base e Hbase He. unfold checkErrors. do 4 (apply in_or_app; right).
    unfold level8Errors. apply in_flat_map. now exists base. }
  split.
  - intros base Hbase. split; [|split].
    + intros Hno. apply reported, (H8 base); [assumption|].
      unfold spriteErrors. rewrite !MapHas_entriesOf.
      fold (hasFile zip (base ++ ".json")). rewrite Hno. now left.
    + intros Hno. apply reported, (H8 base); [assumption|].
      unfold spriteErrors. rewrite !MapHas_entriesOf.
      fold (hasFile zip (base ++ ".png")). rewrite Hno.
      apply in_or_app. right. now left.
    + intros Hno. split; [|split; [|reflexivity]].
      * cbn [warnings]. apply in_or_app; right. apply in_or_app; right.
        unfold level8Warnings. apply in_flat_map. exists base. split; [assumption|].
        unfold spriteWarnings. rewrite !MapHas_entriesOf.
        fold (hasFile zip (base ++ "@2x.json")). fold (hasFile zip (base ++ "@2x.png")).
        destruct Hno as [-> | ->]; [now left|].
        rewrite andb_false_r. now left.
      * intros Hin. apply Horigin in Hin as (n & _ & Hn).
        apply warning_is_no_error in Hn as (_ & _ & Hn). now apply (Hn base).
  - intros Hall.
    assert (Hnil : level8Errors (entriesOf zip) style = []).
    { unfold level8Errors. rewrite (flat_map_ext_in _ (fun _ => [])); [apply flat_map_nil|].
      intros base Hbase. destruct (Hall base Hbase) as [Hjson Hpng].
      unfold spriteErrors. rewrite !MapHas_entriesOf.
      fold (hasFile zip (base ++ ".json")). fold (hasFile zip (base ++ ".png")).
      now rewrite Hjson, Hpng. }
    assert (Hno8 : forall e,
               In e (level2Errors text
                     ++ checkErrors validateStyleMin (entriesOf zip) style) ->
               ~ errorOf 8 e).
    { intros e He H8'. apply (reported_level _ _ _ _ _ 8) in He; [|assumption|lia].
      apply (checkErrors_level _ _ _ _ 8 He) in H8'. rewrite Hnil in H8'. destruct H8'. }
    split; [exact Hno8|].
    intros Honly. apply verdict_valid.
    destruct (level2Errors text ++ checkErrors validateStyleMin (entriesOf zip) style)%list
      as [|e es] eqn:E; [reflexivity|].
    exfalso. destruct (Horigin e (or_introl eq_refl)) as (n & _ & Hn).
    pose proof (Honly e n (or_introl eq_refl) Hn) as ->.
    exact (Hno8 e (or_introl eq_refl) Hn).
Qed.

End ResourceClaims.

(* ================================================================== *)
(** * The properties of the specification: opening, URLs *)
(* ================================================================== *)

(** C6, amended. How a failure to open the file is classified.
    [isFileNotThereError] puts an [Error] whose code is [ENOENT] or
    [EPERM] in the class NotFound. [validate] has its own test: it
    reports 'File not found' when the code is [ENOENT], and for every
    other failure, [EPERM] included, 'Not a valid ZIP file' followed by
    the message of the error. *)
Theorem open_failure_classes (open : string -> Zip + exn)
        (JSONparse : string -> value + exn) (validateStyleMin : value -> list string)
        (filepath : string) (err : exn) :
  open filepath = inr err ->
  (instanceofError err = true ->
   code err = Some "ENOENT" \/ code err = Some "EPERM" ->
   Errors.isFileNotThereError err = true)
  /\ (code err = Some "ENOENT" ->
      validate open JSONparse validateStyleMin filepath
      = Resolved (mkResult false ["File not found: " ++ filepath] []))
  /\ (code err <> Some "ENOENT" ->
      validate open JSONparse validateStyleMin filepath
      = Resolved (mkResult false ["Not a valid ZIP file: " ++ messageOf err] []))
  /\ (code err = Some "EPERM" ->
      validate open JSONparse validateStyleMin filepath
      = Resolved (mkResult false ["Not a valid ZIP file: " ++ messageOf err] [])).
Proof.
  intros Hopen.
  assert (Hother : code err <> Some "ENOENT" ->
                   validate open JSONparse validateStyleMin filepath
                   = Resolved (mkResult false ["Not a valid ZIP file: " ++ messageOf err] [])).
  { intros Hc. unfold validate. rewrite Hopen. unfold codeIs.
    destruct (code err) as [c|]; [|reflexivity].
    destruct (String.eqb_spec c "ENOENT"); [congruence | reflexivity]. }
  split; [|split; [|split]].
  - intros Hi [Hc|Hc]; unfold Errors.isFileNotThereError, codeIs; now rewrite Hi, Hc.
  - intros Hc. unfold validate. rewrite Hopen. unfold codeIs. now rewrite Hc.
  - exact Hother.
  - intros Hc. apply Hother. rewrite Hc. discriminate.
Qed.

(** C7, amended. The policy of the Mapbox normalizers. On a [mapbox://]
    URL each of them fails with [MissingAccessToken] without a token and
    with [SecretToken] with a token that begins with [sk.], and only
    [pk.] tokens are accepted: when one of them returns a URL, the token
    begins with [pk.]. On a URL of another scheme the style, glyphs and
    source normalizers return the URL as it is, with or without a token.
    The sprite normalizer does not: at the URL of its tests it returns
    the URL with the format and the extension added. *)
Theorem mapbox_normalizers (refusal : string -> Mapbox.MapboxError)
        (format extension : string) :
  (forall rest,
      let url := "mapbox://" ++ rest in
      Mapbox.normalizeStyleURL refusal url None = inr Mapbox.MissingAccessToken
      /\ Mapbox.normalizeGlyphsURL refusal url None = inr Mapbox.MissingAccessToken
      /\ Mapbox.normalizeSourceURL refusal url None = inr Mapbox.MissingAccessToken
      /\ Mapbox.normalizeSpriteURL refusal url format extension None
         = inr Mapbox.MissingAccessToken)
  /\ (forall rest secret,
         let url := "mapbox://" ++ rest in
         let token := Some ("sk." ++ secret) in
         Mapbox.normalizeStyleURL refusal url token = inr Mapbox.SecretToken
         /\ Mapbox.normalizeGlyphsURL refusal url token = inr Mapbox.SecretToken
         /\ Mapbox.normalizeSourceURL refusal url token = inr Mapbox.SecretToken
         /\ Mapbox.normalizeSpriteURL refusal url format extension token
            = inr Mapbox.SecretToken)
  /\ (forall rest token expanded,
         let url := "mapbox://" ++ rest in
         Mapbox.normalizeStyleURL refusal url token = inl expanded
         \/ Mapbox.normalizeGlyphsURL refusal url token = inl expanded
         \/ Mapbox.normalizeSourceURL refusal url token = inl expanded
         \/ Mapbox.normalizeSpriteURL refusal url format extension token = inl expanded ->
         exists public, token = Some ("pk." ++ public))
  /\ (forall url token,
         Mapbox.isMapboxURL url = false ->
         Mapbox.normalizeStyleURL refusal url token = inl url
         /\ Mapbox.normalizeGlyphsURL refusal url token = inl url
         /\ Mapbox.normalizeSourceURL refusal url token = inl url)
  /\ (forall token,
         Mapbox.normalizeSpriteURL refusal "https://example.com/sprite" "@2x" ".png" token
         = inl "https://example.com/sprite@2x.png"
         /\ Mapbox.normalizeSpriteURL refusal "https://example.com/sprite"
                                      EmptyString ".json" token
            = inl "https://example.com/sprite.json").
Proof.
  assert (Honly : forall endpoint token expanded,
             Mapbox.makeAPIURL refusal endpoint token = inl expanded ->
             exists public, token = Some ("pk." ++ public)).
  { intros endpoint [token|] expanded H; [|discriminate H].
    unfold Mapbox.makeAPIURL in H.
    destruct (startsWith token "sk."); [discriminate H|].
    destruct (startsWith token "pk.") eqn:E; [|discriminate H].
    apply startsWith_inv in E as [public ->]. now exists public. }
  split; [|split; [|split; [|split]]].
  - intros rest url. repeat split; reflexivity.
  - intros rest secret url token. repeat split; reflexivity.
  - intros rest token expanded url H.
    unfold Mapbox.normalizeStyleURL, Mapbox.normalizeGlyphsURL,
      Mapbox.normalizeSourceURL, Mapbox.normalizeSpriteURL in H.
    subst url. cbn [Mapbox.isMapboxURL startsWith append Ascii.eqb Bool.eqb negb] in H.
    destruct H as [H|[H|[H|H]]]; exact (Honly _ _ _ H).
  - intros url token H.
    unfold Mapbox.normalizeStyleURL, Mapbox.normalizeGlyphsURL, Mapbox.normalizeSourceURL.
    rewrite H. repeat split; reflexivity.
  - intros token. split; reflexivity.
Qed.

Lemma scan_literal (variables : list (string * string)) (a s : string) :
  Templates.literal a = true ->
  Templates.scan variables (a ++ s) None = a ++ Templates.scan variables s None.
Proof.
  induction a as [|c a IH]; intros H; [reflexivity|].
  simpl in H. apply andb_true_iff in H as [Hc Ha].
  cbn [append Templates.scan]. apply negb_true_iff in Hc. rewrite Hc.
  now rewrite (IH Ha).
Qed.

(** C8. Rendering a tile URL. For a list of templates that is not empty
    [getTileUrl] takes the template at index [(x + y) mod length] and
    substitutes the variables of the coordinate in it. In a template
    made of [{z}], [{x}] and [{y}] between texts without braces, [{z}]
    and [{x}] become the numbers [z] and [x], and [{y}] the number [y],
    or [2^z - y - 1] under the [tms] scheme. The template
    [https://t/{z}/{x}/{y}.mvt] at x = 0, y = 0, z = 1 under [tms]
    renders as [https://t/1/0/1.mvt]. *)
Theorem tile_url_rendering (urls : list string) (c : Geo.TileCoord) :
  urls <> [] ->
  (exists template,
      nth_error urls
                (N.to_nat ((Geo.x c + Geo.y c) mod N.of_nat (List.length urls))%N)
      = Some template
      /\ Geo.getTileUrl urls c
         = Some (Templates.replaceVariables template (Geo.variablesOf c)))
  /\ (forall a b d e,
         Templates.literal a = true -> Templates.literal b = true ->
         Templates.literal d = true -> Templates.literal e = true ->
         Templates.replaceVariables
           (a ++ "{z}" ++ b ++ "{x}" ++ d ++ "{y}" ++ e) (Geo.variablesOf c)
         = a ++ showN (Geo.z c) ++ b ++ showN (Geo.x c) ++ d
             ++ showZ (Geo.yOf c) ++ e)
  /\ (Geo.scheme c = Some Geo.tms ->
      Geo.yOf c = (2 ^ Z.of_N (Geo.z c) - Z.of_N (Geo.y c) - 1)%Z)
  /\ (Geo.scheme c <> Some Geo.tms -> Geo.yOf c = Z.of_N (Geo.y c))
  /\ Geo.getTileUrl ["https://t/{z}/{x}/{y}.mvt"]
                    (Geo.mkTileCoord 0 0 1 (Some Geo.tms))
     = Some "https://t/1/0/1.mvt".
Proof.
  intros Hne. split; [|split; [|split; [|split]]].
  - destruct urls as [|u urls]; [congruence|].
    set (l := u :: urls) in *.
    assert (Hlt : (N.to_nat ((Geo.x c + Geo.y c) mod N.of_nat (List.length l))%N
                   < List.length l)%nat).
    { assert (N.of_nat (List.length l) <> 0%N) by (subst l; simpl; lia).
      pose proof (N.mod_lt (Geo.x c + Geo.y c) (N.of_nat (List.length l)) H). lia. }
    destruct (nth_error l _) as [template|] eqn:E.
    + exists template. split; [reflexivity|].
      unfold Geo.getTileUrl. subst l. cbv zeta. now rewrite E.
    + apply nth_error_None in E. lia.
  - intros a b d e Ha Hb Hd He. unfold Templates.replaceVariables.
    rewrite (scan_literal _ a _ Ha).
    change (Templates.scan (Geo.variablesOf c) ("{z}" ++ b ++ "{x}" ++ d ++ "{y}" ++ e) None)
      with (showN (Geo.z c)
            ++ Templates.scan (Geo.variablesOf c) (b ++ "{x}" ++ d ++ "{y}" ++ e) None).
    rewrite (scan_literal _ b _ Hb).
    change (Templates.scan (Geo.variablesOf c) ("{x}" ++ d ++ "{y}" ++ e) None)
      with (showN (Geo.x c)
            ++ Templates.scan (Geo.variablesOf c) (d ++ "{y}" ++ e) None).
    rewrite (scan_literal _ d _ Hd).
    change (Templates.scan (Geo.variablesOf c) ("{y}" ++ e) None)
      with (showZ (Geo.yOf c) ++ Templates.scan (Geo.variablesOf c) e None).
    rewrite <- (append_nil_r e) at 1. rewrite (scan_literal _ e _ He).
    cbn [Templates.scan]. now rewrite append_nil_r.
  - intros H. unfold Geo.yOf. now rewrite H.
  - intros H. unfold Geo.yOf. destruct (Geo.scheme c) as [[|]|]; congruence.
  - reflexivity.
Qed.

(** C5, at the inputs that break it. The archive [null.smp] is a
    well-formed ZIP archive with a [VERSION] entry and a [style.json]
    entry whose content is the JSON text [null]: the promise of
    [validate] rejects on it, with the [TypeError] of reading a property
    of [null], and returns no result. It rejects too on the archive
    [unreadable.smp], whose [VERSION] entry cannot be read to its end,
    with the error of the stream. *)
Theorem validate_rejects :
  Fixtures.open "null.smp"
  = inl (mkZip [Fixtures.file "VERSION" ("1.0" ++ LF);
                Fixtures.file "style.json" "null"] None)
  /\ Fixtures.JSONparse "null" = inl VNull
  /\ (exists e,
         validate Fixtures.open Fixtures.JSONparse Fixtures.validateStyleMin "null.smp"
         = Rejected e
         /\ instanceofError e = true)
  /\ (forall r,
         validate Fixtures.open Fixtures.JSONparse Fixtures.validateStyleMin "null.smp"
         <> Resolved r)
  /\ validate Fixtures.open Fixtures.JSONparse Fixtures.validateStyleMin "unreadable.smp"
     = Rejected Fixtures.unreadable.
Proof.
  split; [reflexivity|]. split; [reflexivity|]. split; [|split].
  - eexists. split; reflexivity.
  - intros r. discriminate.
  - reflexivity.
Qed.

(* ================================================================== *)
(** * The properties at the archives of the test suite *)
(* ================================================================== *)

(** C1 as first stated fails: four strings as [smp:bounds] are a present
    and malformed field, and [validate] reports them as an error, with no
    warning at all. *)
Lemma malformed_bounds_reported_as_error :
  property (metadataOf Fixtures.badBoundsStyle) "smp:bounds"
  = VArray [VString "w"; VString "s"; VString "e"; VString "n"]
  /\ Fixtures.run "badbounds.smp"
     = Resolved (mkResult false ["smp:bounds values must be numbers"] []).
Proof. split; reflexivity. Qed.

(** [metadata_level] at the archive whose [smp:sourceFolders] is a
    string: a warning, and a valid result. *)
Lemma metadata_level_witness :
  Fixtures.open "badfolders.smp" = inl (Fixtures.zipAt "badfolders.smp")
  /\ auditable Fixtures.JSONparse (Fixtures.zipAt "badfolders.smp") = true
  /\ MapGet (entriesOf (Fixtures.zipAt "badfolders.smp")) STYLE_FILE
     = Some (Fixtures.styleFile Fixtures.badFoldersStyle)
  /\ json Fixtures.JSONparse (Fixtures.styleFile Fixtures.badFoldersStyle)
     = inl Fixtures.badFoldersStyle
  /\ exists r,
      Fixtures.run "badfolders.smp" = Resolved r
      /\ In badSourceFolders (warnings r)
      /\ ~ In badSourceFolders (errors r)
      /\ ~ In missingBounds (warnings r).
Proof.
  do 4 (split; [reflexivity|]).
  destruct (metadata_level Fixtures.open Fixtures.JSONparse Fixtures.validateStyleMin
              "badfolders.smp" (Fixtures.zipAt "badfolders.smp")
              (Fixtures.styleFile Fixtures.badFoldersStyle) Fixtures.badFoldersStyle
              eq_refl eq_refl eq_refl eq_refl)
    as (r & Hr & _ & _ & _ & Hfolders & (Hw & _) & _).
  exists r. split; [exact Hr|].
  destruct (Hfolders eq_refl eq_refl) as [H1 H2].
  repeat split; assumption.
Defined.

(** [version_level] at three archives of the tests: a [VERSION] of 2.0 is
    an error; a [VERSION] of 1.1 leaves the package valid; so does no
    [VERSION] at all, with a warning. *)
Lemma version_level_witness :
  Fixtures.open "major.smp" = inl (Fixtures.zipAt "major.smp")
  /\ auditable Fixtures.JSONparse (Fixtures.zipAt "major.smp") = true
  /\ (exists r,
         Fixtures.run "major.smp" = Resolved r
         /\ (exists e, In e (errors r)
                       /\ startsWith e "Unsupported major version: " = true)
         /\ valid r = false)
  /\ (exists r,
         Fixtures.run "minor.smp" = Resolved r /\ valid r = true)
  /\ (exists r,
         Fixtures.run "noversion.smp" = Resolved r
         /\ In missingVersion (warnings r)
         /\ valid r = true).
Proof.
  do 2 (split; [reflexivity|]). split; [|split].
  - destruct (version_level Fixtures.open Fixtures.JSONparse Fixtures.validateStyleMin
                "major.smp" (Fixtures.zipAt "major.smp") eq_refl eq_refl)
      as (r & Hr & _ & _ & Hentry).
    exists r. split; [exact Hr|].
    destruct (Hentry (Fixtures.file "VERSION" ("2.0" ++ LF)) ("2.0" ++ LF)
                     eq_refl eq_refl)
      as (_ & Hmajor & _).
    apply (Hmajor "2").
    + exists "0". repeat split; try reflexivity; discriminate.
    + discriminate.
  - destruct (version_level Fixtures.open Fixtures.JSONparse Fixtures.validateStyleMin
                "minor.smp" (Fixtures.zipAt "minor.smp") eq_refl eq_refl)
      as (r & Hr & _ & _ & Hentry).
    exists r. split; [exact Hr|].
    destruct (Hentry (Fixtures.file "VERSION" ("1.1" ++ LF)) ("1.1" ++ LF)
                     eq_refl eq_refl)
      as (_ & _ & _ & Hminor).
    destruct (Hminor eq_refl) as (_ & _ & Hvalid). now apply Hvalid.
  - destruct (version_level Fixtures.open Fixtures.JSONparse Fixtures.validateStyleMin
                "noversion.smp" (Fixtures.zipAt "noversion.smp") eq_refl eq_refl)
      as (r & Hr & Hvalid & Habsent & _).
    exists r. split; [exact Hr|].
    destruct (Habsent eq_refl) as [Hwarning Herrors].
    split; [exact Hwarning|]. apply Hvalid. now rewrite Herrors.
Defined.

(** [tile_level] at the archive of the test 'SMP with missing tile files
    for a source returns error'. *)
Lemma tile_level_witness :
  Fixtures.open "notiles.smp" = inl (Fixtures.zipAt "notiles.smp")
  /\ auditable Fixtures.JSONparse (Fixtures.zipAt "notiles.smp") = true
  /\ MapGet (entriesOf (Fixtures.zipAt "notiles.smp")) STYLE_FILE
     = Some (Fixtures.styleFile Fixtures.tileStyle)
  /\ json Fixtures.JSONparse (Fixtures.styleFile Fixtures.tileStyle)
     = inl Fixtures.tileStyle
  /\ exists r,
      Fixtures.run "notiles.smp" = Resolved r
      /\ In (noTileFiles "test" "s/0/") (errors r)
      /\ valid r = false.
Proof.
  do 4 (split; [reflexivity|]).
  destruct (tile_level Fixtures.open Fixtures.JSONparse Fixtures.validateStyleMin
              "notiles.smp" (Fixtures.zipAt "notiles.smp")
              (Fixtures.styleFile Fixtures.tileStyle) Fixtures.tileStyle
              eq_refl eq_refl eq_refl eq_refl)
    as (r & Hr & _ & _ & Hmissing).
  exists r. split; [exact Hr|].
  apply (Hmissing "test"
                  (VObject [("type", VString "vector");
                            ("tiles", VArray [VString "smp://maps.v1/s/0/{z}/{x}/{y}.mvt.gz"]);
                            ("bounds", Fixtures.bounds);
                            ("minzoom", Fixtures.num 0);
                            ("maxzoom", Fixtures.num 5)])
                  "s/0/" "/{x}/{y}.mvt.gz").
  - left. reflexivity.
  - left. reflexivity.
  - reflexivity.
  - reflexivity.
Defined.

(** [sprite_level] at the archive of the test 'SMP with 1x sprites but
    no 2x returns warning': valid, with the warning. *)
Lemma sprite_level_witness :
  Fixtures.open "sprite1x.smp" = inl (Fixtures.zipAt "sprite1x.smp")
  /\ auditable Fixtures.JSONparse (Fixtures.zipAt "sprite1x.smp") = true
  /\ MapGet (entriesOf (Fixtures.zipAt "sprite1x.smp")) STYLE_FILE
     = Some (Fixtures.styleFile Fixtures.spriteStyle)
  /\ json Fixtures.JSONparse (Fixtures.styleFile Fixtures.spriteStyle)
     = inl Fixtures.spriteStyle
  /\ exists r,
      Fixtures.run "sprite1x.smp" = Resolved r
      /\ In (missing2x "sprites/default/sprite") (warnings r)
      /\ (forall e, In e (errors r) -> ~ errorOf 8 e).
Proof.
  do 4 (split; [reflexivity|]).
  destruct (sprite_level Fixtures.open Fixtures.JSONparse Fixtures.validateStyleMin
              "sprite1x.smp" (Fixtures.zipAt "sprite1x.smp")
              (Fixtures.styleFile Fixtures.spriteStyle) Fixtures.spriteStyle
              eq_refl eq_refl eq_refl eq_refl)
    as (r & Hr & _ & _ & Hbase & Hpair).
  exists r. split; [exact Hr|]. split.
  - destruct (Hbase "sprites/default/sprite") as (_ & _ & H2x); [now left|].
    now apply H2x; left.
  - apply Hpair. intros base [<-|[]]. split; reflexivity.
Defined.

(** C6 as first stated fails: a failure to open with the code [EPERM] is
    in the class of [isFileNotThereError], and [validate] reports it as
    'Not a valid ZIP file', not as 'File not found'. *)
Lemma eperm_is_not_file_not_found :
  Fixtures.open "locked.smp" = inr (Fixtures.EPERM "locked.smp")
  /\ Errors.isFileNotThereError (Fixtures.EPERM "locked.smp") = true
  /\ Fixtures.run "locked.smp"
     = Resolved
         (mkResult false
            ["Not a valid ZIP file: EPERM: operation not permitted, open 'locked.smp'"]
            []).
Proof. repeat split; reflexivity. Qed.

(** [open_failure_classes] at a path that does not exist. *)
Lemma open_failure_classes_witness :
  Fixtures.open "/nonexistent/path/file.smp"
  = inr (Fixtures.ENOENT "/nonexistent/path/file.smp")
  /\ Fixtures.run "/nonexistent/path/file.smp"
     = Resolved (mkResult false ["File not found: /nonexistent/path/file.smp"] []).
Proof.
  split; [reflexivity|].
  destruct (open_failure_classes Fixtures.open Fixtures.JSONparse
              Fixtures.validateStyleMin "/nonexistent/path/file.smp"
              (Fixtures.ENOENT "/nonexistent/path/file.smp") eq_refl)
    as (_ & Hfound & _).
  exact (Hfound eq_refl).
Defined.

(** C7 as first stated fails: the sprite normalizer does not return a URL
    of another scheme as it is. The tokens have no part in it; the
    normalizer is taken at the refusal of other tokens as secret ones. *)
Lemma sprite_url_is_changed :
  Mapbox.isMapboxURL "https://example.com/sprite" = false
  /\ Mapbox.normalizeSpriteURL (fun _ => Mapbox.SecretToken)
                               "https://example.com/sprite" "@2x" ".png" None
     = inl "https://example.com/sprite@2x.png"
  /\ Mapbox.normalizeSpriteURL (fun _ => Mapbox.SecretToken)
                               "https://example.com/sprite" "@2x" ".png" None
     <> inl "https://example.com/sprite".
Proof. repeat split; try reflexivity. discriminate. Qed.

(** [mapbox_normalizers] at the URLs and the tokens of the tests. *)
Lemma mapbox_normalizers_witness :
  Mapbox.isMapboxURL "https://example.com/style.json" = false
  /\ Mapbox.normalizeStyleURL (fun _ => Mapbox.SecretToken)
                              "https://example.com/style.json" (Some "pk.test")
     = inl "https://example.com/style.json"
  /\ Mapbox.normalizeStyleURL (fun _ => Mapbox.SecretToken)
                              "mapbox://styles/user/style" None
     = inr Mapbox.MissingAccessToken
  /\ Mapbox.normalizeStyleURL (fun _ => Mapbox.SecretToken)
                              "mapbox://styles/user/style" (Some "sk.secret")
     = inr Mapbox.SecretToken
  /\ Mapbox.normalizeStyleURL (fun _ => Mapbox.SecretToken)
                              "mapbox://styles/user/style-id" (Some "pk.testtoken")
     = inl "https://api.mapbox.com/styles/v1/user/style-id?access_token=pk.testtoken"
  /\ (exists public, Some "pk.testtoken" = Some ("pk." ++ public))
  /\ Mapbox.normalizeSpriteURL (fun _ => Mapbox.SecretToken)
                               "https://example.com/sprite" EmptyString ".json" None
     = inl "https://example.com/sprite.json".
Proof.
  destruct (mapbox_normalizers (fun _ => Mapbox.SecretToken) EmptyString ".png")
    as (Hmissing & Hsecret & Honly & Hother & Hsprite).
  split; [reflexivity|]. split; [|split; [|split; [|split; [|split]]]].
  - exact (proj1 (Hother "https://example.com/style.json" (Some "pk.test") eq_refl)).
  - exact (proj1 (Hmissing "styles/user/style")).
  - exact (proj1 (Hsecret "styles/user/style" "secret")).
  - reflexivity.
  - exact (Honly "styles/user/style-id" (Some "pk.testtoken")
                 "https://api.mapbox.com/styles/v1/user/style-id?access_token=pk.testtoken"
                 (or_introl eq_refl)).
  - exact (proj2 (Hsprite None)).
Defined.

(** [tile_url_rendering] at the list of the test 'cycles through multiple
    URLs'. *)
Lemma tile_url_rendering_witness :
  ["https://a/{z}/{x}/{y}"; "https://b/{z}/{x}/{y}"] <> []
  /\ Geo.getTileUrl ["https://a/{z}/{x}/{y}"; "https://b/{z}/{x}/{y}"]
                    (Geo.mkTileCoord 1 0 0 None)
     = Some "https://b/0/1/0".
Proof.
  assert (H : ["https://a/{z}/{x}/{y}"; "https://b/{z}/{x}/{y}"] <> [])
    by discriminate.
  split; [exact H|].
  destruct (tile_url_rendering ["https://a/{z}/{x}/{y}"; "https://b/{z}/{x}/{y}"]
              (Geo.mkTileCoord 1 0 0 None) H)
    as ((template & Hnth & Hurl) & _).
  rewrite Hurl. vm_compute in Hnth. inversion Hnth; subst template. reflexivity.
Defined.

(** [unparsable_style_stops] at the archive of the test 'ZIP with invalid
    JSON style.json returns error'. *)
Lemma unparsable_style_stops_witness :
  Fixtures.open "notjson.smp" = inl (Fixtures.zipAt "notjson.smp")
  /\ zipFailure (Fixtures.zipAt "notjson.smp") = None
  /\ versionText (entriesOf (Fixtures.zipAt "notjson.smp")) = inl (Some ("1.0" ++ LF))
  /\ MapGet (entriesOf (Fixtures.zipAt "notjson.smp")) STYLE_FILE
     = Some (Fixtures.file "style.json" "not json{{{")
  /\ openReadStream (Fixtures.file "style.json" "not json{{{") = inl "not json{{{"
  /\ Fixtures.JSONparse "not json{{{" = inr (Fixtures.SyntaxError "not json{{{")
  /\ exists r,
      Fixtures.run "notjson.smp" = Resolved r
      /\ valid r = false
      /\ errors r = [notJSON (Fixtures.SyntaxError "not json{{{")]
      /\ warnings r = [].
Proof.
  do 6 (split; [reflexivity|]).
  destruct (unparsable_style_stops Fixtures.open Fixtures.JSONparse
              Fixtures.validateStyleMin "notjson.smp" (Fixtures.zipAt "notjson.smp")
              (Some ("1.0" ++ LF)) (Fixtures.file "style.json" "not json{{{")
              "not json{{{" (Fixtures.SyntaxError "not json{{{")
              eq_refl eq_refl eq_refl eq_refl eq_refl eq_refl)
    as (r & Hr & Hvalid & Herrors & Hwarnings & _).
  exists r. repeat split; assumption.
Defined.


(* ================================================================== *)
(** * Further properties of [validate] *)
(* ================================================================== *)

Lemma MapGet_hasFile (zip : Zip) (name : string) :
  MapGet (entriesOf zip) name = None <-> hasFile zip name = false.
Proof.
  unfold hasFile. rewrite <- MapHas_entriesOf. unfold MapHas.
  destruct (MapGet (entriesOf zip) name); split; congruence.
Qed.

Lemma MapGet_hasFile_true (zip : Zip) (name : string) :
  (exists entry, MapGet (entriesOf zip) name = Some entry) <-> hasFile zip name = true.
Proof.
  unfold hasFile. rewrite <- MapHas_entriesOf. unfold MapHas.
  destruct (MapGet (entriesOf zip) name) as [entry|]; split.
  - reflexivity.
  - intros _. now exists entry.
  - intros [entry H]. discriminate.
  - discriminate.
Qed.

Lemma safeStyle_intro (style : value) :
  isNullish style = false ->
  (forall source, In source (sourcesOf style) -> isNullish (snd source) = false) ->
  (forall sprites, property style "sprite" = VArray sprites ->
                   forall item, In item sprites -> isNullish item = false) ->
  safeStyle style = true.
Proof.
  intros H1 H2 H3. unfold safeStyle. rewrite H1. cbn [negb andb].
  apply andb_true_iff. split.
  - apply forallb_forall. intros source Hin. now rewrite (H2 source Hin).
  - destruct (property style "sprite") as [| | | | |sprites|] eqn:E; try reflexivity.
    apply forallb_forall. intros item Hin. now rewrite (H3 sprites eq_refl item Hin).
Qed.

Lemma ascending_const (k : nat) (l : list nat) :
  (forall a, In a l -> a = k) -> ascending l.
Proof.
  induction l as [|a l IH]; intros H; [exact I|].
  split.
  - destruct l as [|b l]; [exact I|].
    rewrite (H a), (H b); [lia| right; now left | now left].
  - apply IH. intros b Hb. apply H. now right.
Qed.

Lemma ascending_app (k : nat) (l1 l2 : list nat) :
  (forall a, In a l1 -> a <= k) -> (forall b, In b l2 -> k <= b) ->
  ascending l1 -> ascending l2 -> ascending (l1 ++ l2).
Proof.
  intros H1 H2 A1 A2. induction l1 as [|a l1 IH]; [exact A2|].
  destruct A1 as [Ha A1]. split.
  - destruct l1 as [|b l1]; [|exact Ha].
    destruct l2 as [|b l2]; [exact I|]. simpl.
    specialize (H1 a (or_introl eq_refl)). specialize (H2 b (or_introl eq_refl)). lia.
  - apply IH; [|exact A1]. intros b Hb. apply H1. now right.
Qed.

Lemma levels_of (n : nat) (l : list string) :
  (forall e, In e l -> errorOf n e) ->
  forall a, In a (map levelOf l) -> a = n.
Proof.
  intros H a Ha. apply in_map_iff in Ha as [e [<- He]].
  now apply errorOf_levelOf, H.
Qed.

Lemma ascending_levels (n : nat) (l1 l2 : list string) :
  (forall e, In e l1 -> errorOf n e) ->
  (forall b, In b (map levelOf l2) -> n <= b) ->
  ascending (map levelOf l2) ->
  ascending (map levelOf (l1 ++ l2)).
Proof.
  intros H1 H2 A2. rewrite map_app. apply (ascending_app n).
  - intros a Ha. rewrite (levels_of n l1 H1 a Ha). lia.
  - exact H2.
  - apply (ascending_const n). now apply levels_of.
  - exact A2.
Qed.

Lemma least_level (n m : nat) (l1 l2 : list string) :
  n <= m ->
  (forall e, In e l1 -> errorOf m e) ->
  (forall b, In b (map levelOf l2) -> m <= b) ->
  forall b, In b (map levelOf (l1 ++ l2)) -> n <= b.
Proof.
  intros Hnm H1 H2 b Hb. rewrite map_app in Hb. apply in_app_or in Hb as [Hb|Hb].
  - rewrite (levels_of m l1 H1 b Hb). exact Hnm.
  - specialize (H2 b Hb). lia.
Qed.

Lemma checkErrors_ascending (validateStyleMin : value -> list string)
      (entries : Map Entry) (style : value) :
  ascending (map levelOf (checkErrors validateStyleMin entries style))
  /\ forall b, In b (map levelOf (checkErrors validateStyleMin entries style)) -> 4 <= b.
Proof.
  unfold checkErrors.
  assert (H4 : forall e, In e (map (fun e => "style.json: " ++ e) (validateStyleMin style))
                         -> errorOf 4 e).
  { intros e He. apply in_map_iff in He as [m [<- _]]. constructor. }
  pose proof (level5Errors_origin style) as H5.
  pose proof (level6Errors_origin entries style) as H6.
  pose proof (level7Errors_origin entries style) as H7.
  pose proof (level8Errors_origin entries style) as H8.
  assert (B8 : forall b, In b (map levelOf (level8Errors entries style)) -> 7 <= b).
  { intros b Hb. rewrite (levels_of 8 _ H8 b Hb). lia. }
  assert (A8 : ascending (map levelOf (level8Errors entries style))).
  { apply (ascending_const 8). now apply levels_of. }
  pose proof (ascending_levels 7 _ _ H7 B8 A8) as A7.
  pose proof (least_level 6 7 _ _ ltac:(lia) H7 B8) as B7.
  pose proof (ascending_levels 6 _ _ H6 B7 A7) as A6.
  pose proof (least_level 5 6 _ _ ltac:(lia) H6 B7) as B6.
  pose proof (ascending_levels 5 _ _ H5 B6 A6) as A5.
  pose proof (least_level 4 5 _ _ ltac:(lia) H5 B6) as B5.
  split.
  - exact (ascending_levels 4 _ _ H4 B5 A5).
  - exact (least_level 4 4 _ _ (le_n 4) H4 B5).
Qed.

Lemma styleErrors_ascending (JSONparse : string -> value + exn)
      (validateStyleMin : value -> list string) (entries : Map Entry) :
  ascending (map levelOf (styleErrors JSONparse validateStyleMin entries))
  /\ forall b, In b (map levelOf (styleErrors JSONparse validateStyleMin entries)) -> 2 <= b.
Proof.
  unfold styleErrors. destruct (MapGet entries STYLE_FILE) as [styleEntry|].
  - destruct (json JSONparse styleEntry) as [style|err].
    + destruct (checkErrors_ascending validateStyleMin entries style) as [A B].
      split; [exact A|]. intros b Hb. specialize (B b Hb). lia.
    + split; [split; exact I|]. intros b [<-|[]].
      rewrite (errorOf_levelOf 4 _ (error_json err)). lia.
  - split; [split; exact I|]. intros b [<-|[]]. cbn. lia.
Qed.

Section Reach.

Variable open : string -> Zip + exn.
Variable JSONparse : string -> value + exn.
Variable validateStyleMin : value -> list string.

Lemma resolved_verdict (filepath : string) (zip : Zip) (r : ValidationResult) :
  open filepath = inl zip ->
  validate open JSONparse validateStyleMin filepath = Resolved r ->
  exists text,
    zipFailure zip = None
    /\ auditable JSONparse zip = true
    /\ versionText (entriesOf zip) = inl text
    /\ r = verdict
             (level2Errors text ++ styleErrors JSONparse validateStyleMin (entriesOf zip))
             (level2Warnings text ++ styleWarnings JSONparse (entriesOf zip)).
Proof.
  intros Hopen Hr.
  assert (Ha : auditable JSONparse zip = true).
  { apply (validate_settles open JSONparse validateStyleMin filepath zip Hopen).
    now exists r. }
  destruct (validate_audited open JSONparse validateStyleMin filepath zip Hopen Ha)
    as [text [Ht Hv]].
  exists text. repeat split; try assumption.
  - unfold auditable in Ha. now destruct (zipFailure zip).
  - rewrite Hv in Hr. now injection Hr as <-.
Qed.

Lemma validate_valid (filepath : string) (r : ValidationResult) :
  validate open JSONparse validateStyleMin filepath = Resolved r ->
  (valid r = true <-> errors r = []).
Proof.
  intros Hr. destruct (open filepath) as [zip|err] eqn:Hopen.
  - destruct (resolved_verdict filepath zip r Hopen Hr) as [text [_ [_ [_ ->]]]].
    apply verdict_valid.
  - unfold validate in Hr. rewrite Hopen in Hr. cbv zeta in Hr.
    destruct (codeIs err "ENOENT"); injection Hr as <-; cbn; split; discriminate.
Qed.

(** X1. Whatever [validate] resolves to, by the three early returns that
    write [valid: false] or at the end, [valid] says that [errors] is
    empty: a result is never valid with an error in it and never invalid
    without one. Warnings have no part in it. *)
Theorem valid_iff_no_errors (filepath : string) (r : ValidationResult) :
  validate open JSONparse validateStyleMin filepath = Resolved r ->
  (valid r = true <-> errors r = [])
  /\ (valid r = false <-> exists e, In e (errors r)).
Proof.
  intros Hr. pose proof (validate_valid filepath r Hr) as H. split; [exact H|].
  destruct (valid r), (errors r) as [|e es]; split; intros H'; try congruence.
  - destruct H' as [e []].
  - destruct H as [H _]. specialize (H eq_refl). discriminate.
  - destruct H as [_ H]. specialize (H eq_refl). discriminate.
  - now exists e; left.
Qed.

(** X3. Level 3 ends the audit: without a [style.json] entry the result
    is invalid, its errors are those of level 2 followed by the one
    message [Missing style.json], its warnings are those of level 2, and
    no later level has reported anything. *)
Theorem missing_style_stops (filepath : string) (zip : Zip) (text : option string) :
  open filepath = inl zip ->
  zipFailure zip = None ->
  versionText (entriesOf zip) = inl text ->
  hasFile zip STYLE_FILE = false ->
  exists r,
    validate open JSONparse validateStyleMin filepath = Resolved r
    /\ valid r = false
    /\ errors r = (level2Errors text ++ ["Missing style.json"])%list
    /\ warnings r = level2Warnings text
    /\ (forall e n, In e (errors r) -> errorOf n e -> n <= 3).
Proof.
  intros Hopen Hz Ht Hs. apply MapGet_hasFile in Hs.
  assert (Ha : auditable JSONparse zip = true).
  { unfold auditable. now rewrite Hz, Ht, Hs. }
  destruct (validate_audited open JSONparse validateStyleMin filepath zip Hopen Ha)
    as [text' [Ht' Hv]].
  rewrite Ht in Ht'. injection Ht' as <-.
  unfold styleErrors, styleWarnings in Hv. rewrite Hs in Hv.
  rewrite app_nil_r in Hv. rewrite verdict_invalid in Hv.
  eexists. split; [exact Hv|]. cbn [valid errors warnings].
  repeat split.
  intros e n Hin He. apply in_app_or in Hin as [Hin|[<-|[]]].
  - apply level2Errors_origin in Hin.
    rewrite (errorOf_unique _ _ _ He Hin). lia.
  - rewrite (errorOf_unique _ _ _ He error_style_missing). lia.
Qed.

(** X4. The errors of a result stand in the order of the levels: the
    level of a message, read off its first words, never goes down along
    [errors]. *)
Theorem errors_in_level_order (filepath : string) (r : ValidationResult) :
  validate open JSONparse validateStyleMin filepath = Resolved r ->
  ascending (map levelOf (errors r)).
Proof.
  intros Hr. destruct (open filepath) as [zip|err] eqn:Hopen.
  - destruct (resolved_verdict filepath zip r Hopen Hr) as [text [_ [_ [_ ->]]]].
    cbn [errors verdict].
    destruct (styleErrors_ascending JSONparse validateStyleMin (entriesOf zip)) as [A B].
    apply (ascending_levels 2); try assumption.
    apply level2Errors_origin.
  - unfold validate in Hr. rewrite Hopen in Hr. cbv zeta in Hr.
    destruct (codeIs err "ENOENT"); injection Hr as <-; cbn [errors result app map];
      split; exact I.
Qed.

End Reach.

(* ================================================================== *)
(** * The entry map, the version, the style and its metadata *)
(* ================================================================== *)

Lemma MapGet_fold_other (l : list Entry) (m : Map Entry) (k : string) :
  (forall entry, In entry l -> filename entry <> k) ->
  MapGet (fold_left (fun entries entry => MapSet entries (filename entry) entry) l m) k
  = MapGet m k.
Proof.
  revert m. induction l as [|a l IH]; intros m H; [reflexivity|].
  cbn [fold_left]. rewrite IH.
  - rewrite MapGet_MapSet.
    destruct (String.eqb_spec (filename a) k) as [E|E]; [|reflexivity].
    now destruct (H a (or_introl eq_refl)).
  - intros entry Hin. apply H. now right.
Qed.

Lemma parseDigits_zeros (zeros s : string) :
  allZeros zeros = true -> parseDigits 0 (zeros ++ s) = parseDigits 0 s.
Proof.
  induction zeros as [|a zeros IH]; [reflexivity|]. simpl. intros H.
  apply andb_true_iff in H as [Ha Hz]. apply Ascii.eqb_eq in Ha. subst a.
  now apply IH.
Qed.

Lemma allZeros_allDigits (zeros : string) : allZeros zeros = true -> allDigits zeros = true.
Proof.
  induction zeros as [|a zeros IH]; [reflexivity|]. simpl. intros H.
  apply andb_true_iff in H as [Ha Hz]. apply Ascii.eqb_eq in Ha. subst a.
  now rewrite (IH Hz).
Qed.

Lemma allDigits_append (a b : string) :
  allDigits (a ++ b) = allDigits a && allDigits b.
Proof.
  induction a as [|x a IH]; [reflexivity|]. simpl. now rewrite IH, andb_assoc.
Qed.

Lemma level_of_unsupported (e : string) :
  startsWith e "Unsupported major version: " = true -> levelOf e = 2.
Proof.
  intros H. unfold levelOf. rewrite H.
  now destruct (startsWith e "Invalid version format: ").
Qed.

Lemma checkErrors_level_iff (validateStyleMin : value -> list string)
      (entries : Map Entry) (style : value) (e : string) (n : nat) :
  errorOf n e ->
  (In e (checkErrors validateStyleMin entries style)
   <-> match n with
       | 4 => exists m, e = "style.json: " ++ m /\ In m (validateStyleMin style)
       | 5 => In e (level5Errors style)
       | 6 => In e (level6Errors entries style)
       | 7 => In e (level7Errors entries style)
       | 8 => In e (level8Errors entries style)
       | _ => False
       end).
Proof.
  intros He. split.
  - intros Hin. exact (checkErrors_level validateStyleMin entries style e n Hin He).
  - unfold checkErrors.
    destruct n as [|[|[|[|[|[|[|[|[|n]]]]]]]]]; try (intros []; fail).
    + intros [m [-> Hm]]. apply in_or_app; left. apply in_map_iff. now exists m.
    + intros H. apply in_or_app; right. apply in_or_app; now left.
    + intros H. do 2 (apply in_or_app; right). apply in_or_app; now left.
    + intros H. do 3 (apply in_or_app; right). apply in_or_app; now left.
    + intros H. do 4 (apply in_or_app; right). exact H.
Qed.

Lemma bounds_exactly (bounds : value) :
  (In missingBounds (boundsErrors bounds)
   <-> forall w s e n, bounds <> VArray [w; s; e; n])
  /\ (In badBounds (boundsErrors bounds)
      <-> exists w s e n,
          bounds = VArray [w; s; e; n]
          /\ isNumber w && isNumber s && isNumber e && isNumber n = false).
Proof.
  unfold boundsErrors.
  destruct bounds as [| |b|q|t|l|f];
    try (split; split;
         [ intros _ w s e n; discriminate
         | intros _; now left
         | intros [H|[]]; discriminate H
         | intros (w & s & e & n & H & _); discriminate H ]).
  destruct l as [|w [|s [|e [|n [|x l]]]]];
    try (split; split;
         [ intros _ w' s' e' n'; discriminate
         | intros _; now left
         | intros [H|[]]; discriminate H
         | intros (w' & s' & e' & n' & H & _); discriminate H ]).
  destruct (isNumber w && isNumber s && isNumber e && isNumber n) eqn:E; split; split.
  - intros [].
  - intros H. now destruct (H w s e n).
  - intros [].
  - intros (w' & s' & e' & n' & H & H'). injection H as <- <- <- <-. congruence.
  - intros [H|[]]. discriminate H.
  - intros H. now destruct (H w s e n).
  - intros _. now exists w, s, e, n.
  - intros _. now left.
Qed.

Section Levels.

Variable open : string -> Zip + exn.
Variable JSONparse : string -> value + exn.
Variable validateStyleMin : value -> list string.

Lemma parsed_verdict (filepath : string) (zip : Zip) (r : ValidationResult)
      (styleEntry : Entry) (style : value) :
  open filepath = inl zip ->
  validate open JSONparse validateStyleMin filepath = Resolved r ->
  MapGet (entriesOf zip) STYLE_FILE = Some styleEntry ->
  json JSONparse styleEntry = inl style ->
  exists text,
    versionText (entriesOf zip) = inl text
    /\ safeStyle style = true
    /\ r = verdict
             (level2Errors text ++ checkErrors validateStyleMin (entriesOf zip) style)
             (level2Warnings text ++ checkWarnings (entriesOf zip) style).
Proof.
  intros Hopen Hr Hs Hj.
  destruct (resolved_verdict open JSONparse validateStyleMin filepath zip r Hopen Hr)
    as (text & Hz & Ha & Ht & ->).
  exists text. split; [exact Ht|]. split.
  - unfold auditable in Ha. now rewrite Hz, Ht, Hs, Hj in Ha.
  - unfold styleErrors, styleWarnings. now rewrite Hs, Hj.
Qed.

Lemma errors_of_level (text : option string) (entries : Map Entry) (style : value)
      (ws : list string) (e : string) (n : nat) :
  errorOf n e -> 3 <= n ->
  (In e (errors (verdict (level2Errors text ++ checkErrors validateStyleMin entries style) ws))
   <-> In e (checkErrors validateStyleMin entries style)).
Proof.
  intros He Hn. cbn [errors verdict]. split.
  - intros Hin. apply in_app_or in Hin as [Hin|Hin]; [|exact Hin].
    apply level2Errors_origin in Hin.
    pose proof (errorOf_unique _ _ _ He Hin). lia.
  - intros Hin. apply in_or_app. now right.
Qed.

(** X5. The entry map holds, for a name, the last entry of the archive
    with that name: [entries.set] overwrites. It holds nothing for a
    name exactly when no entry has it. *)
Theorem entries_last_wins (zip : Zip) (before after : list Entry) (entry : Entry) :
  zipEntries zip = (before ++ entry :: after)%list ->
  (forall later, In later after -> filename later <> filename entry) ->
  MapGet (entriesOf zip) (filename entry) = Some entry
  /\ (forall name,
         MapGet (entriesOf zip) name = None
         <-> forall other, In other (zipEntries zip) -> filename other <> name).
Proof.
  intros Hz Hafter. split.
  - unfold entriesOf. rewrite Hz, fold_left_app. cbn [fold_left].
    rewrite (MapGet_fold_other after _ _ Hafter), MapGet_MapSet.
    now rewrite String.eqb_refl.
  - intros name. rewrite MapGet_hasFile. unfold hasFile. split.
    + intros H other Hin E.
      assert (Ht : existsb (fun entry0 => filename entry0 =? name) (zipEntries zip) = true).
      { apply existsb_exists. exists other. split; [exact Hin|]. now apply String.eqb_eq. }
      congruence.
    + intros H.
      destruct (existsb (fun entry0 => filename entry0 =? name) (zipEntries zip)) eqn:E;
        [|reflexivity].
      apply existsb_exists in E as [other [Hin E]]. apply String.eqb_eq in E.
      now destruct (H other Hin).
Qed.

(** X6. What level 2 reports, read backwards. The warning about a
    missing [VERSION] is there exactly when the archive has no such
    entry, and then no version error is. With the entry, the format
    error for the trimmed text is there exactly when the text is not
    [MAJOR.MINOR], and an unsupported-version error exactly when it is
    and the major number is not 1. *)
Theorem version_reports_exactly (filepath : string) (zip : Zip) (r : ValidationResult) :
  open filepath = inl zip ->
  validate open JSONparse validateStyleMin filepath = Resolved r ->
  (In missingVersion (warnings r) <-> hasFile zip VERSION_FILE = false)
  /\ (hasFile zip VERSION_FILE = false -> forall e, In e (errors r) -> ~ errorOf 2 e)
  /\ (forall versionEntry content,
         MapGet (entriesOf zip) VERSION_FILE = Some versionEntry ->
         openReadStream versionEntry = inl content ->
         (In (invalidVersion (trim content)) (errors r)
          <-> forall major, ~ MajorMinor (trim content) major)
         /\ ((exists e, In e (errors r)
                        /\ startsWith e "Unsupported major version: " = true)
             <-> exists major, MajorMinor (trim content) major
                               /\ parseInt10 major <> 1%N)).
Proof.
  intros Hopen Hr.
  destruct (resolved_verdict open JSONparse validateStyleMin filepath zip r Hopen Hr)
    as (text & _ & _ & Ht & ->).
  cbn [errors warnings verdict].
  assert (Hlate : forall e, In e (styleErrors JSONparse validateStyleMin (entriesOf zip)) ->
                            3 <= levelOf e).
  { intros e He. apply styleErrors_origin in He as (n & Hn & He).
    now rewrite (errorOf_levelOf n e He). }
  split; [|split].
  - rewrite <- MapGet_hasFile. split.
    + intros Hin. apply in_app_or in Hin as [Hin|Hin].
      * unfold versionText in Ht.
        destruct (MapGet (entriesOf zip) VERSION_FILE) as [versionEntry|]; [|reflexivity].
        destruct (openReadStream versionEntry); [|discriminate].
        injection Ht as <-. destruct Hin.
      * unfold styleWarnings in Hin.
        destruct (MapGet (entriesOf zip) STYLE_FILE) as [styleEntry|]; [|destruct Hin].
        destruct (json JSONparse styleEntry) as [style|]; [|destruct Hin].
        unfold checkWarnings in Hin. apply in_app_or in Hin as [Hin|Hin].
        -- apply level5Warnings_origin in Hin. discriminate Hin.
        -- apply level8Warnings_origin in Hin as [base Hin]. discriminate Hin.
    + intros Hno. rewrite (versionText_absent _ Hno) in Ht. injection Ht as <-.
      now left.
  - intros Hno e Hin He. apply MapGet_hasFile in Hno.
    rewrite (versionText_absent _ Hno) in Ht. injection Ht as <-.
    cbn [level2Errors app] in Hin. apply Hlate in Hin.
    rewrite (errorOf_levelOf 2 e He) in Hin. lia.
  - intros versionEntry content Hv Hc.
    rewrite (versionText_content _ _ _ Hv Hc) in Ht. injection Ht as <-.
    unfold level2Errors. split; split.
    + intros Hin major HM. apply matchVersion_spec in HM. rewrite HM in Hin.
      apply in_app_or in Hin as [Hin|Hin].
      * destruct (supported (parseInt10 major)); [destruct Hin|].
        destruct Hin as [Hin|[]].
        pose proof (errorOf_levelOf 2 _ (error_format (trim content))) as H1.
        rewrite <- Hin in H1.
        assert (H2 : startsWith (invalidVersion (trim content))
                                "Invalid version format: " = true) by reflexivity.
        rewrite <- Hin in H2. discriminate H2.
      * apply Hlate in Hin.
        rewrite (errorOf_levelOf 2 _ (error_format (trim content))) in Hin. lia.
    + intros Hno. destruct (matchVersion (trim content)) as [major|] eqn:E.
      * apply matchVersion_spec in E. now destruct (Hno major).
      * now left.
    + intros (e & Hin & Hp). apply in_app_or in Hin as [Hin|Hin].
      * destruct (matchVersion (trim content)) as [major|] eqn:E.
        -- exists major. split; [now apply matchVersion_spec|].
           intros H1. apply supported_one in H1. rewrite H1 in Hin. destruct Hin.
        -- destruct Hin as [<-|[]]. discriminate Hp.
      * apply Hlate in Hin. rewrite (level_of_unsupported e Hp) in Hin. lia.
    + intros (major & HM & Hne). apply matchVersion_spec in HM. rewrite HM.
      destruct (supported (parseInt10 major)) eqn:E.
      * now apply supported_one in E.
      * exists (unsupportedMajor (parseInt10 major)). split; [now left|reflexivity].
Qed.

(** X7. Leading zeros do not change the major version: [parseInt] reads
    [001] as 1, so a [VERSION] of zeros, a one, a dot and digits, with
    white space around, is supported and level 2 reports nothing. *)
Theorem leading_zeros_are_read (filepath : string) (zip : Zip) (versionEntry : Entry)
        (w1 zeros minor w2 : string) :
  open filepath = inl zip ->
  zipFailure zip = None ->
  MapGet (entriesOf zip) VERSION_FILE = Some versionEntry ->
  openReadStream versionEntry = inl (w1 ++ (zeros ++ "1." ++ minor) ++ w2) ->
  whitespace w1 -> whitespace w2 ->
  allZeros zeros = true -> allDigits minor = true -> minor <> EmptyString ->
  parseInt10 (zeros ++ "1") = 1%N
  /\ forall r,
      validate open JSONparse validateStyleMin filepath = Resolved r ->
      errors r = styleErrors JSONparse validateStyleMin (entriesOf zip)
      /\ warnings r = styleWarnings JSONparse (entriesOf zip)
      /\ forall e, In e (errors r) -> ~ errorOf 2 e.
Proof.
  intros Hopen Hz Hv Hc Hw1 Hw2 Hzeros Hminor Hne.
  assert (Hone : parseInt10 (zeros ++ "1") = 1%N).
  { unfold parseInt10. now rewrite parseDigits_zeros. }
  split; [exact Hone|]. intros r Hr.
  destruct (resolved_verdict open JSONparse validateStyleMin filepath zip r Hopen Hr)
    as (text & _ & _ & Ht & ->).
  rewrite (versionText_content _ _ _ Hv Hc) in Ht.
  assert (Htext : text = Some (w1 ++ (zeros ++ "1." ++ minor) ++ w2)) by congruence.
  subst text. clear Ht.
  assert (Hcat : zeros ++ "1." ++ minor = (zeros ++ "1") ++ "." ++ minor).
  { now rewrite append_assoc. }
  assert (Htrim : trim (w1 ++ (zeros ++ "1." ++ minor) ++ w2) = (zeros ++ "1") ++ "." ++ minor).
  { rewrite Hcat. apply trim_plain; try assumption.
    - rewrite !allPlain_append.
      rewrite (allDigits_allPlain _ (allZeros_allDigits _ Hzeros)).
      now rewrite (allDigits_allPlain _ Hminor).
    - destruct zeros; discriminate. }
  assert (HM : matchVersion ((zeros ++ "1") ++ "." ++ minor) = Some (zeros ++ "1")).
  { apply matchVersion_spec. exists minor. repeat split; try assumption.
    - destruct zeros; discriminate.
    - rewrite allDigits_append. now rewrite (allZeros_allDigits _ Hzeros). }
  assert (H2 : level2Errors (Some (w1 ++ (zeros ++ "1." ++ minor) ++ w2)) = []).
  { unfold level2Errors. rewrite Htrim, HM, Hone. reflexivity. }
  cbn [errors warnings verdict]. rewrite H2. cbn [app level2Warnings].
  split; [reflexivity|]. split; [reflexivity|].
  intros e Hin He. apply styleErrors_origin in Hin as (n & Hn & Hin).
  pose proof (errorOf_unique _ _ _ He Hin). lia.
Qed.

(** X8. Level 4 reports every message of [validateStyleMin] once, in
    the order given and with the prefix [style.json: ], after the errors
    of level 2 and before those of levels 5 to 8, which still run; a
    message with that prefix is in the result only if the style
    validator gave it. *)
Theorem style_messages_exactly (filepath : string) (zip : Zip) (r : ValidationResult)
        (styleEntry : Entry) (style : value) :
  open filepath = inl zip ->
  validate open JSONparse validateStyleMin filepath = Resolved r ->
  MapGet (entriesOf zip) STYLE_FILE = Some styleEntry ->
  json JSONparse styleEntry = inl style ->
  (forall m, In ("style.json: " ++ m) (errors r) <-> In m (validateStyleMin style))
  /\ (exists before after,
         errors r = (before
                     ++ map (fun m => ("style.json: " ++ m)%string) (validateStyleMin style)
                     ++ after)%list
         /\ (forall e, In e before -> errorOf 2 e)
         /\ (forall e, In e after -> exists n, 5 <= n /\ errorOf n e))
  /\ (validateStyleMin style <> [] -> valid r = false).
Proof.
  intros Hopen Hr Hs Hj.
  destruct (parsed_verdict filepath zip r styleEntry style Hopen Hr Hs Hj)
    as (text & _ & _ & ->).
  split; [|split].
  - intros m. rewrite (errors_of_level _ _ _ _ _ 4 (error_style m) ltac:(lia)).
    rewrite (checkErrors_level_iff _ _ _ _ 4 (error_style m)). split.
    + intros (m' & E & Hin).
      assert (E' : m = m').
      { revert E. generalize "style.json: ". intros p.
        induction p as [|a p IH]; cbn; intros E; [exact E|].
        injection E as E. now apply IH. }
      now subst m'.
    + intros Hin. now exists m.
  - exists (level2Errors text),
      (level5Errors style ++ level6Errors (entriesOf zip) style
       ++ level7Errors (entriesOf zip) style ++ level8Errors (entriesOf zip) style)%list.
    split; [reflexivity|]. split.
    + apply level2Errors_origin.
    + intros e Hin. apply in_app_or in Hin as [Hin|Hin].
      { exists 5. split; [lia|]. now apply level5Errors_origin in Hin. }
      apply in_app_or in Hin as [Hin|Hin].
      { exists 6. split; [lia|]. now apply level6Errors_origin in Hin. }
      apply in_app_or in Hin as [Hin|Hin].
      { exists 7. split; [lia|]. now apply level7Errors_origin in Hin. }
      exists 8. split; [lia|]. now apply level8Errors_origin in Hin.
  - intros Hne. destruct (validateStyleMin style) as [|m ms] eqn:E; [congruence|].
    apply (verdict_In _ _ ("style.json: " ++ m)).
    apply in_or_app; right. unfold checkErrors. rewrite E. now left.
Qed.

(** X9. What level 5 reports, read backwards. Each of its three errors
    and its warning is in the result exactly under its condition: the
    bounds are no array of four; they are one with an element that is no
    number; the maximum zoom is no number; the source folders are truthy
    and no object. So [null], an array and every falsy value pass as
    source folders, and a style whose [metadata] is no object gets both
    [Missing or invalid] errors and no warning. *)
Theorem metadata_reports_exactly (filepath : string) (zip : Zip) (r : ValidationResult)
        (styleEntry : Entry) (style : value) :
  open filepath = inl zip ->
  validate open JSONparse validateStyleMin filepath = Resolved r ->
  MapGet (entriesOf zip) STYLE_FILE = Some styleEntry ->
  json JSONparse styleEntry = inl style ->
  (In missingBounds (errors r)
   <-> forall w s e n, property (metadataOf style) "smp:bounds" <> VArray [w; s; e; n])
  /\ (In badBounds (errors r)
      <-> exists w s e n,
          property (metadataOf style) "smp:bounds" = VArray [w; s; e; n]
          /\ isNumber w && isNumber s && isNumber e && isNumber n = false)
  /\ (In missingMaxzoom (errors r)
      <-> isNumber (property (metadataOf style) "smp:maxzoom") = false)
  /\ (In badSourceFolders (warnings r)
      <-> truthy (property (metadataOf style) "smp:sourceFolders") = true
          /\ isObjectType (property (metadataOf style) "smp:sourceFolders") = false)
  /\ ((forall fields, property style "metadata" <> VObject fields) ->
      In missingBounds (errors r) /\ In missingMaxzoom (errors r)
      /\ ~ In badBounds (errors r) /\ ~ In badSourceFolders (warnings r)).
Proof.
  intros Hopen Hr Hs Hj.
  destruct (parsed_verdict filepath zip r styleEntry style Hopen Hr Hs Hj)
    as (text & _ & _ & ->).
  destruct (bounds_exactly (property (metadataOf style) "smp:bounds")) as [Hb1 Hb2].
  assert (H1 : In missingBounds
                  (errors (verdict (level2Errors text
                                    ++ checkErrors validateStyleMin (entriesOf zip) style)
                                   (level2Warnings text ++ checkWarnings (entriesOf zip) style)))
               <-> forall w s e n,
                   property (metadataOf style) "smp:bounds" <> VArray [w; s; e; n]).
  { rewrite (errors_of_level _ _ _ _ _ 5 error_bounds ltac:(lia)).
    rewrite (checkErrors_level_iff _ _ _ _ 5 error_bounds).
    rewrite <- Hb1. unfold level5Errors, maxzoomErrors. split.
    - intros H. apply in_app_or in H as [H|H]; [exact H|].
      destruct (isNumber _); [destruct H|]. destruct H as [H|[]]. discriminate H.
    - intros H. apply in_or_app. now left. }
  assert (H2 : In badBounds
                  (errors (verdict (level2Errors text
                                    ++ checkErrors validateStyleMin (entriesOf zip) style)
                                   (level2Warnings text ++ checkWarnings (entriesOf zip) style)))
               <-> exists w s e n,
                   property (metadataOf style) "smp:bounds" = VArray [w; s; e; n]
                   /\ isNumber w && isNumber s && isNumber e && isNumber n = false).
  { rewrite (errors_of_level _ _ _ _ _ 5 error_numbers ltac:(lia)).
    rewrite (checkErrors_level_iff _ _ _ _ 5 error_numbers).
    rewrite <- Hb2. unfold level5Errors, maxzoomErrors. split.
    - intros H. apply in_app_or in H as [H|H]; [exact H|].
      destruct (isNumber _); [destruct H|]. destruct H as [H|[]]. discriminate H.
    - intros H. apply in_or_app. now left. }
  assert (H3 : In missingMaxzoom
                  (errors (verdict (level2Errors text
                                    ++ checkErrors validateStyleMin (entriesOf zip) style)
                                   (level2Warnings text ++ checkWarnings (entriesOf zip) style)))
               <-> isNumber (property (metadataOf style) "smp:maxzoom") = false).
  { rewrite (errors_of_level _ _ _ _ _ 5 error_maxzoom ltac:(lia)).
    rewrite (checkErrors_level_iff _ _ _ _ 5 error_maxzoom).
    unfold level5Errors, maxzoomErrors. split.
    - intros H. apply in_app_or in H as [H|H].
      + unfold boundsErrors in H.
        destruct (property (metadataOf style) "smp:bounds") as [| |b|q|t|l|f];
          try (destruct H as [H|[]]; discriminate H).
        destruct l as [|w [|s [|e [|n [|x l]]]]];
          try (destruct H as [H|[]]; discriminate H).
        destruct (isNumber w && isNumber s && isNumber e && isNumber n);
          [destruct H|destruct H as [H|[]]; discriminate H].
      + now destruct (isNumber (property (metadataOf style) "smp:maxzoom")).
    - intros H. apply in_or_app. right. rewrite H. now left. }
  assert (H4 : In badSourceFolders
                  (warnings (verdict (level2Errors text
                                      ++ checkErrors validateStyleMin (entriesOf zip) style)
                                     (level2Warnings text ++ checkWarnings (entriesOf zip) style)))
               <-> truthy (property (metadataOf style) "smp:sourceFolders") = true
                   /\ isObjectType (property (metadataOf style) "smp:sourceFolders") = false).
  { cbn [warnings verdict]. unfold checkWarnings, level5Warnings. cbv zeta. split.
    - intros H. apply in_app_or in H as [H|H].
      { apply level2Warnings_origin in H. discriminate H. }
      apply in_app_or in H as [H|H].
      + destruct (truthy _) eqn:Et; [|destruct H].
        destruct (isObjectType _) eqn:Eo; [destruct H|]. now split.
      + apply level8Warnings_origin in H as [base H]. discriminate H.
    - intros [Et Eo]. apply in_or_app; right. apply in_or_app; left.
      rewrite Et, Eo. now left. }
  split; [exact H1|]. split; [exact H2|]. split; [exact H3|]. split; [exact H4|].
  intros Hno.
  assert (Hu : forall key, property (metadataOf style) key = VUndefined).
  { intros key. unfold metadataOf.
    destruct (property style "metadata") as [| |b|q|t|l|f] eqn:E.
    - reflexivity.
    - reflexivity.
    - now destruct b.
    - cbn [truthy]. now destruct (negb (Qnum q =? 0)%Z).
    - cbn [truthy]. now destruct (negb (t =? EmptyString)).
    - reflexivity.
    - now destruct (Hno f). }
  rewrite H1, H2, H3, H4, !Hu. repeat split.
  - intros w s e n H. discriminate H.
  - intros (w & s & e & n & H & _). discriminate H.
  - intros [H _]. discriminate H.
Qed.

End Levels.

(* ================================================================== *)
(** * Glyphs, resources that are not checked, and what a valid result
      guarantees *)
(* ================================================================== *)

Lemma startsWith_app_or (s q t : string) (c : ascii) :
  startsWith (s ++ String c t) q = true ->
  startsWith s q = true \/ occurs c q = true.
Proof.
  revert q. induction s as [|a s IH]; intros q H.
  - destruct q as [|b q]; [now left|]. right. cbn in H |- *.
    destruct (Ascii.eqb_spec c b) as [->|]; [|discriminate].
    now rewrite Ascii.eqb_refl.
  - destruct q as [|b q]; [now left|]. cbn in H |- *.
    destruct (Ascii.eqb a b); [|discriminate].
    destruct (IH q H) as [H'|H']; [now left|right].
    rewrite H'. now rewrite orb_true_r.
Qed.

(** The first occurrence of a needle whose first character occurs in it
    only once is the one shown, as soon as the text before has none. *)
Lemma indexOf_fresh (c : ascii) (needle p rest : string) :
  occurs c needle = false ->
  indexOf p (String c needle) = None ->
  indexOf (p ++ String c needle ++ rest) (String c needle) = Some (String.length p).
Proof.
  intros Hfresh H. induction p as [|a p IH].
  - change (EmptyString ++ String c needle ++ rest) with (String c needle ++ rest).
    unfold indexOf. destruct (String c needle ++ rest) eqn:E; [discriminate|].
    rewrite <- E. now rewrite startsWith_append.
  - cbn [indexOf] in H.
    destruct (startsWith (String a p) (String c needle)) eqn:E; [discriminate|].
    destruct (indexOf p (String c needle)) eqn:Ep; [discriminate|].
    change (String a p ++ String c needle ++ rest)
      with (String a (p ++ String c (needle ++ rest))).
    cbn [indexOf].
    replace (startsWith (String a (p ++ String c (needle ++ rest))) (String c needle))
      with false.
    + change (p ++ String c (needle ++ rest)) with (p ++ String c needle ++ rest).
      rewrite (IH eq_refl). reflexivity.
    + symmetry.
      destruct (startsWith (String a (p ++ String c (needle ++ rest))) (String c needle))
        eqn:F; [|reflexivity].
      exfalso. cbn [startsWith] in E, F.
      destruct (Ascii.eqb a c); [|discriminate].
      destruct (startsWith_app_or _ _ _ _ F) as [F'|F']; congruence.
Qed.

Lemma indexOf_empty (needle : string) (k : nat) :
  indexOf EmptyString needle <> Some (S k).
Proof. destruct needle; discriminate. Qed.

Lemma indexOf_head (s needle : string) :
  startsWith s needle = true -> indexOf s needle = Some 0.
Proof. intros H. destruct s; cbn [indexOf]; now rewrite H. Qed.

(** What level 7 adds for a glyph template inside the package. *)
Lemma level7Errors_template (zip : Zip) (style : value) (template : string) :
  property style "glyphs" = VString (URI_BASE ++ template) ->
  level7Errors (entriesOf zip) style
  = if match indexOf template "{fontstack}" with
       | Some (S prefixEnd) => hasFileUnder zip (slice0 template (S prefixEnd))
       | _ => hasFileEnding zip ".pbf.gz"
       end
    then [] else [noGlyphs].
Proof.
  intros Hg. unfold level7Errors. rewrite Hg, startsWith_append. cbv zeta.
  rewrite (slice_append URI_BASE template).
  rewrite existsb_MapKeys_entriesOf.
  destruct (indexOf template "{fontstack}") as [[|k]|] eqn:E; try reflexivity.
  destruct template as [|a template]; [now destruct (indexOf_empty _ _ E)|].
  reflexivity.
Qed.

Lemma level7Errors_other (entries : Map Entry) (style : value) :
  (forall template, property style "glyphs" <> VString (URI_BASE ++ template)) ->
  level7Errors entries style = [].
Proof.
  intros H. unfold level7Errors.
  destruct (property style "glyphs") as [| |b|q|g|l|f]; try reflexivity.
  destruct (startsWith g URI_BASE) eqn:E; [|reflexivity].
  apply startsWith_inv in E as [template ->]. now destruct (H template).
Qed.

Lemma flat_map_empty {A B : Type} (f : A -> list B) (l : list A) :
  flat_map f l = [] -> forall a, In a l -> f a = [].
Proof.
  intros H a Hin. destruct (f a) as [|b bs] eqn:E; [reflexivity|].
  assert (Hb : In b (flat_map f l)).
  { apply in_flat_map. exists a. split; [exact Hin|]. rewrite E. now left. }
  rewrite H in Hb. destruct Hb.
Qed.

Lemma flat_map_all_empty {A B : Type} (f : A -> list B) (l : list A) :
  (forall a, In a l -> f a = []) -> flat_map f l = [].
Proof.
  induction l as [|a l IH]; intros H; [reflexivity|]. cbn [flat_map].
  rewrite (H a (or_introl eq_refl)). apply IH. intros b Hb. apply H. now right.
Qed.

Lemma spriteBases_none (style : value) :
  (forall base, property style "sprite" <> VString (URI_BASE ++ base)) ->
  (forall sprites item base,
      property style "sprite" = VArray sprites -> In item sprites ->
      property item "url" <> VString (URI_BASE ++ base)) ->
  spriteBases style = [].
Proof.
  intros H1 H2. unfold spriteBases.
  assert (Hi : forall url, (forall base, url <> VString (URI_BASE ++ base)) ->
                           internalBase url = []).
  { intros url H. unfold internalBase. destruct url as [| |b|q|u|l|f]; try reflexivity.
    destruct (startsWith u URI_BASE) eqn:E; [|reflexivity].
    apply startsWith_inv in E as [base ->]. now destruct (H base). }
  destruct (property style "sprite") as [| |b|q|u|l|f] eqn:E; try reflexivity.
  - apply Hi. exact H1.
  - apply flat_map_all_empty. intros item Hin. apply Hi.
    intros base. exact (H2 l item base eq_refl Hin).
Qed.

Section Resources.

Variable open : string -> Zip + exn.
Variable JSONparse : string -> value + exn.
Variable validateStyleMin : value -> list string.

(** X10. Level 7, the glyph files. For a glyph template
    inside the package with a text before [{fontstack}], the glyph error
    is in the result exactly when no entry name starts with that text.
    For one that starts with [{fontstack}] or has none, it is there
    exactly when no entry name ends with [.pbf.gz], wherever the entry
    lies. For glyphs outside the package, or none, it is never there. *)
Theorem glyph_level (filepath : string) (zip : Zip) (r : ValidationResult)
        (styleEntry : Entry) (style : value) :
  open filepath = inl zip ->
  validate open JSONparse validateStyleMin filepath = Resolved r ->
  MapGet (entriesOf zip) STYLE_FILE = Some styleEntry ->
  json JSONparse styleEntry = inl style ->
  (forall glyphPrefix rest,
      property style "glyphs"
      = VString (URI_BASE ++ glyphPrefix ++ "{fontstack}" ++ rest) ->
      glyphPrefix <> EmptyString ->
      indexOf glyphPrefix "{fontstack}" = None ->
      (In noGlyphs (errors r) <-> hasFileUnder zip glyphPrefix = false))
  /\ (forall template,
         property style "glyphs" = VString (URI_BASE ++ template) ->
         indexOf template "{fontstack}" = None
         \/ startsWith template "{fontstack}" = true ->
         (In noGlyphs (errors r) <-> hasFileEnding zip ".pbf.gz" = false))
  /\ ((forall template, property style "glyphs" <> VString (URI_BASE ++ template)) ->
      ~ In noGlyphs (errors r))
  /\ (In noGlyphs (errors r) -> valid r = false).
Proof.
  intros Hopen Hr Hs Hj.
  destruct (parsed_verdict open JSONparse validateStyleMin filepath zip r styleEntry style
                           Hopen Hr Hs Hj) as (text & _ & _ & ->).
  assert (H7 : In noGlyphs
                  (errors (verdict (level2Errors text
                                    ++ checkErrors validateStyleMin (entriesOf zip) style)
                                   (level2Warnings text ++ checkWarnings (entriesOf zip) style)))
               <-> In noGlyphs (level7Errors (entriesOf zip) style)).
  { rewrite (errors_of_level _ _ _ _ _ _ 7 error_glyphs ltac:(lia)).
    apply (checkErrors_level_iff _ _ _ _ 7 error_glyphs). }
  split; [|split; [|split]].
  - intros glyphPrefix rest Hg Hne Hnone. rewrite H7.
    rewrite (level7Errors_template zip style _ Hg).
    rewrite (indexOf_fresh "{" "fontstack}" glyphPrefix rest eq_refl Hnone).
    destruct glyphPrefix as [|a p]; [congruence|].
    cbn [String.length].
    change (slice0 (String a p ++ "{fontstack}" ++ rest) (S (String.length p)))
      with (slice0 (String a p ++ "{fontstack}" ++ rest) (String.length (String a p))).
    rewrite slice0_append.
    destruct (hasFileUnder zip (String a p)); split; try congruence.
    + intros [].
    + intros _. now left.
  - intros template Hg Hcase. rewrite H7.
    rewrite (level7Errors_template zip style _ Hg).
    assert (E : match indexOf template "{fontstack}" with
                | Some (S prefixEnd) => hasFileUnder zip (slice0 template (S prefixEnd))
                | _ => hasFileEnding zip ".pbf.gz"
                end = hasFileEnding zip ".pbf.gz").
    { destruct Hcase as [Hc|Hc]; [now rewrite Hc|].
      now rewrite (indexOf_head _ _ Hc). }
    rewrite E. destruct (hasFileEnding zip ".pbf.gz"); split; try congruence.
    + intros [].
    + intros _. now left.
  - intros Hno. rewrite H7. rewrite (level7Errors_other _ _ Hno). intros [].
  - intros Hin. apply (verdict_In _ _ noGlyphs). exact Hin.
Qed.

(** X11. What levels 6 and 8 leave unchecked. A tile template is never
    reported when it is no string, lies outside the package, has no
    [{z}], or starts with [{z}]: the empty prefix matches the name of
    [style.json] itself. A style whose sprites all lie outside the
    package gets no sprite error and no [@2x] warning. *)
Theorem unchecked_resources (filepath : string) (zip : Zip) (r : ValidationResult)
        (styleEntry : Entry) (style : value) :
  open filepath = inl zip ->
  validate open JSONparse validateStyleMin filepath = Resolved r ->
  MapGet (entriesOf zip) STYLE_FILE = Some styleEntry ->
  json JSONparse styleEntry = inl style ->
  ((forall sourceId source templatePath,
       In (sourceId, source) (sourcesOf style) ->
       In (VString (URI_BASE ++ templatePath)) (tilesOf source) ->
       indexOf templatePath "{z}" = None \/ startsWith templatePath "{z}" = true) ->
   forall e, In e (errors r) -> ~ errorOf 6 e)
  /\ ((forall base, property style "sprite" <> VString (URI_BASE ++ base)) ->
      (forall sprites item base,
          property style "sprite" = VArray sprites -> In item sprites ->
          property item "url" <> VString (URI_BASE ++ base)) ->
      (forall e, In e (errors r) -> ~ errorOf 8 e)
      /\ (forall base, ~ In (missing2x base) (warnings r))).
Proof.
  intros Hopen Hr Hs Hj.
  destruct (parsed_verdict open JSONparse validateStyleMin filepath zip r styleEntry style
                           Hopen Hr Hs Hj) as (text & _ & _ & ->).
  split.
  - intros Hun e Hin He.
    apply (errors_of_level validateStyleMin _ _ _ _ _ 6 He ltac:(lia)) in Hin.
    apply (checkErrors_level_iff _ _ _ _ 6 He) in Hin.
    unfold level6Errors in Hin. apply in_flat_map in Hin as ([sourceId source] & Hsrc & Hin).
    unfold sourceErrors in Hin. cbn [fst snd] in Hin.
    apply in_flat_map in Hin as (tileUrl & Ht & Hin).
    unfold tileErrors in Hin.
    destruct tileUrl as [| |b|q|u|l|f]; try destruct Hin.
    destruct (startsWith u URI_BASE) eqn:E; [|destruct Hin].
    apply startsWith_inv in E as [templatePath ->].
    rewrite (slice_append URI_BASE templatePath) in Hin. cbv zeta in Hin.
    destruct (Hun sourceId source templatePath Hsrc Ht) as [Hc|Hc].
    + rewrite Hc in Hin. destruct Hin.
    + rewrite (indexOf_head _ _ Hc) in Hin. cbn [slice0] in Hin.
      assert (Hany : existsb (fun filename => startsWith filename EmptyString)
                             (MapKeys (entriesOf zip)) = true).
      { apply existsb_exists. exists STYLE_FILE. split; [|reflexivity].
        apply MapKeys_MapHas. unfold MapHas. now rewrite Hs. }
      rewrite Hany in Hin. destruct Hin.
  - intros H1 H2. pose proof (spriteBases_none style H1 H2) as Hnone. split.
    + intros e Hin He.
      apply (errors_of_level validateStyleMin _ _ _ _ _ 8 He ltac:(lia)) in Hin.
      apply (checkErrors_level_iff _ _ _ _ 8 He) in Hin.
      unfold level8Errors in Hin. rewrite Hnone in Hin. destruct Hin.
    + intros base Hin. cbn [warnings verdict] in Hin.
      apply in_app_or in Hin as [Hin|Hin].
      { apply level2Warnings_origin in Hin. discriminate Hin. }
      unfold checkWarnings in Hin. apply in_app_or in Hin as [Hin|Hin].
      { apply level5Warnings_origin in Hin. discriminate Hin. }
      unfold level8Warnings in Hin. rewrite Hnone in Hin. destruct Hin.
Qed.

(** X12. What a valid result guarantees. The archive has a
    [style.json] that parsed and that the style validator found no fault
    in; a [VERSION], if there is one, reads [MAJOR.MINOR] with major
    number 1 once trimmed; the bounds are four numbers and the maximum
    zoom is a number; every tile template of the package has an entry
    under its prefix, the glyphs of the package have their files, and
    every sprite of the package has its [.json] and its [.png]. *)
Theorem valid_guarantees (filepath : string) (zip : Zip) (r : ValidationResult) :
  open filepath = inl zip ->
  validate open JSONparse validateStyleMin filepath = Resolved r ->
  valid r = true ->
  (forall versionEntry content,
      MapGet (entriesOf zip) VERSION_FILE = Some versionEntry ->
      openReadStream versionEntry = inl content ->
      exists major, MajorMinor (trim content) major /\ parseInt10 major = 1%N)
  /\ exists styleEntry style,
      MapGet (entriesOf zip) STYLE_FILE = Some styleEntry
      /\ json JSONparse styleEntry = inl style
      /\ validateStyleMin style = []
      /\ (exists w s e n,
             property (metadataOf style) "smp:bounds"
             = VArray [VNumber w; VNumber s; VNumber e; VNumber n])
      /\ (exists maxzoom, property (metadataOf style) "smp:maxzoom" = VNumber maxzoom)
      /\ (forall sourceId source tilePrefix rest,
             In (sourceId, source) (sourcesOf style) ->
             In (VString (URI_BASE ++ tilePrefix ++ "{z}" ++ rest)) (tilesOf source) ->
             indexOf tilePrefix "{z}" = None ->
             hasFileUnder zip tilePrefix = true)
      /\ (forall glyphPrefix rest,
             property style "glyphs"
             = VString (URI_BASE ++ glyphPrefix ++ "{fontstack}" ++ rest) ->
             glyphPrefix <> EmptyString ->
             indexOf glyphPrefix "{fontstack}" = None ->
             hasFileUnder zip glyphPrefix = true)
      /\ (forall base,
             property style "sprite" = VString (URI_BASE ++ base) ->
             hasFile zip (base ++ ".json") = true /\ hasFile zip (base ++ ".png") = true)
      /\ (forall sprites item base,
             property style "sprite" = VArray sprites -> In item sprites ->
             property item "url" = VString (URI_BASE ++ base) ->
             hasFile zip (base ++ ".json") = true /\ hasFile zip (base ++ ".png") = true).
Proof.
  intros Hopen Hr Hvalid.
  destruct (resolved_verdict open JSONparse validateStyleMin filepath zip r Hopen Hr)
    as (text & _ & _ & Ht & ->).
  apply verdict_valid in Hvalid. apply app_eq_nil in Hvalid as [H2 Hstyle].
  split.
  - intros versionEntry content Hv Hc.
    rewrite (versionText_content _ _ _ Hv Hc) in Ht.
    assert (Htext : text = Some content) by congruence. subst text.
    unfold level2Errors in H2.
    destruct (matchVersion (trim content)) as [major|] eqn:E; [|discriminate].
    exists major. split; [now apply matchVersion_spec|].
    destruct (supported (parseInt10 major)) eqn:Es; [|discriminate].
    now apply supported_one.
  - unfold styleErrors in Hstyle.
    destruct (MapGet (entriesOf zip) STYLE_FILE) as [styleEntry|] eqn:Hs; [|discriminate].
    destruct (json JSONparse styleEntry) as [style|] eqn:Hj; [|discriminate].
    exists styleEntry, style. split; [reflexivity|]. split; [exact Hj|].
    unfold checkErrors in Hstyle.
    apply app_eq_nil in Hstyle as [H4 Hstyle].
    apply app_eq_nil in Hstyle as [H5 Hstyle].
    apply app_eq_nil in Hstyle as [H6 Hstyle].
    apply app_eq_nil in Hstyle as [H7 H8].
    split; [now apply map_eq_nil in H4|].
    unfold level5Errors in H5. apply app_eq_nil in H5 as [Hb Hm].
    split; [|split; [|split; [|split; [|split]]]].
    + unfold boundsErrors in Hb.
      destruct (property (metadataOf style) "smp:bounds") as [| |b|q|t|l|f];
        try discriminate.
      destruct l as [|w [|s [|e [|n [|x l]]]]]; try discriminate.
      destruct w, s, e, n; try discriminate. now eexists _, _, _, _.
    + unfold maxzoomErrors in Hm.
      destruct (property (metadataOf style) "smp:maxzoom"); try discriminate.
      now eexists.
    + intros sourceId source tilePrefix rest Hsrc Htile Hnone.
      pose proof (flat_map_empty _ _ H6 _ Hsrc) as Hsource.
      unfold sourceErrors in Hsource. cbn [fst snd] in Hsource.
      pose proof (flat_map_empty _ _ Hsource _ Htile) as Hone.
      rewrite (tileErrors_template zip sourceId tilePrefix rest Hnone) in Hone.
      now destruct (hasFileUnder zip tilePrefix).
    + intros glyphPrefix rest Hg Hne Hnone.
      rewrite (level7Errors_template zip style _ Hg) in H7.
      rewrite (indexOf_fresh "{" "fontstack}" glyphPrefix rest eq_refl Hnone) in H7.
      destruct glyphPrefix as [|a p]; [congruence|].
      cbn [String.length] in H7.
      change (slice0 (String a p ++ "{fontstack}" ++ rest) (S (String.length p)))
        with (slice0 (String a p ++ "{fontstack}" ++ rest) (String.length (String a p)))
        in H7.
      rewrite slice0_append in H7.
      now destruct (hasFileUnder zip (String a p)).
    + intros base Hsprite. unfold level8Errors in H8.
      rewrite (spriteBases_string style base Hsprite) in H8.
      cbn [flat_map] in H8. rewrite app_nil_r in H8. unfold spriteErrors in H8.
      unfold hasFile. rewrite <- !MapHas_entriesOf.
      destruct (MapHas (entriesOf zip) (base ++ ".json")); [|discriminate].
      destruct (MapHas (entriesOf zip) (base ++ ".png")); [|discriminate].
      now split.
    + intros sprites item base Hsprite Hin Hurl.
      pose proof (spriteBases_array style sprites item base Hsprite Hin Hurl) as Hbase.
      pose proof (flat_map_empty _ _ H8 _ Hbase) as Hone. unfold spriteErrors in Hone.
      unfold hasFile. rewrite <- !MapHas_entriesOf.
      destruct (MapHas (entriesOf zip) (base ++ ".json")); [|discriminate].
      destruct (MapHas (entriesOf zip) (base ++ ".png")); [|discriminate].
      now split.
Qed.

End Resources.

(* ================================================================== *)
(** * Sprites read backwards, files beside the package, and the command *)
(* ================================================================== *)

Lemma append_cancel_l (p a b : string) : p ++ a = p ++ b -> a = b.
Proof.
  induction p as [|x p IH]; cbn; intros H; [exact H|].
  injection H as H. now apply IH.
Qed.

Lemma append_cancel_r (a b t : string) : a ++ t = b ++ t -> a = b.
Proof.
  intros H.
  assert (Hlen : String.length a = String.length b).
  { apply (f_equal String.length) in H. rewrite !length_append in H. lia. }
  revert b H Hlen. induction a as [|x a IH]; intros [|y b] H Hlen;
    try discriminate; [reflexivity|].
  cbn in H. injection H as -> H. f_equal. apply IH; [exact H|].
  cbn in Hlen. lia.
Qed.

Lemma missingSprite_inj (a b : string) : missingSprite a = missingSprite b -> a = b.
Proof. unfold missingSprite. apply append_cancel_l. Qed.

Lemma missing2x_inj (a b : string) : missing2x a = missing2x b -> a = b.
Proof.
  unfold missing2x. intros H.
  apply append_cancel_l in H. apply append_cancel_l in H.
  now apply append_cancel_r in H.
Qed.

Section Beside.

Variable zip zip' : Zip.
Variable more : list Entry.
Hypothesis grown : zipEntries zip' = (zipEntries zip ++ more)%list.

Lemma MapGet_more (k : string) :
  (forall entry, In entry more -> filename entry <> k) ->
  MapGet (entriesOf zip') k = MapGet (entriesOf zip) k.
Proof.
  intros H. unfold entriesOf. rewrite grown, fold_left_app.
  now apply MapGet_fold_other.
Qed.

Lemma keys_more (f : string -> bool) :
  existsb f (MapKeys (entriesOf zip')) = false ->
  existsb f (MapKeys (entriesOf zip)) = false.
Proof.
  rewrite !existsb_MapKeys_entriesOf, grown, existsb_app.
  intros H. now apply orb_false_iff in H as [H _].
Qed.

Lemma has_more (k : string) :
  MapHas (entriesOf zip') k = false -> MapHas (entriesOf zip) k = false.
Proof.
  rewrite !MapHas_entriesOf, grown, existsb_app.
  intros H. now apply orb_false_iff in H as [H _].
Qed.

Lemma tileErrors_more (sourceId : string) (tileUrl : value) (e : string) :
  In e (tileErrors (entriesOf zip') sourceId tileUrl) ->
  In e (tileErrors (entriesOf zip) sourceId tileUrl).
Proof.
  unfold tileErrors. destruct tileUrl as [| |b|q|u|l|f]; try (intros []).
  destruct (startsWith u URI_BASE); [|intros []]. cbv zeta.
  destruct (indexOf (slice u (String.length URI_BASE)) "{z}") as [prefixEnd|]; [|intros []].
  destruct (existsb _ (MapKeys (entriesOf zip'))) eqn:E; [intros []|].
  now rewrite (keys_more _ E).
Qed.

Lemma level6Errors_more (style : value) (e : string) :
  In e (level6Errors (entriesOf zip') style) -> In e (level6Errors (entriesOf zip) style).
Proof.
  unfold level6Errors, sourceErrors. intros H.
  apply in_flat_map in H as (source & Hs & H).
  apply in_flat_map in H as (tileUrl & Ht & H).
  apply in_flat_map. exists source. split; [exact Hs|].
  apply in_flat_map. exists tileUrl. split; [exact Ht|].
  now apply tileErrors_more.
Qed.

Lemma level7Errors_more (style : value) (e : string) :
  In e (level7Errors (entriesOf zip') style) -> In e (level7Errors (entriesOf zip) style).
Proof.
  unfold level7Errors. destruct (property style "glyphs") as [| |b|q|g|l|f]; try (intros []).
  destruct (startsWith g URI_BASE); [|intros []]. cbv zeta.
  destruct (existsb _ (MapKeys (entriesOf zip'))) eqn:E; [intros []|].
  now rewrite (keys_more _ E).
Qed.

Lemma spriteErrors_more (base e : string) :
  In e (spriteErrors (entriesOf zip') base) -> In e (spriteErrors (entriesOf zip) base).
Proof.
  unfold spriteErrors. intros H. apply in_app_or in H as [H|H]; apply in_or_app.
  - left. destruct (MapHas (entriesOf zip') (base ++ ".json")) eqn:E; [destruct H|].
    now rewrite (has_more _ E).
  - right. destruct (MapHas (entriesOf zip') (base ++ ".png")) eqn:E; [destruct H|].
    now rewrite (has_more _ E).
Qed.

Lemma spriteWarnings_more (base w : string) :
  In w (spriteWarnings (entriesOf zip') base) -> In w (spriteWarnings (entriesOf zip) base).
Proof.
  unfold spriteWarnings.
  destruct (MapHas (entriesOf zip') (base ++ "@2x.json")) eqn:E1.
  - destruct (MapHas (entriesOf zip') (base ++ "@2x.png")) eqn:E2; [intros []|].
    rewrite (has_more _ E2), !andb_false_r. exact (fun H => H).
  - rewrite (has_more _ E1). cbn [andb]. exact (fun H => H).
Qed.

Lemma checkErrors_more (validateStyleMin : value -> list string) (style : value)
      (e : string) :
  In e (checkErrors validateStyleMin (entriesOf zip') style) ->
  In e (checkErrors validateStyleMin (entriesOf zip) style).
Proof.
  unfold checkErrors, level8Errors. intros H.
  apply in_app_or in H as [H|H]; [apply in_or_app; now left|apply in_or_app; right].
  apply in_app_or in H as [H|H]; [apply in_or_app; now left|apply in_or_app; right].
  apply in_app_or in H as [H|H];
    [apply in_or_app; left; now apply level6Errors_more|apply in_or_app; right].
  apply in_app_or in H as [H|H];
    [apply in_or_app; left; now apply level7Errors_more|apply in_or_app; right].
  apply in_flat_map in H as (base & Hb & H). apply in_flat_map. exists base.
  split; [exact Hb|]. now apply spriteErrors_more.
Qed.

Lemma checkWarnings_more (style : value) (w : string) :
  In w (checkWarnings (entriesOf zip') style) -> In w (checkWarnings (entriesOf zip) style).
Proof.
  unfold checkWarnings, level8Warnings. intros H.
  apply in_app_or in H as [H|H]; [apply in_or_app; now left|apply in_or_app; right].
  apply in_flat_map in H as (base & Hb & H). apply in_flat_map. exists base.
  split; [exact Hb|]. now apply spriteWarnings_more.
Qed.

End Beside.

Section Packages.

Variable open : string -> Zip + exn.
Variable JSONparse : string -> value + exn.
Variable validateStyleMin : value -> list string.

Lemma directory_failure (filepath : string) (zip : Zip) (e : exn) :
  open filepath = inl zip ->
  zipFailure zip = Some e
  \/ (zipFailure zip = None /\ versionText (entriesOf zip) = inr e) ->
  validate open JSONparse validateStyleMin filepath = Rejected e.
Proof.
  intros Hopen H. unfold validate. rewrite Hopen. unfold audit, readEntries.
  destruct H as [H|[Hz Hv]].
  - now rewrite H.
  - rewrite Hz. unfold bind at 1. unfold ret at 1. unfold bind at 1.
    now rewrite (level2_throws _ _ _ Hv).
Qed.

(** X13. The sprite messages, read backwards. A missing-file error for
    a path is in the result exactly when the path is the [.json] or the
    [.png] of a sprite of the package and the archive has no entry of
    that name; the [@2x] warning for a base path is there exactly when
    the base is that of a sprite of the package and one of its two
    [@2x] files has no entry. *)
Theorem sprite_reports_exactly (filepath : string) (zip : Zip) (r : ValidationResult)
        (styleEntry : Entry) (style : value) :
  open filepath = inl zip ->
  validate open JSONparse validateStyleMin filepath = Resolved r ->
  MapGet (entriesOf zip) STYLE_FILE = Some styleEntry ->
  json JSONparse styleEntry = inl style ->
  (forall path,
      In (missingSprite path) (errors r)
      <-> exists base,
          In base (spriteBases style)
          /\ (path = base ++ ".json" \/ path = base ++ ".png")
          /\ hasFile zip path = false)
  /\ (forall base,
         In (missing2x base) (warnings r)
         <-> In base (spriteBases style)
             /\ (hasFile zip (base ++ "@2x.json") = false
                 \/ hasFile zip (base ++ "@2x.png") = false)).
Proof.
  intros Hopen Hr Hs Hj.
  destruct (parsed_verdict open JSONparse validateStyleMin filepath zip r styleEntry style
                           Hopen Hr Hs Hj) as (text & _ & _ & ->).
  split.
  - intros path.
    rewrite (errors_of_level validateStyleMin _ _ _ _ _ 8 (error_sprite path) ltac:(lia)).
    rewrite (checkErrors_level_iff _ _ _ _ 8 (error_sprite path)).
    unfold level8Errors. rewrite in_flat_map. unfold hasFile. split.
    + intros (base & Hb & Hin). exists base. split; [exact Hb|].
      unfold spriteErrors in Hin. apply in_app_or in Hin as [Hin|Hin].
      * destruct (MapHas (entriesOf zip) (base ++ ".json")) eqn:E; [destruct Hin|].
        destruct Hin as [Hin|[]]. apply missingSprite_inj in Hin. subst path.
        split; [now left|]. now rewrite <- MapHas_entriesOf.
      * destruct (MapHas (entriesOf zip) (base ++ ".png")) eqn:E; [destruct Hin|].
        destruct Hin as [Hin|[]]. apply missingSprite_inj in Hin. subst path.
        split; [now right|]. now rewrite <- MapHas_entriesOf.
    + intros (base & Hb & Hpath & Hno). exists base. split; [exact Hb|].
      rewrite <- MapHas_entriesOf in Hno. unfold spriteErrors. apply in_or_app.
      destruct Hpath as [->| ->]; [left|right]; rewrite Hno; now left.
  - intros base. cbn [warnings verdict]. unfold hasFile.
    rewrite <- !MapHas_entriesOf. split.
    + intros Hin. apply in_app_or in Hin as [Hin|Hin].
      { apply level2Warnings_origin in Hin. discriminate Hin. }
      unfold checkWarnings in Hin. apply in_app_or in Hin as [Hin|Hin].
      { apply level5Warnings_origin in Hin. discriminate Hin. }
      unfold level8Warnings in Hin. apply in_flat_map in Hin as (base' & Hb & Hin).
      unfold spriteWarnings in Hin.
      destruct (MapHas (entriesOf zip) (base' ++ "@2x.json")
                && MapHas (entriesOf zip) (base' ++ "@2x.png")) eqn:Hc;
        [destruct Hin|].
      destruct Hin as [Hin|[]]. apply missing2x_inj in Hin. subst base'.
      split; [exact Hb|]. now apply andb_false_iff in Hc.
    + intros [Hb Hno]. apply in_or_app; right. unfold checkWarnings.
      apply in_or_app; right. unfold level8Warnings. apply in_flat_map.
      exists base. split; [exact Hb|]. unfold spriteWarnings.
      destruct Hno as [-> | ->]; [now left|]. rewrite andb_false_r. now left.
Qed.

(** X14. Entries beside the package do no harm: adding entries that are
    named neither [VERSION] nor [style.json] to an archive that
    [validate] resolves on gives an archive it resolves on, with no
    error and no warning the first did not have; a valid package stays
    valid. *)
Theorem extra_files_keep_valid (filepath filepath' : string) (zip zip' : Zip)
        (more : list Entry) (r : ValidationResult) :
  open filepath = inl zip ->
  open filepath' = inl zip' ->
  zipFailure zip' = None ->
  zipEntries zip' = (zipEntries zip ++ more)%list ->
  (forall entry, In entry more ->
                 filename entry <> VERSION_FILE /\ filename entry <> STYLE_FILE) ->
  validate open JSONparse validateStyleMin filepath = Resolved r ->
  exists r',
    validate open JSONparse validateStyleMin filepath' = Resolved r'
    /\ (forall e, In e (errors r') -> In e (errors r))
    /\ (forall w, In w (warnings r') -> In w (warnings r))
    /\ (valid r = true -> valid r' = true).
Proof.
  intros Hopen Hopen' Hz' Hgrown Hnames Hr.
  destruct (resolved_verdict open JSONparse validateStyleMin filepath zip r Hopen Hr)
    as (text & Hz & Ha & Ht & ->).
  assert (Hv : MapGet (entriesOf zip') VERSION_FILE = MapGet (entriesOf zip) VERSION_FILE).
  { apply (MapGet_more zip zip' more Hgrown). intros entry Hin. now apply Hnames. }
  assert (Hs : MapGet (entriesOf zip') STYLE_FILE = MapGet (entriesOf zip) STYLE_FILE).
  { apply (MapGet_more zip zip' more Hgrown). intros entry Hin. now apply Hnames. }
  assert (Ht' : versionText (entriesOf zip') = inl text).
  { unfold versionText in *. now rewrite Hv. }
  assert (Ha' : auditable JSONparse zip' = true).
  { unfold auditable in *. rewrite Hz', Ht', Hs. now rewrite Hz, Ht in Ha. }
  destruct (validate_audited open JSONparse validateStyleMin filepath' zip' Hopen' Ha')
    as (text' & Ht'' & Hr').
  rewrite Ht' in Ht''. injection Ht'' as <-.
  assert (He : forall e,
             In e (styleErrors JSONparse validateStyleMin (entriesOf zip')) ->
             In e (styleErrors JSONparse validateStyleMin (entriesOf zip))).
  { unfold styleErrors. rewrite Hs.
    destruct (MapGet (entriesOf zip) STYLE_FILE) as [styleEntry|]; [|auto].
    destruct (json JSONparse styleEntry) as [style|]; [|auto].
    intros e. now apply (checkErrors_more zip zip' more Hgrown). }
  assert (Hw : forall w,
             In w (styleWarnings JSONparse (entriesOf zip')) ->
             In w (styleWarnings JSONparse (entriesOf zip))).
  { unfold styleWarnings. rewrite Hs.
    destruct (MapGet (entriesOf zip) STYLE_FILE) as [styleEntry|]; [|auto].
    destruct (json JSONparse styleEntry) as [style|]; [|auto].
    intros w. now apply (checkWarnings_more zip zip' more Hgrown). }
  eexists. split; [exact Hr'|]. cbn [errors warnings verdict]. split; [|split].
  - intros e Hin. apply in_app_or in Hin as [Hin|Hin]; apply in_or_app; auto.
  - intros w Hin. apply in_app_or in Hin as [Hin|Hin]; apply in_or_app; auto.
  - intros Hvalid. apply verdict_valid in Hvalid. apply verdict_valid.
    apply app_eq_nil in Hvalid as [H2 H3]. rewrite H2. cbn [app].
    destruct (styleErrors JSONparse validateStyleMin (entriesOf zip')) as [|e es] eqn:E;
      [reflexivity|].
    specialize (He e (or_introl eq_refl)). rewrite H3 in He. destruct He.
Qed.

End Packages.

Section Command.

Variable open : string -> Zip + exn.
Variable JSONparse : string -> value + exn.
Variable validateStyleMin : value -> list string.
Variable success : string.
Variable error : string.
Variable warning : string.
Variable green : string -> string.
Variable red : string -> string.

(** X15. The exit code of the command. When the action reaches
    [process.exit], [validate] has resolved and the lines written are
    the report of its result. The code is 0 exactly when the result has
    no error, and the first line then says the file is valid; otherwise
    the code is 1, the first line says the file is invalid, the second
    opens the list of errors, and every error has its line: the command
    never calls a file invalid without showing why. Warnings never
    change the code. *)
Theorem command_exit_code (filepath : string) (stdout : list string) (code : nat) :
  action open JSONparse validateStyleMin success error warning green red filepath
  = Exit stdout code ->
  exists r,
    validate open JSONparse validateStyleMin filepath = Resolved r
    /\ stdout = report success error warning green red r
    /\ ((code = 0 /\ errors r = []
         /\ nth_error stdout 0 = Some (success ++ " " ++ green "Valid SMP file")
         /\ List.length stdout
            = match warnings r with
              | [] => 1
              | _ :: _ => 2 + List.length (warnings r)
              end)
        \/ (code = 1 /\ errors r <> []
            /\ nth_error stdout 0 = Some (error ++ " " ++ red "Invalid SMP file")
            /\ nth_error stdout 1 = Some (LF ++ "Errors:")
            /\ (forall err, In err (errors r) ->
                            In ("  " ++ error ++ " " ++ err) stdout)
            /\ 3 <= List.length stdout)).
Proof.
  unfold action. intros H.
  destruct (validate open JSONparse validateStyleMin filepath) as [r|e] eqn:Hr;
    [|discriminate].
  injection H as <- <-. exists r. split; [reflexivity|]. split; [reflexivity|].
  pose proof (validate_valid open JSONparse validateStyleMin filepath r Hr) as Hvalid.
  unfold report. destruct (valid r).
  - left. destruct Hvalid as [Hvalid _]. rewrite (Hvalid eq_refl).
    split; [reflexivity|]. split; [reflexivity|]. split; [reflexivity|].
    cbn [app List.length]. destruct (warnings r) as [|w ws]; [reflexivity|].
    cbn [List.length]. now rewrite length_map.
  - right. split; [reflexivity|].
    destruct (errors r) as [|e es] eqn:E.
    + destruct Hvalid as [_ Hvalid]. now specialize (Hvalid eq_refl).
    + split; [discriminate|]. split; [reflexivity|]. split; [reflexivity|]. split.
      * intros err Hin. cbn [app]. right. right. apply in_or_app. left.
        apply in_map_iff. now exists err.
      * cbn [app List.length map]. lia.
Qed.

(** X16. What the command does not handle. A failure to open the file
    is reported and ends in exit code 1, but when the directory of the
    archive fails to iterate, or the [VERSION] entry fails to be read,
    [validate] rejects with that very error and the action ends with it:
    nothing is written and [process.exit] is not reached. *)
Theorem command_unhandled (filepath : string) :
  (forall err, open filepath = inr err ->
               exists line,
                 action open JSONparse validateStyleMin success error warning green red
                        filepath
                 = Exit [error ++ " " ++ red "Invalid SMP file";
                         LF ++ "Errors:";
                         "  " ++ error ++ " " ++ line] 1
                 /\ (line = "File not found: " ++ filepath
                     \/ line = "Not a valid ZIP file: " ++ messageOf err))
  /\ (forall zip e,
         open filepath = inl zip ->
         zipFailure zip = Some e
         \/ (zipFailure zip = None /\ versionText (entriesOf zip) = inr e) ->
         validate open JSONparse validateStyleMin filepath = Rejected e
         /\ action open JSONparse validateStyleMin success error warning green red
                   filepath
            = Unhandled e).
Proof.
  split.
  - intros err Hopen. unfold action, validate. rewrite Hopen. cbv zeta.
    destruct (codeIs err "ENOENT"); eexists; (split; [reflexivity|]); auto.
  - intros zip e Hopen H.
    pose proof (directory_failure open JSONparse validateStyleMin filepath zip e Hopen H)
      as Hr.
    split; [exact Hr|]. unfold action. now rewrite Hr.
Qed.

End Command.

(** X17. The version pattern. [/^(\d+)\.\d+$/] matches exactly the texts
    made of a run of digits, a dot and a run of digits, both runs not
    empty, and captures the first run. So it rejects a lone number, a
    missing part, a third part, a letter in front and a blank inside. *)
Theorem version_pattern :
  (forall version major, matchVersion version = Some major <-> MajorMinor version major)
  /\ matchVersion "10.25" = Some "10"
  /\ matchVersion "1" = None
  /\ matchVersion "1." = None
  /\ matchVersion ".0" = None
  /\ matchVersion "1.0.0" = None
  /\ matchVersion "v1.0" = None
  /\ matchVersion "1 .0" = None.
Proof.
  split; [intros version major; apply matchVersion_spec|].
  repeat split.
Qed.

(* ================================================================== *)
(** * When the promise resolves, with a style validator that throws *)
(* ================================================================== *)

Lemma bind_ret {A B : Type} (a : A) (k : A -> M B) (st : Arrays) :
  bind (ret a) k st = k a st.
Proof. reflexivity. Qed.

Lemma bind_normal {A B : Type} (m : M A) (k : A -> M B) (st st' : Arrays) (a : A) :
  m st = Normal a st' -> bind m k st = k a st'.
Proof. intros H. unfold bind. now rewrite H. Qed.

Lemma bind_throw {A B : Type} (m : M A) (k : A -> M B) (st : Arrays) (e : exn) :
  m st = Throw e -> bind m k st = Throw e.
Proof. intros H. unfold bind. now rewrite H. Qed.

Section Thrown.

Variable open : string -> Zip + exn.
Variable JSONparse : string -> value + exn.
Variable validateStyleMin : value -> list string + exn.

(** At a validator that returns on every value, the function is the
    [validate] of the sections above. *)
Lemma returning_validator (v : value -> list string) (filepath : string) :
  Throwing.validate open JSONparse (fun style => inl (v style)) filepath
  = validate open JSONparse v filepath.
Proof.
  unfold Throwing.validate, validate. destruct (open filepath) as [zip|err]; reflexivity.
Qed.

(** The exception of the validator is the rejection of the promise. *)
Lemma validator_throws (filepath : string) (zip : Zip) (text : option string)
      (styleEntry : Entry) (style : value) (e : exn) :
  open filepath = inl zip ->
  zipFailure zip = None ->
  versionText (entriesOf zip) = inl text ->
  MapGet (entriesOf zip) STYLE_FILE = Some styleEntry ->
  json JSONparse styleEntry = inl style ->
  validateStyleMin style = inr e ->
  Throwing.validate open JSONparse validateStyleMin filepath = Rejected e.
Proof.
  intros Hopen Hz Ht Hs Hj Hv. unfold Throwing.validate. rewrite Hopen.
  unfold Throwing.audit, readEntries. rewrite Hz. cbv iota. rewrite bind_ret.
  rewrite (bind_normal _ _ _ _ _ (level2_pushes _ _ Ht (mkArrays [] []))).
  rewrite Hs, Hj, Hv. reflexivity.
Qed.

(** Where the validator returns on the style that is read, or no style
    is read, the function is [validate] at the messages returned. *)
Lemma validator_returns (filepath : string) (zip : Zip) :
  open filepath = inl zip ->
  (forall text styleEntry style,
      zipFailure zip = None ->
      versionText (entriesOf zip) = inl text ->
      MapGet (entriesOf zip) STYLE_FILE = Some styleEntry ->
      json JSONparse styleEntry = inl style ->
      exists messages, validateStyleMin style = inl messages) ->
  Throwing.validate open JSONparse validateStyleMin filepath
  = validate open JSONparse (Throwing.returned validateStyleMin) filepath.
Proof.
  intros Hopen Hret. unfold Throwing.validate, validate. rewrite Hopen.
  f_equal. unfold Throwing.audit, audit, readEntries.
  destruct (zipFailure zip) eqn:Hz; [reflexivity|]. rewrite !bind_ret.
  destruct (versionText (entriesOf zip)) as [text|e] eqn:Ht.
  - rewrite !(bind_normal _ _ _ _ _ (level2_pushes _ _ Ht (mkArrays [] []))).
    destruct (MapGet (entriesOf zip) STYLE_FILE) as [styleEntry|] eqn:Hs; [|reflexivity].
    destruct (json JSONparse styleEntry) as [style|] eqn:Hj; [|reflexivity].
    destruct (Hret text styleEntry style eq_refl eq_refl eq_refl Hj) as [messages Hv].
    unfold Throwing.returned. rewrite Hv. reflexivity.
  - now rewrite !(bind_throw _ _ _ _ (level2_throws _ e (mkArrays [] []) Ht)).
Qed.

(** X2. When the promise resolves, with nothing taken for granted about
    the style validator. Once the archive is open, the promise of
    [validate] resolves exactly when the directory iterates, a [VERSION]
    entry can be read, and on a style that parsed the validator returns
    and the style is not [null], has no [null] among its sources and
    none among the elements of a [sprite] array; otherwise it rejects,
    and an exception of the validator is then the rejection. A
    [style.json] that cannot be read or parsed is no obstacle: the inner
    [try] reports it. A result is the one the messages returned give,
    and at a validator that returns on every value the function is the
    [validate] of the other properties. The archive is taken to close. *)
Theorem validate_resolves_exactly (filepath : string) (zip : Zip) :
  open filepath = inl zip ->
  ((exists r, Throwing.validate open JSONparse validateStyleMin filepath = Resolved r)
   <-> zipFailure zip = None
       /\ (forall versionEntry,
              MapGet (entriesOf zip) VERSION_FILE = Some versionEntry ->
              exists content, openReadStream versionEntry = inl content)
       /\ (forall styleEntry style,
              MapGet (entriesOf zip) STYLE_FILE = Some styleEntry ->
              json JSONparse styleEntry = inl style ->
              (exists messages, validateStyleMin style = inl messages)
              /\ isNullish style = false
              /\ (forall source, In source (sourcesOf style) ->
                                 isNullish (snd source) = false)
              /\ (forall sprites, property style "sprite" = VArray sprites ->
                                  forall item, In item sprites -> isNullish item = false)))
  /\ ((exists e, Throwing.validate open JSONparse validateStyleMin filepath = Rejected e)
      <-> ~ exists r, Throwing.validate open JSONparse validateStyleMin filepath
                      = Resolved r)
  /\ (forall text styleEntry style e,
         zipFailure zip = None ->
         versionText (entriesOf zip) = inl text ->
         MapGet (entriesOf zip) STYLE_FILE = Some styleEntry ->
         json JSONparse styleEntry = inl style ->
         validateStyleMin style = inr e ->
         Throwing.validate open JSONparse validateStyleMin filepath = Rejected e)
  /\ (forall r,
         Throwing.validate open JSONparse validateStyleMin filepath = Resolved r ->
         validate open JSONparse (Throwing.returned validateStyleMin) filepath
         = Resolved r)
  /\ (forall v : value -> list string,
         Throwing.validate open JSONparse (fun style => inl (v style)) filepath
         = validate open JSONparse v filepath).
Proof.
  intros Hopen.
  assert (Hcases :
            (exists text styleEntry style e,
                zipFailure zip = None
                /\ versionText (entriesOf zip) = inl text
                /\ MapGet (entriesOf zip) STYLE_FILE = Some styleEntry
                /\ json JSONparse styleEntry = inl style
                /\ validateStyleMin style = inr e)
            \/ (forall text styleEntry style,
                   zipFailure zip = None ->
                   versionText (entriesOf zip) = inl text ->
                   MapGet (entriesOf zip) STYLE_FILE = Some styleEntry ->
                   json JSONparse styleEntry = inl style ->
                   exists messages, validateStyleMin style = inl messages)).
  { destruct (zipFailure zip) eqn:Hz; [right; intros; discriminate|].
    destruct (versionText (entriesOf zip)) as [text|] eqn:Ht; [|right; intros; discriminate].
    destruct (MapGet (entriesOf zip) STYLE_FILE) as [styleEntry|] eqn:Hs;
      [|right; intros; discriminate].
    destruct (json JSONparse styleEntry) as [style|] eqn:Hj.
    - destruct (validateStyleMin style) as [messages|e] eqn:Hv.
      + right. intros text' styleEntry' style' _ _ Hs' Hj'.
        injection Hs' as <-. rewrite Hj in Hj'. injection Hj' as <-.
        now exists messages.
      + left. now exists text, styleEntry, style, e.
    - right. intros text' styleEntry' style' _ _ Hs' Hj'.
      injection Hs' as <-. rewrite Hj in Hj'. discriminate Hj'. }
  split; [|split; [|split; [|split]]].
  - destruct Hcases as [(text & styleEntry & style & e & Hz & Ht & Hs & Hj & Hv)|Hret].
    + rewrite (validator_throws filepath zip text styleEntry style e Hopen Hz Ht Hs Hj Hv).
      split.
      * intros [r Hr]. discriminate Hr.
      * intros (_ & _ & Hstyle).
        destruct (Hstyle styleEntry style Hs Hj) as [[messages Hm] _]. congruence.
    + rewrite (validator_returns filepath zip Hopen Hret).
      rewrite (validate_settles open JSONparse (Throwing.returned validateStyleMin)
                                filepath zip Hopen).
      unfold auditable, versionText. split.
      * intros H. destruct (zipFailure zip) eqn:Hz; [discriminate|].
        split; [reflexivity|].
        assert (Hv : exists text, versionText (entriesOf zip) = inl text
                                  /\ forall versionEntry,
                                    MapGet (entriesOf zip) VERSION_FILE = Some versionEntry ->
                                    exists content, openReadStream versionEntry = inl content).
        { unfold versionText.
          destruct (MapGet (entriesOf zip) VERSION_FILE) as [versionEntry|].
          - destruct (openReadStream versionEntry) as [content|] eqn:E; [|discriminate].
            eexists. split; [reflexivity|].
            intros v' Hv'. injection Hv' as <-. now exists content.
          - eexists. split; [reflexivity|]. discriminate. }
        destruct Hv as (text & Ht & Hv). split; [exact Hv|].
        intros styleEntry style Hs Hj. split.
        -- exact (Hret text styleEntry style eq_refl Ht Hs Hj).
        -- apply safeStyle_inv. unfold versionText in Ht.
           destruct (MapGet (entriesOf zip) VERSION_FILE) as [versionEntry|].
           ++ destruct (openReadStream versionEntry); [|discriminate].
              now rewrite Hs, Hj in H.
           ++ now rewrite Hs, Hj in H.
      * intros [Hz [Hv Hs]]. rewrite Hz.
        assert (Hstyle : match MapGet (entriesOf zip) STYLE_FILE with
                         | Some styleEntry =>
                             match json JSONparse styleEntry with
                             | inl style => safeStyle style
                             | inr _ => true
                             end
                         | None => true
                         end = true).
        { destruct (MapGet (entriesOf zip) STYLE_FILE) as [styleEntry|]; [|reflexivity].
          destruct (json JSONparse styleEntry) as [style|] eqn:Hj; [|reflexivity].
          destruct (Hs styleEntry style eq_refl Hj) as [_ [H1 [H2 H3]]].
          now apply safeStyle_intro. }
        destruct (MapGet (entriesOf zip) VERSION_FILE) as [versionEntry|].
        -- destruct (Hv versionEntry eq_refl) as [content ->]. exact Hstyle.
        -- exact Hstyle.
  - destruct (Throwing.validate open JSONparse validateStyleMin filepath) as [r|e]; split.
    + intros [e H]. discriminate.
    + intros H. exfalso. apply H. now exists r.
    + intros _ [r H]. discriminate.
    + intros _. now exists e.
  - intros text styleEntry style e. now apply validator_throws.
  - intros r Hr.
    destruct Hcases as [(text & styleEntry & style & e & Hz & Ht & Hs & Hj & Hv)|Hret].
    + rewrite (validator_throws filepath zip text styleEntry style e Hopen Hz Ht Hs Hj Hv)
        in Hr. discriminate Hr.
    + now rewrite <- (validator_returns filepath zip Hopen Hret).
  - intros v. apply returning_validator.
Qed.

End Thrown.

(* ================================================================== *)
(** * The further properties at archives *)
(* ================================================================== *)

(** [valid_iff_no_errors] at an archive without [style.json]: the early
    return of level 3 says invalid, and there is an error. *)
Lemma valid_iff_no_errors_witness :
  exists r,
    Cases.run "nostyle.smp" = Resolved r
    /\ valid r = false
    /\ exists e, In e (errors r).
Proof.
  eexists. split; [vm_compute; reflexivity|]. split; [reflexivity|].
  apply (valid_iff_no_errors Cases.open Cases.JSONparse Cases.validateStyleMin
                             "nostyle.smp" _ eq_refl).
  reflexivity.
Defined.

(** [validate_resolves_exactly] at a style with a [null] layer, on which
    the validator throws: the promise rejects with the exception of the
    validator; and at a minimal style, on which it returns: the promise
    resolves. *)
Lemma validate_resolves_exactly_witness :
  Throwing.open "nulllayer.smp" = inl (Throwing.zipAt "nulllayer.smp")
  /\ Throwing.open "minimal.smp" = inl (Throwing.zipAt "minimal.smp")
  /\ Throwing.strict Throwing.nullLayerStyle
     = inr (TypeError "Cannot read properties of null (reading 'type')")
  /\ Throwing.run "nulllayer.smp"
     = Rejected (TypeError "Cannot read properties of null (reading 'type')")
  /\ (~ exists r, Throwing.run "nulllayer.smp" = Resolved r)
  /\ (exists r, Throwing.run "minimal.smp" = Resolved r).
Proof.
  do 3 (split; [reflexivity|]).
  destruct (validate_resolves_exactly Throwing.open Throwing.JSONparse Throwing.strict
              "nulllayer.smp" (Throwing.zipAt "nulllayer.smp") eq_refl)
    as (_ & Hrejects & Hthrows & _).
  assert (Hr : Throwing.run "nulllayer.smp"
               = Rejected (TypeError "Cannot read properties of null (reading 'type')")).
  { exact (Hthrows (Some ("1.0" ++ LF)) (Fixtures.styleFile Throwing.nullLayerStyle)
                   Throwing.nullLayerStyle _ eq_refl eq_refl eq_refl eq_refl eq_refl). }
  split; [exact Hr|]. split.
  - apply (proj1 Hrejects). eexists. exact Hr.
  - destruct (validate_resolves_exactly Throwing.open Throwing.JSONparse Throwing.strict
                "minimal.smp" (Throwing.zipAt "minimal.smp") eq_refl)
      as (Hresolves & _).
    apply (proj2 Hresolves). split; [reflexivity|]. split.
    + intros versionEntry H. vm_compute in H. injection H as <-.
      eexists. reflexivity.
    + intros styleEntry style Hs Hj. vm_compute in Hs. injection Hs as <-.
      vm_compute in Hj. injection Hj as <-.
      split; [eexists; reflexivity|]. split; [reflexivity|]. split.
      * intros source [].
      * intros sprites H. discriminate H.
Defined.

(** [missing_style_stops] at an archive with one unrelated file. *)
Lemma missing_style_stops_witness :
  Cases.open "nostyle.smp" = inl (Cases.zipAt "nostyle.smp")
  /\ zipFailure (Cases.zipAt "nostyle.smp") = None
  /\ versionText (entriesOf (Cases.zipAt "nostyle.smp")) = inl None
  /\ hasFile (Cases.zipAt "nostyle.smp") STYLE_FILE = false
  /\ exists r,
      Cases.run "nostyle.smp" = Resolved r
      /\ valid r = false
      /\ errors r = ["Missing style.json"]
      /\ warnings r = [missingVersion].
Proof.
  do 4 (split; [reflexivity|]).
  destruct (missing_style_stops Cases.open Cases.JSONparse Cases.validateStyleMin
                                "nostyle.smp" (Cases.zipAt "nostyle.smp") None
                                eq_refl eq_refl eq_refl eq_refl)
    as (r & Hr & Hvalid & Herrors & Hwarnings & _).
  exists r. repeat split; assumption.
Defined.

(** [errors_in_level_order] at an archive with an unsupported version
    and a bare style: levels 2, 4, 4, 5 and 5. *)
Lemma errors_in_level_order_witness :
  exists r,
    Cases.run "bare.smp" = Resolved r
    /\ map levelOf (errors r) = [2; 4; 4; 5; 5]
    /\ ascending (map levelOf (errors r)).
Proof.
  eexists. split; [vm_compute; reflexivity|]. split; [reflexivity|].
  exact (errors_in_level_order Cases.open Cases.JSONparse Cases.validateStyleMin
                               "bare.smp" _ eq_refl).
Defined.

(** [entries_last_wins] at an archive with two [VERSION] entries, 2.0
    and then 1.0: the map holds the second, and the package is valid. *)
Lemma entries_last_wins_witness :
  zipEntries (Cases.zipAt "twice.smp")
  = ([Fixtures.file "VERSION" ("2.0" ++ LF);
      Fixtures.file "style.json" (Fixtures.stringify Fixtures.minimalStyle)]
     ++ Fixtures.file "VERSION" ("1.0" ++ LF) :: [])%list
  /\ MapGet (entriesOf (Cases.zipAt "twice.smp")) "VERSION"
     = Some (Fixtures.file "VERSION" ("1.0" ++ LF))
  /\ Cases.run "twice.smp" = Resolved (mkResult true [] []).
Proof.
  split; [reflexivity|]. split; [|reflexivity].
  apply (entries_last_wins (Cases.zipAt "twice.smp")
                           [Fixtures.file "VERSION" ("2.0" ++ LF);
                            Fixtures.file "style.json"
                                          (Fixtures.stringify Fixtures.minimalStyle)]
                           [] (Fixtures.file "VERSION" ("1.0" ++ LF)) eq_refl).
  intros later [].
Defined.

(** [version_reports_exactly] at an archive with [VERSION] 3.0. *)
Lemma version_reports_exactly_witness :
  Cases.open "bare.smp" = inl (Cases.zipAt "bare.smp")
  /\ exists r,
      Cases.run "bare.smp" = Resolved r
      /\ ~ In missingVersion (warnings r)
      /\ ~ In (invalidVersion "3.0") (errors r)
      /\ exists major, MajorMinor "3.0" major /\ parseInt10 major <> 1%N.
Proof.
  split; [reflexivity|]. eexists. split; [vm_compute; reflexivity|].
  destruct (version_reports_exactly Cases.open Cases.JSONparse Cases.validateStyleMin
                                    "bare.smp" (Cases.zipAt "bare.smp") _ eq_refl eq_refl)
    as (Hwarning & _ & Hentry).
  destruct (Hentry (Fixtures.file "VERSION" ("3.0" ++ LF)) ("3.0" ++ LF) eq_refl eq_refl)
    as (Hformat & Hmajor).
  split; [|split].
  - intros Hin. pose proof (proj1 Hwarning Hin) as Hno. discriminate Hno.
  - intros Hin. apply (proj1 Hformat Hin "3").
    exists "0". repeat split; try reflexivity; discriminate.
  - apply (proj1 Hmajor). eexists. split; [now left|reflexivity].
Defined.

(** [leading_zeros_are_read] at an archive with [VERSION] 001.5. *)
Lemma leading_zeros_are_read_witness :
  Cases.open "zeros.smp" = inl (Cases.zipAt "zeros.smp")
  /\ MapGet (entriesOf (Cases.zipAt "zeros.smp")) VERSION_FILE
     = Some (Fixtures.file "VERSION" ("001.5" ++ LF))
  /\ whitespace EmptyString /\ whitespace LF
  /\ allZeros "00" = true /\ allDigits "5" = true /\ "5" <> EmptyString
  /\ exists r,
      Cases.run "zeros.smp" = Resolved r
      /\ forall e, In e (errors r) -> ~ errorOf 2 e.
Proof.
  assert (H1 : whitespace EmptyString) by constructor.
  assert (H2 : whitespace LF).
  { apply (whitespace_cons LF EmptyString); [cbv; tauto | constructor]. }
  assert (H3 : "5" <> EmptyString) by discriminate.
  do 2 (split; [reflexivity|]). do 2 (split; [assumption|]).
  do 2 (split; [reflexivity|]). split; [assumption|].
  eexists. split; [vm_compute; reflexivity|].
  destruct (leading_zeros_are_read Cases.open Cases.JSONparse Cases.validateStyleMin
              "zeros.smp" (Cases.zipAt "zeros.smp")
              (Fixtures.file "VERSION" ("001.5" ++ LF)) EmptyString "00" "5" LF
              eq_refl eq_refl eq_refl eq_refl H1 H2 eq_refl eq_refl H3)
    as [_ Hr].
  exact (proj2 (proj2 (Hr _ eq_refl))).
Defined.

(** [style_messages_exactly] at a bare style the style validator finds
    two faults in. *)
Lemma style_messages_exactly_witness :
  Cases.open "bare.smp" = inl (Cases.zipAt "bare.smp")
  /\ MapGet (entriesOf (Cases.zipAt "bare.smp")) STYLE_FILE
     = Some (Fixtures.styleFile Cases.bareStyle)
  /\ json Cases.JSONparse (Fixtures.styleFile Cases.bareStyle) = inl Cases.bareStyle
  /\ exists r,
      Cases.run "bare.smp" = Resolved r
      /\ In "style.json: layers: at least one layer expected" (errors r)
      /\ valid r = false.
Proof.
  do 3 (split; [reflexivity|]). eexists. split; [vm_compute; reflexivity|].
  destruct (style_messages_exactly Cases.open Cases.JSONparse Cases.validateStyleMin
              "bare.smp" (Cases.zipAt "bare.smp") _
              (Fixtures.styleFile Cases.bareStyle) Cases.bareStyle
              eq_refl eq_refl eq_refl eq_refl)
    as (Hmessages & _ & Hinvalid).
  split.
  - apply (Hmessages "layers: at least one layer expected"). right. now left.
  - apply Hinvalid. discriminate.
Defined.

(** [metadata_reports_exactly] at a style without metadata, and at one
    whose source folders are an array. *)
Lemma metadata_reports_exactly_witness :
  Cases.open "bare.smp" = inl (Cases.zipAt "bare.smp")
  /\ (exists r,
         Cases.run "bare.smp" = Resolved r
         /\ In missingBounds (errors r) /\ In missingMaxzoom (errors r)
         /\ ~ In badSourceFolders (warnings r))
  /\ (exists r,
         Cases.run "arrayfolders.smp" = Resolved r
         /\ ~ In badSourceFolders (warnings r)).
Proof.
  split; [reflexivity|]. split.
  - eexists. split; [vm_compute; reflexivity|].
    destruct (metadata_reports_exactly Cases.open Cases.JSONparse Cases.validateStyleMin
                "bare.smp" (Cases.zipAt "bare.smp") _
                (Fixtures.styleFile Cases.bareStyle) Cases.bareStyle
                eq_refl eq_refl eq_refl eq_refl)
      as (_ & _ & _ & _ & Hnone).
    assert (Hbare : forall fields, property Cases.bareStyle "metadata" <> VObject fields).
    { intros fields H. cbv in H. discriminate H. }
    specialize (Hnone Hbare). destruct Hnone as (Hb & Hm & _ & Hw).
    split; [exact Hb|]. split; [exact Hm|exact Hw].
  - eexists. split; [vm_compute; reflexivity|].
    destruct (metadata_reports_exactly Cases.open Cases.JSONparse Cases.validateStyleMin
                "arrayfolders.smp" (Cases.zipAt "arrayfolders.smp") _
                (Fixtures.styleFile Cases.arrayFoldersStyle) Cases.arrayFoldersStyle
                eq_refl eq_refl eq_refl eq_refl)
      as (_ & _ & _ & Hfolders & _).
    intros Hin. apply Hfolders in Hin as [_ Hobject]. discriminate Hobject.
Defined.

(** [glyph_level] at the archive of the test 'SMP with missing glyph
    files returns error', and at one whose glyph template starts with
    the font stack. *)
Lemma glyph_level_witness :
  Cases.open "noglyphs.smp" = inl (Cases.zipAt "noglyphs.smp")
  /\ property Cases.glyphStyle "glyphs"
     = VString (URI_BASE ++ "fonts/" ++ "{fontstack}" ++ "/{range}.pbf.gz")
  /\ indexOf "fonts/" "{fontstack}" = None
  /\ hasFileUnder (Cases.zipAt "noglyphs.smp") "fonts/" = false
  /\ (exists r,
         Cases.run "noglyphs.smp" = Resolved r
         /\ In noGlyphs (errors r) /\ valid r = false)
  /\ (exists r,
         Cases.run "flatglyphs.smp" = Resolved r /\ ~ In noGlyphs (errors r)).
Proof.
  do 4 (split; [reflexivity|]). split.
  - eexists. split; [vm_compute; reflexivity|].
    destruct (glyph_level Cases.open Cases.JSONparse Cases.validateStyleMin
                "noglyphs.smp" (Cases.zipAt "noglyphs.smp") _
                (Fixtures.styleFile Cases.glyphStyle) Cases.glyphStyle
                eq_refl eq_refl eq_refl eq_refl)
      as (Hprefix & _ & _ & Hinvalid).
    assert (Hin : In noGlyphs
                     (errors {| valid := false; errors := [noGlyphs]; warnings := [] |})).
    { apply (Hprefix "fonts/" "/{range}.pbf.gz" eq_refl); [discriminate|reflexivity|].
      reflexivity. }
    split; [exact Hin|]. reflexivity.
  - eexists. split; [vm_compute; reflexivity|].
    destruct (glyph_level Cases.open Cases.JSONparse Cases.validateStyleMin
                "flatglyphs.smp" (Cases.zipAt "flatglyphs.smp") _
                (Fixtures.styleFile Cases.flatGlyphStyle) Cases.flatGlyphStyle
                eq_refl eq_refl eq_refl eq_refl)
      as (_ & Hfallback & _).
    intros Hin.
    apply (Hfallback "{fontstack}-{range}.pbf.gz" eq_refl (or_intror eq_refl)) in Hin.
    discriminate Hin.
Defined.

(** [unchecked_resources] at a style that points outside the package
    for its tiles and its sprite, in an archive that holds neither. *)
Lemma unchecked_resources_witness :
  Cases.open "external.smp" = inl (Cases.zipAt "external.smp")
  /\ exists r,
      Cases.run "external.smp" = Resolved r
      /\ (forall e, In e (errors r) -> ~ errorOf 6 e)
      /\ (forall e, In e (errors r) -> ~ errorOf 8 e)
      /\ (forall base, ~ In (missing2x base) (warnings r)).
Proof.
  split; [reflexivity|]. eexists. split; [vm_compute; reflexivity|].
  destruct (unchecked_resources Cases.open Cases.JSONparse Cases.validateStyleMin
              "external.smp" (Cases.zipAt "external.smp") _
              (Fixtures.styleFile Cases.externalStyle) Cases.externalStyle
              eq_refl eq_refl eq_refl eq_refl)
    as (Htiles & Hsprites).
  split.
  - apply Htiles. intros sourceId source templatePath [Hsource|[]] Htile.
    injection Hsource as <- <-. destruct Htile as [Htile|[]]. discriminate Htile.
  - apply Hsprites.
    + intros base H. discriminate H.
    + intros sprites item base H. discriminate H.
Defined.

(** [valid_guarantees] at a valid archive with glyphs. *)
Lemma valid_guarantees_witness :
  Cases.open "glyphs.smp" = inl (Cases.zipAt "glyphs.smp")
  /\ exists r,
      Cases.run "glyphs.smp" = Resolved r
      /\ valid r = true
      /\ hasFileUnder (Cases.zipAt "glyphs.smp") "fonts/" = true
      /\ exists major, MajorMinor "1.0" major /\ parseInt10 major = 1%N.
Proof.
  split; [reflexivity|]. eexists. split; [vm_compute; reflexivity|]. split; [reflexivity|].
  destruct (valid_guarantees Cases.open Cases.JSONparse Cases.validateStyleMin
              "glyphs.smp" (Cases.zipAt "glyphs.smp") _ eq_refl eq_refl eq_refl)
    as (Hversion & styleEntry & style & Hs & Hj & _ & _ & _ & _ & Hglyphs & _).
  split.
  - injection Hs as <-. injection Hj as <-.
    apply (Hglyphs "fonts/" "/{range}.pbf.gz" eq_refl); [discriminate|reflexivity].
  - exact (Hversion (Fixtures.file "VERSION" ("1.0" ++ LF)) ("1.0" ++ LF) eq_refl eq_refl).
Defined.

(** [sprite_reports_exactly] at the archive of the test 'SMP with
    missing sprite files returns error', and at one with the 1x files
    only. *)
Lemma sprite_reports_exactly_witness :
  Fixtures.open "nosprite.smp" = inl (Fixtures.zipAt "nosprite.smp")
  /\ (exists r,
         Fixtures.run "nosprite.smp" = Resolved r
         /\ In (missingSprite "sprites/default/sprite.png") (errors r)
         /\ In (missing2x "sprites/default/sprite") (warnings r))
  /\ (exists r,
         Fixtures.run "sprite1x.smp" = Resolved r
         /\ ~ In (missingSprite "sprites/default/sprite.png") (errors r)).
Proof.
  split; [reflexivity|]. split.
  - eexists. split; [vm_compute; reflexivity|].
    destruct (sprite_reports_exactly Fixtures.open Fixtures.JSONparse
                Fixtures.validateStyleMin
                "nosprite.smp" (Fixtures.zipAt "nosprite.smp") _
                (Fixtures.styleFile Fixtures.spriteStyle) Fixtures.spriteStyle
                eq_refl eq_refl eq_refl eq_refl)
      as (Hfile & Hwarning).
    split.
    + apply Hfile. exists "sprites/default/sprite".
      split; [now left|]. split; [now right|reflexivity].
    + apply Hwarning. split; [now left|]. now left.
  - eexists. split; [vm_compute; reflexivity|].
    destruct (sprite_reports_exactly Fixtures.open Fixtures.JSONparse
                Fixtures.validateStyleMin
                "sprite1x.smp" (Fixtures.zipAt "sprite1x.smp") _
                (Fixtures.styleFile Fixtures.spriteStyle) Fixtures.spriteStyle
                eq_refl eq_refl eq_refl eq_refl)
      as (Hfile & _).
    intros Hin. apply Hfile in Hin as (base & [<-|[]] & [Hpath|Hpath] & Hno);
      discriminate.
Defined.

(** [extra_files_keep_valid] at a valid tile package and the same
    package with a README beside it. *)
Lemma extra_files_keep_valid_witness :
  Cases.open "tiles.smp" = inl (Cases.zipAt "tiles.smp")
  /\ Cases.open "tiles+readme.smp" = inl (Cases.zipAt "tiles+readme.smp")
  /\ zipEntries (Cases.zipAt "tiles+readme.smp")
     = (zipEntries (Cases.zipAt "tiles.smp") ++ [Fixtures.file "README.md" "notes"])%list
  /\ Cases.run "tiles.smp" = Resolved (mkResult true [] [])
  /\ exists r', Cases.run "tiles+readme.smp" = Resolved r' /\ valid r' = true.
Proof.
  do 4 (split; [reflexivity|]).
  destruct (extra_files_keep_valid Cases.open Cases.JSONparse Cases.validateStyleMin
              "tiles.smp" "tiles+readme.smp"
              (Cases.zipAt "tiles.smp") (Cases.zipAt "tiles+readme.smp")
              [Fixtures.file "README.md" "notes"] (mkResult true [] [])
              eq_refl eq_refl eq_refl eq_refl)
    as (r' & Hr' & _ & _ & Hvalid).
  - intros entry [<-|[]]. split; discriminate.
  - reflexivity.
  - exists r'. split; [exact Hr'|]. now apply Hvalid.
Defined.

(** [command_exit_code] at the archive without glyph files, in a
    terminal without colours. *)
Lemma command_exit_code_witness :
  Cases.command "noglyphs.smp"
  = Exit ["x Invalid SMP file"; LF ++ "Errors:"; "  x " ++ noGlyphs] 1
  /\ exists r,
      Cases.run "noglyphs.smp" = Resolved r /\ errors r <> [].
Proof.
  split; [reflexivity|].
  destruct (command_exit_code Cases.open Cases.JSONparse Cases.validateStyleMin
              "v" "x" "!" (fun s => s) (fun s => s) "noglyphs.smp"
              ["x Invalid SMP file"; LF ++ "Errors:"; "  x " ++ noGlyphs] 1 eq_refl)
    as (r & Hr & _ & [(Hcode & _)|(_ & Herrors & _)]).
  - discriminate Hcode.
  - exists r. split; assumption.
Defined.

(** [command_unhandled] at a file that is not there and at an archive
    whose directory is truncated. *)
Lemma command_unhandled_witness :
  Cases.open "missing.smp" = inr (Fixtures.ENOENT "missing.smp")
  /\ Cases.command "missing.smp"
     = Exit ["x Invalid SMP file"; LF ++ "Errors:"; "  x File not found: missing.smp"] 1
  /\ Cases.open "corrupt.smp" = inl (Cases.zipAt "corrupt.smp")
  /\ exists e, zipFailure (Cases.zipAt "corrupt.smp") = Some e
               /\ Cases.command "corrupt.smp" = Unhandled e.
Proof.
  destruct (command_unhandled Cases.open Cases.JSONparse Cases.validateStyleMin
              "v" "x" "!" (fun s => s) (fun s => s) "corrupt.smp")
    as [_ Hrejects].
  split; [reflexivity|]. split; [reflexivity|]. split; [reflexivity|].
  eexists. split; [vm_compute; reflexivity|].
  exact (proj2 (Hrejects (Cases.zipAt "corrupt.smp") _ eq_refl (or_introl eq_refl))).
Defined.
